(** * djangobench: the benchmark harness of [djangobench.py]

    A shallow embedding of the Python 2 script and the properties of its
    measurement pipeline: discovery of benchmark directories, the repeated
    subprocess trials of [run_benchmark], the two environments built by
    [main], and the colouring of a comparison result.

    The script talks to the outside world through three libraries that are
    not part of it: the interpreter's builtins ([float], [sys.executable],
    [__file__], [%f] formatting), [unipath] (paths and directory listings)
    and [perf] (subprocess calls and statistics).  They are gathered in the
    class [Platform]; every definition below is generic in it. *)

From Stdlib Require Import ZArith QArith Ascii String.
From stdpp Require Import base option list strings gmap.

Local Open Scope Z_scope.

(** ** Python strings *)

Module Str.

Definition LF : ascii := ascii_of_nat 10.
Definition CR : ascii := ascii_of_nat 13.
Definition ESC : ascii := ascii_of_nat 27.

(** [sep.join(parts)] *)
Definition join (sep : string) (parts : list string) : string :=
  String.concat sep parts.

(** [sub in s] on [str]: substring test. *)
Fixpoint contains (sub s : string) : bool :=
  String.prefix sub s ||
  match s with
  | EmptyString => false
  | String _ s' => contains sub s'
  end.

(** [s.splitlines()] on a Python 2 byte string: lines end at LF, CR or
    CR LF; the terminators are dropped and a final terminator does not open
    an empty last line.  [cur] is the line being read. *)
Fixpoint splitlines_from (cur s : string) : list string :=
  match s with
  | EmptyString => if decide (cur = EmptyString) then [] else [cur]
  | String c s' =>
      if decide (c = LF) then cur :: splitlines_from EmptyString s'
      else if decide (c = CR) then
        match s' with
        | String c' s'' =>
            if decide (c' = LF) then cur :: splitlines_from EmptyString s''
            else cur :: splitlines_from EmptyString s'
        | EmptyString => [cur]
        end
      else splitlines_from (cur +:+ String c EmptyString) s'
  end.

Definition splitlines (s : string) : list string :=
  splitlines_from EmptyString s.

(** Whitespace of [str.strip()] in Python 2: space, TAB, LF, VT, FF, CR. *)
Definition is_space (c : ascii) : bool :=
  let n := nat_of_ascii c in
  Nat.eqb n 32 || (Nat.leb 9 n && Nat.leb n 13).

Fixpoint lstrip (s : string) : string :=
  match s with
  | EmptyString => EmptyString
  | String c s' => if is_space c then lstrip s' else s
  end.

Fixpoint rstrip (s : string) : string :=
  match s with
  | EmptyString => EmptyString
  | String c s' =>
      match rstrip s' with
      | EmptyString => if is_space c then EmptyString else String c EmptyString
      | r => String c r
      end
  end.

(** [s.strip()] *)
Definition strip (s : string) : string := rstrip (lstrip s).

End Str.

(** ** Exceptions, events and the program state *)

Inductive exn : Type :=
  | RuntimeError (msg : string)        (* a child process died *)
  | ValueError (arg : string)          (* [float] of a non-numeric string *)
  | UnboundLocalError (var : string)   (* a local read before assignment *)
  | OSError (path : string).           (* a directory that cannot be listed *)

Inductive result (A : Type) : Type :=
  | Ok (a : A)
  | Raise (e : exn).
Arguments Ok {A} a.
Arguments Raise {A} e.

(** Objects on the heap are named by locations; the only heap objects of the
    script whose identity matters are the environment dictionaries. *)
Definition loc := positive.
Abbreviation dict := (gmap string string).

(** What [perf.CallAndCaptureOutput] hands back: standard output, standard
    error and the memory figure ([None] when none was taken). *)
Definition captured : Type := string * string * option Z.

(** One subprocess invocation: the arguments of the call, the dictionary
    object passed as [env] together with its content at the time of the
    call, and what came back. *)
Record invocation := Invocation {
  inv_command : list string;
  inv_env_ref : loc;
  inv_env : dict;
  inv_track_memory : bool;
  inv_inherit_env : list string;
  inv_response : result captured
}.

Inductive event : Type :=
  | EvRemovePycs
  | EvCall (i : invocation)
  | EvPrint (line : string).

Record state := State {
  heap : gmap loc dict;
  trace : list event
}.

(** The subprocess invocations of a trace, oldest first. *)
Definition invocations (tr : list event) : list invocation :=
  omap (λ e, match e with EvCall i => Some i | _ => None end) tr.

(** The lines printed on standard output, oldest first. *)
Definition printed (tr : list event) : list string :=
  omap (λ e, match e with EvPrint s => Some s | _ => None end) tr.

(** ** The libraries the script runs on *)

(** [perf.BenchmarkResult]; [timeline] is what [get_timeline()] returns. *)
Record BenchmarkResult (Float : Type) := mkBenchmarkResult {
  min_base : Float; min_changed : Float; delta_min : string;
  avg_base : Float; avg_changed : Float; delta_avg : string;
  t_msg : string;
  std_base : Float; std_changed : Float; delta_std : string;
  timeline : string
}.
Arguments mkBenchmarkResult {Float}.
Arguments min_base {Float}. Arguments min_changed {Float}. Arguments delta_min {Float}.
Arguments avg_base {Float}. Arguments avg_changed {Float}. Arguments delta_avg {Float}.
Arguments t_msg {Float}.
Arguments std_base {Float}. Arguments std_changed {Float}. Arguments delta_std {Float}.
Arguments timeline {Float}.

(** What [perf.CompareBenchmarkData] returns: a [BenchmarkResult], or some
    other result object of which the script only takes [str(result)]. *)
Inductive comparison (Float : Type) : Type :=
  | IsBenchmarkResult (r : BenchmarkResult Float)
  | OtherResult (str : string).
Arguments IsBenchmarkResult {Float} r.
Arguments OtherResult {Float} str.

(** [perf.RawData(runtimes, mem_usage, inst_output)] *)
Record RawData (Float : Type) := mkRawData {
  runtimes : list Float;
  mem_usage : option Z;
  inst_output : string
}.
Arguments mkRawData {Float}.
Arguments runtimes {Float}. Arguments mem_usage {Float}. Arguments inst_output {Float}.

(** The [argparse.Namespace] that [main] builds for the comparison. *)
Record options := Options {
  track_memory : bool;
  diff_instrumentation : bool;
  benchmark_name : string;
  disable_timelines : bool;
  control_label : string;
  experiment_label : string
}.

Class Platform := {
  (* builtins *)
  Float : Type;
  float : string → option Float;            (* [None]: ValueError *)
  format_f : Float → string;                (* ["%f" % x] *)
  format_5f : Float → string;               (* ["%.5f" % x] *)
  sys_executable : string;
  file__ : string;                          (* [__file__] *)
  (* unipath; a [Path] is a [str] *)
  absolute : string → string;
  parent : string → string;
  name : string → string;
  child : string → string → string;
  listdir_DIRS : string → result (list string);   (* [listdir(filter=DIRS)] *)
  exists_ : string → bool;                  (* [Path.exists()] *)
  (* perf *)
  spawn : list event → list string → dict → bool → list string → result captured;
  CompareBenchmarkData :
    RawData Float → RawData Float → options → result (comparison Float)
}.

(** [spawn history command env track_memory inherit_env] is the outcome of
    the child process that [perf.CallAndCaptureOutput] starts after
    [history]: what it printed, or the exception of a child that could not
    be started or died.  A child may depend on everything that happened
    before it, so no two calls need agree.

    The directory tree is read through [listdir_DIRS] and [exists_], which
    depend on the path alone: the children are taken not to add or remove
    benchmark directories while the script runs.  [perf.RemovePycs] is taken
    to return normally, and [perf.CallAndCaptureOutput] to leave the
    dictionary it is passed as it is. *)

(** ** The monad of the script: state and exceptions *)

Definition M (A : Type) : Type := state → result A * state.

#[global] Instance M_ret : MRet M := λ A a st, (Ok a, st).
#[global] Instance M_bind : MBind M := λ A B f m st,
  match m st with
  | (Ok a, st') => f a st'
  | (Raise e, st') => (Raise e, st')
  end.

Definition raise {A} (e : exn) : M A := λ st, (Raise e, st).

Definition lift {A} (r : result A) : M A := λ st, (r, st).

Definition emit (e : event) : M unit :=
  λ st, (Ok tt, State (heap st) (trace st ++ [e])).

(** The [print] statement. *)
Definition print (line : string) : M unit := emit (EvPrint line).

(** A dictionary display [{...}] creates a new object. *)
Definition new_dict (d : dict) : M loc :=
  λ st, let l := fresh (dom (heap st)) in
        (Ok l, State (<[l := d]> (heap st)) (trace st)).

(** [d[key] = value] updates the object in place. *)
Definition setitem (l : loc) (key value : string) : M unit :=
  λ st, (Ok tt, State (alter (<[key := value]>) l (heap st)) (trace st)).

(** [for x in xs: body] *)
Fixpoint for_ {A} (xs : list A) (body : A → M unit) : M unit :=
  match xs with
  | [] => mret tt
  | x :: xs' => body x ;; for_ xs' body
  end.

(** ** class colorize *)

Module colorize.

Definition GOOD : string := String Str.ESC "[92m".
Definition INSIGNIFICANT : string := String Str.ESC "[94m".
Definition SIGNIFICANT : string := String Str.ESC "[93m".
Definition BAD : string := String Str.ESC "[91m".
Definition ENDC : string := String Str.ESC "[0m".

Definition colorize (color text : string) : string := color +:+ text +:+ ENDC.
Definition good (text : string) : string := colorize GOOD text.
Definition significant (text : string) : string := colorize SIGNIFICANT text.
Definition insignificant (text : string) : string := colorize INSIGNIFICANT text.
Definition bad (text : string) : string := colorize BAD text.

End colorize.

(** ** The script *)

Section Program.
Context `{P : Platform}.

(** *** perf *)

Definition RemovePycs : M unit := emit EvRemovePycs.

(** The call reads the dictionary behind [env] when it is made, and does not
    change it. *)
Definition CallAndCaptureOutput (command : list string) (env : loc)
    (track_memory : bool) (inherit_env : list string) : M captured :=
  λ st,
    let content := heap st !!! env in
    let r := spawn (trace st) command content track_memory inherit_env in
    (r, State (heap st)
          (trace st ++ [EvCall (Invocation command env content track_memory inherit_env r)])).

(** *** colorize_benchmark_result *)

Definition colorize_benchmark_result (result : comparison Float) : string :=
  match result with
  | IsBenchmarkResult result =>
      let output := EmptyString in
      let delta_min :=
        if Str.contains "faster" (delta_min result) then colorize.good (delta_min result)
        else if Str.contains "slower" (delta_min result) then colorize.bad (delta_min result)
        else delta_min result in
      let output := output +:+
        "Min: " +:+ format_f (min_base result) +:+ " -> " +:+ format_f (min_changed result)
        +:+ ": " +:+ delta_min +:+ String Str.LF EmptyString in
      let delta_avg :=
        if Str.contains "faster" (delta_avg result) then colorize.good (delta_avg result)
        else if Str.contains "slower" (delta_avg result) then colorize.bad (delta_avg result)
        else delta_avg result in
      let output := output +:+
        "Avg: " +:+ format_f (avg_base result) +:+ " -> " +:+ format_f (avg_changed result)
        +:+ ": " +:+ delta_avg +:+ String Str.LF EmptyString in
      let t_msg :=
        if Str.contains "Not significant" (t_msg result) then colorize.insignificant (t_msg result)
        else if Str.contains "Significant" (t_msg result) then colorize.significant (t_msg result)
        else t_msg result in
      let output := output +:+ t_msg in
      let delta_std :=
        if Str.contains "larger" (delta_std result) then colorize.bad (delta_std result)
        else if Str.contains "smaller" (delta_std result) then colorize.good (delta_std result)
        else delta_std result in
      let output := output +:+
        "Stddev: " +:+ format_5f (std_base result) +:+ " -> " +:+ format_5f (std_changed result)
        +:+ ": " +:+ delta_std in
      let output := output +:+ timeline result in
      output
  | OtherResult str => str
  end.

(** *** discover_benchmarks *)

(** The generator is represented by the list of the values it yields.  The
    directory is listed when the first value is asked for, and a directory
    that cannot be listed raises there. *)
Fixpoint discover_loop (apps : list string) : list string :=
  match apps with
  | [] => []
  | app :: apps' =>
      if exists_ (child app "benchmark.py") && exists_ (child app "settings.py")
      then app :: discover_loop apps'
      else discover_loop apps'
  end.

Definition discover_benchmarks (benchmark_dir : string) : result (list string) :=
  match listdir_DIRS benchmark_dir with
  | Ok apps => Ok (discover_loop apps)
  | Raise e => Raise e
  end.

(** *** run_benchmark *)

(** The locals of [run_benchmark] that the loop assigns; [stderr] and
    [mem_usage] are unbound ([None]) until the first pass. *)
Record locals := Locals {
  data_points : list Float;
  stderr : option string;
  mem_usage_ : option (option Z)
}.

(** [float(line) for line in lines], consumed in order: the first line that
    is not a number raises. *)
Fixpoint floats (lines : list string) : result (list Float) :=
  match lines with
  | [] => Ok []
  | line :: lines' =>
      match float line with
      | Some x =>
          match floats lines' with
          | Ok xs => Ok (x :: xs)
          | Raise e => Raise e
          end
      | None => Raise (ValueError line)
      end
  end.

(** [for i in range(trials)], as a count of passes left. *)
Fixpoint trials_loop (passes : nat) (command : list string) (env : loc)
    (vars : locals) : M locals :=
  match passes with
  | O => mret vars
  | S passes' =>
      output ← CallAndCaptureOutput command env false [];
      let '(stdout, stderr, mem_usage) := output in
      samples ← lift (floats (Str.splitlines stdout));
      trials_loop passes' command env
        (Locals (data_points vars ++ samples) (Some stderr) (Some mem_usage))
  end.

Definition benchmark_command (benchmark : string) : list string :=
  [sys_executable; benchmark +:+ "/benchmark.py"].

(** "Similar to perf.MeasureGeneric, but modified a bit for our purposes":
    remove the compiled files, call the command once to prime the pump, then
    do the actual measurements. *)
Definition run_benchmark (benchmark : string) (trials : Z) (env : loc)
    : M (RawData Float) :=
  RemovePycs ;;
  let command := benchmark_command benchmark in
  _ ← CallAndCaptureOutput command env false [];
  vars ← trials_loop (Z.to_nat trials) command env (Locals [] None None);
  match mem_usage_ vars with
  | None => raise (UnboundLocalError "mem_usage")
  | Some mem_usage =>
      match stderr vars with
      | None => raise (UnboundLocalError "stderr")
      | Some stderr => mret (mkRawData (data_points vars) mem_usage stderr)
      end
  end.

(** *** get_django_version *)

Definition version_command : list string :=
  [sys_executable; "-cimport django; print django.get_version()"].

(** The two adjacent literals of the source make one argument; the call
    leaves [track_memory] and [inherit_env] to their defaults. *)
Definition get_django_version (djangodir : string) : M string :=
  env ← new_dict {[ "PYTHONPATH" := absolute (parent djangodir) ]};
  output ← CallAndCaptureOutput version_command env false [];
  let '(out, err, _) := output in
  mret (Str.strip out).

(** *** main *)

Definition BENCMARK_DIR : string := child (parent file__) "benchmarks".

(** The value [main] gives to [PYTHONPATH] on the side whose framework tree
    is [tree]. *)
Definition PYTHONPATH (benchmark_dir tree : string) : string :=
  Str.join ":" [absolute benchmark_dir; absolute (parent tree); parent file__].

(** [not benchmarks or benchmark.name in benchmarks] *)
Definition selected (benchmarks : list string) (benchmark : string) : bool :=
  negb (bool_decide (benchmarks ≠ [])) || bool_decide (name benchmark ∈ benchmarks).

(** The body of the loop of [main] for one discovered benchmark. *)
Definition main_body (benchmarks : list string) (trials : Z)
    (control_label experiment_label : string) (control_env experiment_env : loc)
    (benchmark : string) : M unit :=
  if selected benchmarks benchmark then
    print ("Running '" +:+ name benchmark +:+ "' benchmark ...") ;;
    let settings_mod := name benchmark +:+ ".settings" in
    setitem control_env "DJANGO_SETTINGS_MODULE" settings_mod ;;
    setitem experiment_env "DJANGO_SETTINGS_MODULE" settings_mod ;;
    control_data ← run_benchmark benchmark trials control_env;
    experiment_data ← run_benchmark benchmark trials experiment_env;
    let options := Options false false (name benchmark) true control_label experiment_label in
    result ← lift (CompareBenchmarkData control_data experiment_data options);
    print (colorize_benchmark_result result) ;;
    print EmptyString
  else mret tt.

(** The list [results], which [main] creates and never uses, is left out. *)
Definition main (control experiment : string) (benchmarks : list string)
    (trials : Z) (benchmark_dir : string) : M unit :=
  (if bool_decide (benchmarks ≠ [])
   then print ("Running benchmarks: " +:+ Str.join " " benchmarks)
   else print "Running all benchmarks") ;;
  control_label ← get_django_version control;
  experiment_label ← get_django_version experiment;
  print ("Control: Django " +:+ control_label +:+ " (in " +:+ control +:+ ")") ;;
  print ("Experiment: Django " +:+ experiment_label +:+ " (in " +:+ experiment +:+ ")") ;;
  print EmptyString ;;
  control_env ← new_dict {[ "PYTHONPATH" := PYTHONPATH benchmark_dir control ]};
  experiment_env ← new_dict {[ "PYTHONPATH" := PYTHONPATH benchmark_dir experiment ]};
  discovered ← lift (discover_benchmarks benchmark_dir);
  for_ discovered
    (main_body benchmarks trials control_label experiment_label control_env experiment_env).

End Program.

(** ** Vocabulary of the statements *)

Section Vocabulary.
Context `{P : Platform}.

(** [n] successive calls with the same arguments, the first one made after
    the history [h]: each call is answered by the child started after all
    the earlier ones. *)
Fixpoint calls_from (h : list event) (command : list string) (env : loc)
    (content : dict) (n : nat) : list invocation :=
  match n with
  | O => []
  | S n' =>
      let i := Invocation command env content false []
                 (spawn h command content false []) in
      i :: calls_from (h ++ [EvCall i]) command env content n'
  end.

(** The child exited normally. *)
Definition succeeded (i : invocation) : Prop :=
  ∃ c, inv_response i = Ok c.

(** The child exited normally and every line it printed is a number. *)
Definition numeric (i : invocation) : Prop :=
  ∃ out err mem xs,
    inv_response i = Ok (out, err, mem) ∧ floats (Str.splitlines out) = Ok xs.

(** The samples an invocation printed, one per line. *)
Definition samples (i : invocation) : list Float :=
  match inv_response i with
  | Ok (out, _, _) =>
      match floats (Str.splitlines out) with
      | Ok xs => xs
      | Raise _ => []
      end
  | Raise _ => []
  end.

(** The locals of [run_benchmark] after a pass whose call was [i]. *)
Definition absorb (vars : locals) (i : invocation) : locals :=
  match inv_response i with
  | Ok (_, err, mem) => Locals (data_points vars ++ samples i) (Some err) (Some mem)
  | Raise _ => vars
  end.

(** The child exited normally and printed a line that is not a number. *)
Definition garbled (i : invocation) : Prop :=
  ∃ out err mem line,
    inv_response i = Ok (out, err, mem)
    ∧ line ∈ Str.splitlines out ∧ float line = None.

(** The invocations of [run_benchmark benchmark trials env] started in [st]
    when nothing stops it: the priming call, then one call per trial. *)
Definition benchmark_calls (benchmark : string) (trials : Z) (env : loc)
    (st : state) : list invocation :=
  calls_from (trace st ++ [EvRemovePycs]) (benchmark_command benchmark) env
    (heap st !!! env) (S (Z.to_nat trials)).

(** [xs] are the lines of the output of [i], read as numbers one by one. *)
Definition parsed (i : invocation) (xs : list Float) : Prop :=
  ∃ out err mem,
    inv_response i = Ok (out, err, mem)
    ∧ Forall2 (λ line x, float line = Some x) (Str.splitlines out) xs.

(** The locals of [run_benchmark benchmark trials env] when its loop is
    over, [run_benchmark] being started in [st]. *)
Definition locals_after_loop (benchmark : string) (trials : Z) (env : loc)
    (st : state) : result locals :=
  let primed :=
    (CallAndCaptureOutput (benchmark_command benchmark) env false []
       (State (heap st) (trace st ++ [EvRemovePycs]))).2 in
  (trials_loop (Z.to_nat trials) (benchmark_command benchmark) env
     (Locals [] None None) primed).1.

(** A subdirectory that holds both files of a benchmark. *)
Definition complete (app : string) : bool :=
  exists_ (child app "benchmark.py") && exists_ (child app "settings.py").

(** The layout of the report of a [BenchmarkResult], with the four texts
    that may be coloured left open. *)
Definition report (r : BenchmarkResult Float) (dmin davg tmsg dstd : string) : string :=
  "Min: " +:+ format_f (min_base r) +:+ " -> " +:+ format_f (min_changed r)
    +:+ ": " +:+ dmin +:+ String Str.LF EmptyString
  +:+ "Avg: " +:+ format_f (avg_base r) +:+ " -> " +:+ format_f (avg_changed r)
    +:+ ": " +:+ davg +:+ String Str.LF EmptyString
  +:+ tmsg
  +:+ "Stddev: " +:+ format_5f (std_base r) +:+ " -> " +:+ format_5f (std_changed r)
    +:+ ": " +:+ dstd
  +:+ timeline r.

(** [text] carries one keyword of the pair at most, as the texts of a
    comparator that labels its deltas consistently do. *)
Definition one_keyword (first second text : string) : Prop :=
  Str.contains first text = false ∨ Str.contains second text = false.

(** [painted] is [text] coloured by keyword.  A text that carries one
    keyword of the pair at most has the colour of the keyword it carries and
    is unchanged when it carries none; a text that carries the first keyword
    has the first colour in any case, also when it carries both. *)
Definition painted_by_keyword (first second : string)
    (paint_first paint_second : string → string) (text painted : string) : Prop :=
  (one_keyword first second text →
   (Str.contains first text = true → painted = paint_first text)
   ∧ (Str.contains second text = true → painted = paint_second text)
   ∧ (Str.contains first text = false → Str.contains second text = false →
      painted = text))
  ∧ (Str.contains first text = true → painted = paint_first text).

(** What identifies an invocation from the caller's side: the command, the
    dictionary object passed and its content at that time. *)
Definition shape (i : invocation) : list string * loc * dict :=
  (inv_command i, inv_env_ref i, inv_env i).

(** The environment a child of [benchmark] must see on the side whose
    framework tree is [tree]. *)
Definition benchmark_env (benchmark_dir tree benchmark : string) : dict :=
  <[ "DJANGO_SETTINGS_MODULE" := name benchmark +:+ ".settings" ]>
    {[ "PYTHONPATH" := PYTHONPATH benchmark_dir tree ]}.

(** The benchmarks [main] finds under [benchmark_dir]. *)
Definition discovered (benchmark_dir : string) : list string :=
  match discover_benchmarks benchmark_dir with
  | Ok apps => apps
  | Raise _ => []
  end.

(** One side of one benchmark: the priming call and the measured ones. *)
Definition side_block (benchmark_dir tree : string) (trials : Z) (env : loc)
    (benchmark : string) : list (list string * loc * dict) :=
  replicate (S (Z.to_nat trials))
    (benchmark_command benchmark, env, benchmark_env benchmark_dir tree benchmark).

(** One benchmark: its control side, then its experiment side, with the same
    number of trials. *)
Definition benchmark_block (benchmark_dir control experiment : string) (trials : Z)
    (control_env experiment_env : loc) (benchmark : string)
    : list (list string * loc * dict) :=
  side_block benchmark_dir control trials control_env benchmark
  ++ side_block benchmark_dir experiment trials experiment_env benchmark.

(** The benchmarks [main] is to run: the discovered ones that pass the
    filter of the requested names, in discovery order. *)
Definition chosen (benchmarks : list string) (benchmark_dir : string) : list string :=
  filter (λ b, selected benchmarks b = true) (discovered benchmark_dir).

(** The invocations of a complete run of [main], in order: the two version
    queries, then the selected benchmarks one after the other. *)
Definition plan (control experiment : string) (benchmarks : list string)
    (trials : Z) (benchmark_dir : string) (v_control v_experiment : loc)
    (control_env experiment_env : loc) : list (list string * loc * dict) :=
  [ (version_command, v_control, {[ "PYTHONPATH" := absolute (parent control) ]});
    (version_command, v_experiment, {[ "PYTHONPATH" := absolute (parent experiment) ]}) ]
  ++ flat_map
       (benchmark_block benchmark_dir control experiment trials control_env experiment_env)
       (chosen benchmarks benchmark_dir).

(** The two environment objects of [main] are in the heap, each with the
    module search path of its side and at most a settings module besides. *)
Definition envs_ready (benchmark_dir control experiment : string)
    (control_env experiment_env : loc) (h : gmap loc dict) : Prop :=
  control_env ≠ experiment_env
  ∧ (∃ d, h !! control_env = Some d
          ∧ ∀ s, <[ "DJANGO_SETTINGS_MODULE" := s ]> d
                 = <[ "DJANGO_SETTINGS_MODULE" := s ]>
                     {[ "PYTHONPATH" := PYTHONPATH benchmark_dir control ]})
  ∧ (∃ d, h !! experiment_env = Some d
          ∧ ∀ s, <[ "DJANGO_SETTINGS_MODULE" := s ]> d
                 = <[ "DJANGO_SETTINGS_MODULE" := s ]>
                     {[ "PYTHONPATH" := PYTHONPATH benchmark_dir experiment ]}).

(** Every child exits normally and prints numbers only, and every
    comparison gives a result. *)
Definition cooperative : Prop :=
  (∀ h command content, ∃ out err mem xs,
     spawn h command content false [] = Ok (out, err, mem)
     ∧ floats (Str.splitlines out) = Ok xs)
  ∧ (∀ c e o, ∃ r, CompareBenchmarkData c e o = Ok r).

(** Some invocation of [ivs] runs the entry point of [benchmark]. *)
Definition is_run (benchmark : string) (ivs : list invocation) : Prop :=
  ∃ i, i ∈ ivs ∧ inv_command i = benchmark_command benchmark.

(** No environment object serves two benchmarks. *)
Definition environments_fresh (ivs : list invocation) : Prop :=
  ∀ i j b b',
    i ∈ ivs → j ∈ ivs →
    inv_command i = benchmark_command b → inv_command j = benchmark_command b' →
    b ≠ b' → inv_env_ref i ≠ inv_env_ref j.

(** No environment object changes between two of its uses. *)
Definition environments_unchanged (ivs : list invocation) : Prop :=
  ∀ i j, i ∈ ivs → j ∈ ivs → inv_env_ref i = inv_env_ref j → inv_env i = inv_env j.

End Vocabulary.

(** ** Further vocabulary: what the script prints and leaves behind *)

Section Glossary.
Context `{P : Platform}.

(** The first line [main] prints. *)
Definition banner (benchmarks : list string) : string :=
  if bool_decide (benchmarks ≠ [])
  then "Running benchmarks: " +:+ Str.join " " benchmarks
  else "Running all benchmarks".

(** The lines [main] prints before it lists the benchmarks. *)
Definition header (control experiment : string) (benchmarks : list string)
    (control_label experiment_label : string) : list string :=
  [ banner benchmarks;
    "Control: Django " +:+ control_label +:+ " (in " +:+ control +:+ ")";
    "Experiment: Django " +:+ experiment_label +:+ " (in " +:+ experiment +:+ ")";
    EmptyString ].

(** The lines [main] prints for one benchmark that it runs to the end. *)
Definition benchmark_lines (benchmark report : string) : list string :=
  [ "Running '" +:+ name benchmark +:+ "' benchmark ..."; report; EmptyString ].

(** The environment of a version query. *)
Definition version_env (djangodir : string) : dict :=
  {[ "PYTHONPATH" := absolute (parent djangodir) ]}.

(** What a child printed, nothing for a child that died. *)
Definition stdout_of (i : invocation) : string :=
  match inv_response i with
  | Ok (out, _, _) => out
  | Raise _ => EmptyString
  end.

(** The four colour codes the class paints with. *)
Definition palette : list string :=
  [ colorize.GOOD; colorize.SIGNIFICANT; colorize.INSIGNIFICANT; colorize.BAD ].

(** The measurement [run_benchmark] builds from the calls it made: the
    samples of the measured calls, those of the priming call left out, with
    the memory figure and the standard error of the last call. *)
Definition measurement (calls : list invocation) : RawData Float :=
  match last calls with
  | Some i =>
      match inv_response i with
      | Ok (_, err, mem) => mkRawData (flat_map samples (tail calls)) mem err
      | Raise _ => mkRawData (flat_map samples (tail calls)) None EmptyString
      end
  | None => mkRawData [] None EmptyString
  end.

(** A series of calls from which [run_benchmark] builds a measurement:
    there is a trial, the priming call and one call for every trial were
    made, every child exited normally and the measured ones printed numbers
    only. *)
Definition built (trials : Z) (calls : list invocation) : Prop :=
  1 ≤ trials
  ∧ length calls = S (Z.to_nat trials)
  ∧ Forall succeeded calls
  ∧ Forall numeric (tail calls).

(** What [main] did for one benchmark: the calls of its control side and
    those of its experiment side, in the order they were made. *)
Record pass := Pass {
  pass_benchmark : string;
  pass_control : list invocation;
  pass_experiment : list invocation
}.

Definition pass_calls (p : pass) : list invocation :=
  pass_control p ++ pass_experiment p.

(** The calls of each side run the benchmark in the environment of that
    side. *)
Definition pass_sides (benchmark_dir control experiment : string)
    (control_env experiment_env : loc) (p : pass) : Prop :=
  Forall (λ i, shape i = (benchmark_command (pass_benchmark p), control_env,
                          benchmark_env benchmark_dir control (pass_benchmark p)))
    (pass_control p)
  ∧ Forall (λ i, shape i = (benchmark_command (pass_benchmark p), experiment_env,
                            benchmark_env benchmark_dir experiment (pass_benchmark p)))
      (pass_experiment p).

(** The control side goes first: it is called at least once, neither side
    more often than once more than there are trials, and when the
    experiment side is called at all the control side is over and its
    measurement built. *)
Definition pass_in_turn (trials : Z) (p : pass) : Prop :=
  (1 ≤ length (pass_control p) ≤ S (Z.to_nat trials))%nat
  ∧ (length (pass_experiment p) ≤ S (Z.to_nat trials))%nat
  ∧ (pass_experiment p ≠ [] → built trials (pass_control p)).

(** Both sides are over and their measurements built. *)
Definition pass_full (trials : Z) (p : pass) : Prop :=
  built trials (pass_control p) ∧ built trials (pass_experiment p).

(** The comparison of the two measurements of a pass. *)
Definition pass_result (control_label experiment_label : string) (p : pass)
    : result (comparison Float) :=
  CompareBenchmarkData (measurement (pass_control p)) (measurement (pass_experiment p))
    (Options false false (name (pass_benchmark p)) true control_label experiment_label).

(** Both sides are over and the comparison of their measurements gave a
    result. *)
Definition pass_done (trials : Z) (control_label experiment_label : string)
    (p : pass) : Prop :=
  pass_full trials p ∧ ∃ r, pass_result control_label experiment_label p = Ok r.

(** The report of a pass: its comparison, coloured. *)
Definition pass_report (control_label experiment_label : string) (p : pass) : string :=
  match pass_result control_label experiment_label p with
  | Ok r => colorize_benchmark_result r
  | Raise _ => EmptyString
  end.

(** The lines [main] prints for a pass that it ran to the end. *)
Definition pass_lines (control_label experiment_label : string) (p : pass)
    : list string :=
  benchmark_lines (pass_benchmark p) (pass_report control_label experiment_label p).

(** Both environments after their settings module was set to [s]. *)
Definition stamp (control_env experiment_env : loc) (s : string)
    (h : gmap loc dict) : gmap loc dict :=
  alter (<[ "DJANGO_SETTINGS_MODULE" := s ]>) experiment_env
    (alter (<[ "DJANGO_SETTINGS_MODULE" := s ]>) control_env h).

(** The start of [main]: the version query of the control tree, asked after
    the banner is printed, with the dictionary made for it; then the same
    for the experiment tree; then the two environments; [ready] is the state
    in which the loop over the benchmarks starts. *)
Definition asked_control (benchmarks : list string) (control : string)
    (st : state) : invocation :=
  Invocation version_command (fresh (dom (heap st))) (version_env control) false []
    (spawn (trace st ++ [EvPrint (banner benchmarks)]) version_command
       (version_env control) false []).

Definition heap_control (control : string) (st : state) : gmap loc dict :=
  <[ fresh (dom (heap st)) := version_env control ]> (heap st).

Definition asked_experiment (benchmarks : list string) (control experiment : string)
    (st : state) : invocation :=
  Invocation version_command (fresh (dom (heap_control control st)))
    (version_env experiment) false []
    (spawn ((trace st ++ [EvPrint (banner benchmarks)])
            ++ [EvCall (asked_control benchmarks control st)])
       version_command (version_env experiment) false []).

Definition heap_experiment (control experiment : string) (st : state) : gmap loc dict :=
  <[ fresh (dom (heap_control control st)) := version_env experiment ]>
    (heap_control control st).

Definition control_env_of (control experiment : string) (st : state) : loc :=
  fresh (dom (heap_experiment control experiment st)).

Definition experiment_env_of (benchmark_dir control experiment : string)
    (st : state) : loc :=
  fresh (dom (<[ control_env_of control experiment st
                 := {[ "PYTHONPATH" := PYTHONPATH benchmark_dir control ]} ]>
                (heap_experiment control experiment st))).

Definition control_label_of (benchmarks : list string) (control : string)
    (st : state) : string :=
  Str.strip (stdout_of (asked_control benchmarks control st)).

Definition experiment_label_of (benchmarks : list string) (control experiment : string)
    (st : state) : string :=
  Str.strip (stdout_of (asked_experiment benchmarks control experiment st)).

Definition ready (benchmarks : list string) (control experiment benchmark_dir : string)
    (st : state) : state :=
  State
    (<[ experiment_env_of benchmark_dir control experiment st
        := {[ "PYTHONPATH" := PYTHONPATH benchmark_dir experiment ]} ]>
       (<[ control_env_of control experiment st
           := {[ "PYTHONPATH" := PYTHONPATH benchmark_dir control ]} ]>
          (heap_experiment control experiment st)))
    (trace st
     ++ [ EvPrint (banner benchmarks);
          EvCall (asked_control benchmarks control st);
          EvCall (asked_experiment benchmarks control experiment st);
          EvPrint ("Control: Django " +:+ control_label_of benchmarks control st
                   +:+ " (in " +:+ control +:+ ")");
          EvPrint ("Experiment: Django "
                   +:+ experiment_label_of benchmarks control experiment st
                   +:+ " (in " +:+ experiment +:+ ")");
          EvPrint EmptyString ]).

(** A text, coloured after the first of two keywords it has. *)
Definition keyword_paint (first second : string)
    (paint_first paint_second : string → string) (text : string) : string :=
  if Str.contains first text then paint_first text
  else if Str.contains second text then paint_second text
  else text.

(** The text begins, respectively ends, with a whitespace character. *)
Definition head_space (s : string) : bool :=
  match s with
  | EmptyString => false
  | String c _ => Str.is_space c
  end.

Fixpoint last_space (s : string) : bool :=
  match s with
  | EmptyString => false
  | String c EmptyString => Str.is_space c
  | String _ s' => last_space s'
  end.

End Glossary.

(** ** A scripted platform for examples

    Decimal numerals are read as rationals, paths are POSIX strings, the
    directory tree is a fixed table and the children are scripted. *)

Module Lab.

Definition digit (c : ascii) : option Z :=
  let n := nat_of_ascii c in
  if (Nat.leb 48 n && Nat.leb n 57)%bool then Some (Z.of_nat n - 48) else None.

Fixpoint decimal (s : string) (dot : bool) (num : Z) (scale : positive)
    (digits : nat) : option Q :=
  match s with
  | EmptyString => if Nat.eqb digits 0 then None else Some (Qred (num # scale))
  | String c s' =>
      if decide (c = "."%char) then
        if dot then None else decimal s' true num scale digits
      else
        match digit c with
        | Some d =>
            decimal s' dot (10 * num + d) (if dot then 10 * scale else scale)%positive
              (S digits)
        | None => None
        end
  end.

Definition read_float (s : string) : option Q :=
  match s with
  | String "-"%char s' => Qopp <$> decimal s' false 0 1 0
  | _ => decimal s false 0 1 0
  end.

Fixpoint has_slash (s : string) : bool :=
  match s with
  | EmptyString => false
  | String c s' => bool_decide (c = "/"%char) || has_slash s'
  end.

Fixpoint basename (s : string) : string :=
  match s with
  | EmptyString => EmptyString
  | String c s' => if has_slash s then basename s' else s
  end.

Fixpoint dirname (s : string) : string :=
  match s with
  | EmptyString => EmptyString
  | String c s' => if has_slash s' then String c (dirname s') else EmptyString
  end.

Definition root : string := "/bench".

(** [A] and [C] are complete benchmarks, [B] lacks its settings. *)
Definition files : list string :=
  [ "/bench/A/benchmark.py"; "/bench/A/settings.py";
    "/bench/B/benchmark.py";
    "/bench/C/benchmark.py"; "/bench/C/settings.py" ].

Definition listing (dir : string) : result (list string) :=
  if decide (dir = root) then Ok ["/bench/A"; "/bench/B"; "/bench/C"]
  else Raise (OSError dir).

Definition compare (c e : RawData Q) (o : options) : result (comparison Q) :=
  Ok (OtherResult (benchmark_name o)).

(** All three are complete benchmarks. *)
Definition files3 : list string :=
  [ "/bench/A/benchmark.py"; "/bench/A/settings.py";
    "/bench/B/benchmark.py"; "/bench/B/settings.py";
    "/bench/C/benchmark.py"; "/bench/C/settings.py" ].

Definition platform_on (files : list string)
    (script : list event → list string → dict → result captured) : Platform :=
  {| Float := Q;
     float := read_float;
     format_f := λ _, "%f";
     format_5f := λ _, "%.5f";
     sys_executable := "python";
     file__ := "/tool/djangobench.py";
     absolute := id;
     parent := dirname;
     name := basename;
     child := λ p c, p +:+ "/" +:+ c;
     listdir_DIRS := listing;
     exists_ := λ p, bool_decide (p ∈ files);
     spawn := λ h command env _ _, script h command env;
     CompareBenchmarkData := compare |}.

Definition platform
    (script : list event → list string → dict → result captured) : Platform :=
  platform_on files script.

Definition out (text : string) : result captured :=
  Ok (text +:+ String Str.LF EmptyString, EmptyString, None).

(** Every child prints the line ["1.5"]. *)
Definition steady : Platform := platform (λ _ _ _, out "1.5").

Definition steady3 : Platform := platform_on files3 (λ _ _ _, out "1.5").

(** The children print ["1.0"], ["2.0"], ["3.0"], ... according to the number
    of calls made before them, and report that number as memory figure. *)
Definition counting : Platform :=
  platform (λ h _ _,
    let n := length (invocations h) in
    Ok (String (ascii_of_nat (48 + n)) ".0" +:+ String Str.LF EmptyString,
        String (ascii_of_nat (97 + n)) EmptyString, Some (Z.of_nat n))).

(** The second child prints a line that is not a number. *)
Definition garbled : Platform :=
  platform (λ h _ _,
    if Nat.eqb (length (invocations h)) 1
    then out ("1.0" +:+ String Str.LF "abc") else out "1.0").

Definition init : state := State ∅ [].

(** A comparison whose minimum delta carries both keywords. *)
Definition mixed : BenchmarkResult Q :=
  mkBenchmarkResult 1%Q 2%Q "2.00x slower (was faster)" 1%Q 2%Q "2.00x slower"
    "Significant (t=3.0, a=0.95)" 1%Q 2%Q "1.50x larger" EmptyString.

Definition plain : BenchmarkResult Q :=
  mkBenchmarkResult 2%Q 1%Q "2.00x faster" 1%Q 1%Q "no change"
    "Not significant" 2%Q 1%Q "1.50x smaller" EmptyString.

(** The children print nothing. *)
Definition silent : Platform :=
  platform (λ _ _ _, Ok (EmptyString, EmptyString, None)).

(** The third child dies. *)
Definition dying : Platform :=
  platform (λ h _ _,
    if Nat.eqb (length (invocations h)) 2
    then Raise (RuntimeError "Benchmark died: boom") else out "1.0").

(** The first child dies. *)
Definition stillborn : Platform :=
  platform (λ h _ _,
    if Nat.eqb (length (invocations h)) 0
    then Raise (RuntimeError "Benchmark died: no django") else out "1.0").


(** A state with one dictionary in it. *)
Definition busy : state :=
  State {[ 1%positive := {[ "HOME" := "/root" ]} ]} [EvPrint "before"].

End Lab.

(** ** Python strings on examples *)

Example splitlines_three :
  Str.splitlines ("1.0" +:+ String Str.LF ("2.0" +:+ String Str.LF "3.0"))
  = ["1.0"; "2.0"; "3.0"].
Proof. reflexivity. Qed.

Example splitlines_terminators :
  Str.splitlines ("a" +:+ String Str.CR (String Str.LF ("b" +:+ String Str.CR
                    ("c" +:+ String Str.LF (String Str.LF "d")))))
  = ["a"; "b"; "c"; EmptyString; "d"]
  ∧ Str.splitlines EmptyString = []
  ∧ Str.splitlines (String Str.LF EmptyString) = [EmptyString].
Proof. repeat split; reflexivity. Qed.

Example strip_version :
  Str.strip (" 1.5 " +:+ String Str.LF EmptyString) = "1.5".
Proof. reflexivity. Qed.

Example join_colon : Str.join ":" ["/bench"; "/c"; "/tool"] = "/bench:/c:/tool".
Proof. reflexivity. Qed.

(** ** Reasoning about the monad *)

Lemma bind_eq {A B} (m : M A) (f : A → M B) (st : state) :
  (m ≫= f) st =
  match m st with
  | (Ok a, st') => f a st'
  | (Raise e, st') => (Raise e, st')
  end.
Proof. reflexivity. Qed.

(** One statement of the script that only prints, stores into a dictionary
    or creates one: the state after it is known outright. *)
Ltac step_print :=
  rewrite bind_eq; unfold print at 1, emit at 1; cbv beta iota zeta; cbn [heap trace].
Ltac step_setitem :=
  rewrite bind_eq; unfold setitem at 1; cbv beta iota; cbn [heap trace].
Ltac step_new_dict :=
  rewrite bind_eq; unfold new_dict at 1; cbv beta iota zeta; cbn [heap trace].

Lemma invocations_app tr1 tr2 :
  invocations (tr1 ++ tr2) = invocations tr1 ++ invocations tr2.
Proof. apply omap_app. Qed.

Lemma invocations_calls (ivs : list invocation) :
  invocations (map EvCall ivs) = ivs.
Proof. induction ivs as [|i ivs IH]; simpl; [done|]. by f_equal. Qed.

Lemma invocations_run tr (ivs : list invocation) :
  invocations (tr ++ EvRemovePycs :: map EvCall ivs) = invocations tr ++ ivs.
Proof.
  rewrite invocations_app. f_equal. apply invocations_calls.
Qed.

Section Trials.
Context `{P : Platform}.

(** *** Parsing the lines of one output *)

Lemma floats_Ok lines xs :
  floats lines = Ok xs ↔ Forall2 (λ line x, float line = Some x) lines xs.
Proof.
  revert xs. induction lines as [|line lines IH]; intros xs; simpl.
  - split.
    + intros [= <-]. constructor.
    + intros H. inversion H. reflexivity.
  - destruct (float line) as [x|] eqn:Hx.
    + destruct (floats lines) as [ys|e] eqn:Hys.
      * split.
        -- intros [= <-]. constructor; [done|]. by apply IH.
        -- intros H. inversion H as [|? x' ? ys' Hx' Hrest]; subst.
           apply IH in Hrest. congruence.
      * split; [discriminate|].
        intros H. inversion H as [|? x' ? ys' Hx' Hrest]; subst.
        apply IH in Hrest. discriminate.
    + split; [discriminate|].
      intros H. inversion H; subst. congruence.
Qed.

(** The exception names the first line that is not a number. *)
Lemma floats_first_bad good line rest :
  Forall (λ l, is_Some (float l)) good → float line = None →
  floats (good ++ line :: rest) = Raise (ValueError line).
Proof.
  intros Hgood Hline. induction Hgood as [|g good [x Hx] _ IH]; simpl.
  - by rewrite Hline.
  - by rewrite Hx, IH.
Qed.

Lemma floats_Raise lines e :
  floats lines = Raise e ↔
  ∃ good line rest,
    lines = good ++ line :: rest ∧ Forall (λ l, is_Some (float l)) good
    ∧ float line = None ∧ e = ValueError line.
Proof.
  split.
  - revert e. induction lines as [|line lines IH]; intros e; simpl; [discriminate|].
    destruct (float line) as [x|] eqn:Hx.
    + destruct (floats lines) as [ys|e'] eqn:Hys; [discriminate|].
      intros [= <-].
      destruct (IH e' eq_refl) as (good & l & rest & -> & Hgood & Hl & ->).
      exists (line :: good), l, rest. repeat split; [|done].
      constructor; [by rewrite Hx|done].
    + intros [= <-]. by exists [], line, lines.
  - intros (good & l & rest & -> & Hgood & Hl & ->). by apply floats_first_bad.
Qed.

Lemma floats_total lines :
  (∃ xs, floats lines = Ok xs) ∨ (∃ line, line ∈ lines ∧ float line = None
                                    ∧ floats lines = Raise (ValueError line)).
Proof.
  destruct (floats lines) as [xs|e] eqn:H; [left; eauto|right].
  apply floats_Raise in H as (good & l & rest & -> & _ & Hl & ->).
  exists l. split; [|done]. apply elem_of_app. right. left.
Qed.

(** *** One call *)

Lemma call_eq command env st :
  let i := Invocation command env (heap st !!! env) false []
             (spawn (trace st) command (heap st !!! env) false []) in
  CallAndCaptureOutput command env false [] st
  = (inv_response i, State (heap st) (trace st ++ [EvCall i])).
Proof. reflexivity. Qed.

Lemma numeric_succeeded i : numeric i → succeeded i.
Proof. intros (out & err & mem & xs & H & _). by eexists. Qed.

Lemma numeric_samples i out err mem :
  numeric i → inv_response i = Ok (out, err, mem) →
  floats (Str.splitlines out) = Ok (samples i).
Proof.
  intros (out' & err' & mem' & xs & H & Hxs) Hi.
  rewrite Hi in H. simplify_eq. unfold samples. by rewrite Hi, Hxs.
Qed.

Lemma calls_from_length h command env content n :
  length (calls_from h command env content n) = n.
Proof. revert h. induction n as [|n IH]; intros h; simpl; [done|]. by rewrite IH. Qed.

Lemma calls_from_shape h command env content n :
  map shape (calls_from h command env content n) = replicate n (command, env, content).
Proof. revert h. induction n as [|n IH]; intros h; simpl; [done|]. by rewrite IH. Qed.

(** *** The loop over the trials *)

(** When every child of the loop prints numbers only, the loop runs all its
    passes and its locals are those of the calls absorbed in order. *)
Lemma trials_loop_numeric n command env vars st :
  Forall numeric (calls_from (trace st) command env (heap st !!! env) n) →
  trials_loop n command env vars st
  = (Ok (foldl absorb vars (calls_from (trace st) command env (heap st !!! env) n)),
     State (heap st)
       (trace st ++ map EvCall (calls_from (trace st) command env (heap st !!! env) n))).
Proof.
  revert vars st. induction n as [|n IH]; intros vars st Hnum; simpl.
  - rewrite app_nil_r. by destruct st.
  - inversion Hnum as [|i rest Hi Hrest]; subst.
    rewrite bind_eq, call_eq. simpl.
    destruct Hi as (out & err & mem & xs & Hresp & Hxs). simpl in Hresp.
    rewrite Hresp in Hrest |- *. rewrite bind_eq. unfold lift. rewrite Hxs.
    rewrite IH; simpl; [|done].
    rewrite <- app_assoc. simpl. do 3 f_equal.
    unfold absorb, samples. simpl. by rewrite Hxs.
Qed.

(** Whatever the children do, the loop leaves the heap alone and has made
    some first calls of the run; when it returns it has made them all and
    every one printed numbers only. *)
Lemma trials_loop_outcome n command env vars st :
  ∃ k, (k ≤ n)%nat
    ∧ heap (trials_loop n command env vars st).2 = heap st
    ∧ trace (trials_loop n command env vars st).2
      = trace st ++ map EvCall (calls_from (trace st) command env (heap st !!! env) k)
    ∧ (∀ vars', (trials_loop n command env vars st).1 = Ok vars' →
         k = n ∧ Forall numeric (calls_from (trace st) command env (heap st !!! env) n)).
Proof.
  revert vars st. induction n as [|n IH]; intros vars st; simpl.
  - exists 0%nat. simpl. rewrite app_nil_r. repeat split; done.
  - rewrite bind_eq, call_eq. simpl.
    set (i := Invocation command env (heap st !!! env) false []
                (spawn (trace st) command (heap st !!! env) false [])).
    destruct (spawn (trace st) command (heap st !!! env) false [])
      as [[[out err] mem]|e] eqn:Hresp.
    + rewrite bind_eq. unfold lift.
      destruct (floats (Str.splitlines out)) as [xs|e] eqn:Hxs.
      * destruct (IH (Locals (data_points vars ++ xs) (Some err) (Some mem))
                    (State (heap st) (trace st ++ [EvCall i])))
          as (k & Hk & Hheap & Htrace & Hok).
        exists (S k). split; [lia|]. split; [exact Hheap|]. split.
        -- rewrite Htrace. simpl. rewrite Hresp. by rewrite <- app_assoc.
        -- intros vars' Hvars'. destruct (Hok vars' Hvars') as [-> Hnum].
           split; [done|]. simpl. constructor; [|exact Hnum].
           exists out, err, mem, xs. done.
      * exists 1%nat. simpl. rewrite Hresp.
        split; [lia|]. split; [done|]. split; [done|]. intros ? [=].
    + exists 1%nat. simpl. rewrite Hresp.
      split; [lia|]. split; [done|]. split; [done|]. intros ? [=].
Qed.

(** A child that exits normally but prints a line that is not a number stops
    the loop with the [ValueError] of that line, if the children before it
    all printed numbers only. *)
Lemma trials_loop_garbled n command env vars st good i rest :
  calls_from (trace st) command env (heap st !!! env) n = good ++ i :: rest →
  Forall numeric good → succeeded i → ¬ numeric i →
  ∃ out err mem line,
    inv_response i = Ok (out, err, mem)
    ∧ line ∈ Str.splitlines out ∧ float line = None
    ∧ trials_loop n command env vars st
      = (Raise (ValueError line),
         State (heap st) (trace st ++ map EvCall (good ++ [i]))).
Proof.
  revert vars st good. induction n as [|n IH]; intros vars st good Hcalls Hgood Hi Hbad.
  - simpl in Hcalls. by destruct good.
  - simpl in Hcalls. simpl. rewrite bind_eq, call_eq. simpl.
    destruct good as [|g good]; simpl in Hcalls; injection Hcalls as Hhd Htl.
    + destruct Hi as [[[out err] mem] Hresp]. rewrite <- Hhd in Hresp.
      simpl in Hresp. rewrite Hresp in Hhd |- *.
      rewrite bind_eq. unfold lift.
      destruct (floats_total (Str.splitlines out)) as [[xs Hxs]|(line & Hin & Hline & Hxs)].
      * exfalso. apply Hbad. exists out, err, mem, xs. by rewrite <- Hhd.
      * exists out, err, mem, line. rewrite Hxs, <- Hhd. done.
    + inversion Hgood as [|? ? Hg Hgood']; subst g.
      destruct Hg as (out & err & mem & xs & Hresp & Hxs). simpl in Hresp.
      rewrite Hresp in Htl |- *. rewrite bind_eq. unfold lift. rewrite Hxs.
      match goal with
      | |- context [trials_loop n command env ?v ?s] =>
          destruct (IH v s good) as (out' & err' & mem' & line & H1 & H2 & H3 & H4);
            [done..|]
      end.
      exists out', err', mem', line. repeat split; [done..|].
      rewrite H4. simpl. by rewrite <- app_assoc.
Qed.

(** *** The locals after the loop *)

Lemma absorb_data_points vars ivs :
  data_points (foldl absorb vars ivs) = data_points vars ++ flat_map samples ivs.
Proof.
  revert vars. induction ivs as [|i ivs IH]; intros vars; simpl.
  - by rewrite app_nil_r.
  - rewrite IH. unfold absorb, samples.
    destruct (inv_response i) as [[[out err] mem]|e]; simpl; [|done].
    by rewrite <- app_assoc.
Qed.

(** [stderr] and [mem_usage] are those of the last pass. *)
Lemma absorb_last vars ivs i out err mem :
  last ivs = Some i → inv_response i = Ok (out, err, mem) →
  stderr (foldl absorb vars ivs) = Some err
  ∧ mem_usage_ (foldl absorb vars ivs) = Some mem.
Proof.
  intros Hlast Hresp. destruct (last_Some ivs i) as [[front ->] _]; [done|].
  rewrite foldl_app. simpl. unfold absorb at 1 3. by rewrite Hresp.
Qed.

Lemma numeric_dec i : numeric i ∨ ¬ numeric i.
Proof.
  destruct (inv_response i) as [[[out err] mem]|e] eqn:Hresp.
  - destruct (floats (Str.splitlines out)) as [xs|e] eqn:Hxs.
    + left. by exists out, err, mem, xs.
    + right. intros (out' & err' & mem' & xs & H & Hxs'). congruence.
  - right. intros (out' & err' & mem' & xs & H & Hxs'). congruence.
Qed.

Lemma garbled_not_numeric i : garbled i → succeeded i ∧ ¬ numeric i.
Proof.
  intros (out & err & mem & line & Hresp & Hin & Hline). split; [by eexists|].
  intros (out' & err' & mem' & xs & Hresp' & Hxs).
  rewrite Hresp in Hresp'. simplify_eq.
  apply floats_Ok in Hxs.
  apply list_elem_of_lookup in Hin as [k Hk].
  destruct (Forall2_lookup_l _ _ _ _ _ Hxs Hk) as (x & _ & Hx). congruence.
Qed.

(** The first invocation of a list that did not print numbers only. *)
Lemma first_not_numeric ivs :
  Exists (λ i, ¬ numeric i) ivs →
  ∃ good i rest, ivs = good ++ i :: rest ∧ Forall numeric good ∧ ¬ numeric i.
Proof.
  induction ivs as [|j ivs IH]; intros Hex; [by inversion Hex|].
  destruct (numeric_dec j) as [Hj|Hj].
  - inversion Hex as [|? ? Hrest]; subst; [done|].
    destruct (IH Hrest) as (good & i & rest & -> & Hgood & Hi).
    exists (j :: good), i, rest. repeat split; [|done]. by constructor.
  - exists [], j, ivs. repeat split; [constructor|done].
Qed.

(** *** run_benchmark *)

Lemma run_benchmark_eq benchmark trials env st :
  run_benchmark benchmark trials env st =
  match CallAndCaptureOutput (benchmark_command benchmark) env false []
          (State (heap st) (trace st ++ [EvRemovePycs])) with
  | (Ok _, st1) =>
      match trials_loop (Z.to_nat trials) (benchmark_command benchmark) env
              (Locals [] None None) st1 with
      | (Ok vars, st2) =>
          match mem_usage_ vars with
          | None => (Raise (UnboundLocalError "mem_usage"), st2)
          | Some mem_usage =>
              match stderr vars with
              | None => (Raise (UnboundLocalError "stderr"), st2)
              | Some stderr => (Ok (mkRawData (data_points vars) mem_usage stderr), st2)
              end
          end
      | (Raise e, st2) => (Raise e, st2)
      end
  | (Raise e, st1) => (Raise e, st1)
  end.
Proof.
  unfold run_benchmark. rewrite bind_eq.
  change (RemovePycs st) with (Ok tt, State (heap st) (trace st ++ [EvRemovePycs])).
  cbv beta iota. rewrite bind_eq.
  destruct (CallAndCaptureOutput _ _ _ _ _) as [[c|e] st1]; [|done].
  rewrite bind_eq. destruct (trials_loop _ _ _ _ _) as [[vars|e] st2]; [|done].
  destruct (mem_usage_ vars); [|done]. by destruct (stderr vars).
Qed.

(** With at least one trial, children that all exit normally and measured
    children that print numbers only, [run_benchmark] returns: it has made
    exactly the calls of [benchmark_calls], its samples are those of the
    measured calls in order, and its memory figure and standard error are
    those of the last call. *)
Lemma run_benchmark_complete benchmark trials env st :
  1 ≤ trials →
  Forall succeeded (benchmark_calls benchmark trials env st) →
  Forall numeric (tail (benchmark_calls benchmark trials env st)) →
  ∃ i out err mem,
    last (benchmark_calls benchmark trials env st) = Some i
    ∧ inv_response i = Ok (out, err, mem)
    ∧ run_benchmark benchmark trials env st
      = (Ok (mkRawData (flat_map samples (tail (benchmark_calls benchmark trials env st)))
               mem err),
         State (heap st)
           (trace st ++ EvRemovePycs
              :: map EvCall (benchmark_calls benchmark trials env st))).
Proof.
  intros Htrials Hsucc Hnum. unfold benchmark_calls in *. simpl in *.
  inversion Hsucc as [|prime measured [c Hprime] _]; subst. simpl in Hprime.
  set (h1 := (trace st ++ [EvRemovePycs]) ++ _) in *.
  set (measured := calls_from h1 _ _ _ _) in *.
  assert (measured ≠ []) as Hne.
  { intros Hnil. apply (f_equal length) in Hnil. unfold measured in Hnil.
    rewrite calls_from_length in Hnil. simpl in Hnil. lia. }
  destruct (last measured) as [i|] eqn:Hlast; [|by apply last_None in Hlast].
  assert (numeric i) as Hi.
  { eapply Forall_forall; [exact Hnum|]. apply last_Some in Hlast as [front ->].
    apply elem_of_app. right. left. }
  pose proof Hi as (out & err & mem & xs & Hresp & _).
  exists i, out, err, mem. split; [|split; [done|]].
  - destruct measured; [done|]. simpl in *. done.
  - rewrite run_benchmark_eq, call_eq. simpl. rewrite Hprime.
    pose proof (trials_loop_numeric (Z.to_nat trials) (benchmark_command benchmark) env
                  (Locals [] None None)
                  (State (heap st) h1)) as Hloop.
    simpl in Hloop. fold measured in Hloop. unfold h1 in Hloop at 1.
    rewrite Hprime in Hloop. rewrite Hloop; [|done].
    destruct (absorb_last (Locals [] None None) measured i out err mem Hlast Hresp)
      as [-> ->].
    rewrite absorb_data_points. simpl. unfold h1. rewrite Hprime.
    by rewrite <- !app_assoc.
Qed.

(** Whatever the children do, [run_benchmark] leaves the heap alone and has
    made some first calls of [benchmark_calls]; it returns only with at
    least one trial, after all the calls, every child having exited normally
    and every measured child having printed numbers only. *)
Lemma run_benchmark_outcome benchmark trials env st :
  ∃ k, (1 ≤ k ≤ S (Z.to_nat trials))%nat
    ∧ heap (run_benchmark benchmark trials env st).2 = heap st
    ∧ trace (run_benchmark benchmark trials env st).2
      = trace st ++ EvRemovePycs
          :: map EvCall (calls_from (trace st ++ [EvRemovePycs])
                           (benchmark_command benchmark) env (heap st !!! env) k)
    ∧ (∀ rd, (run_benchmark benchmark trials env st).1 = Ok rd →
         k = S (Z.to_nat trials) ∧ 1 ≤ trials
         ∧ Forall succeeded (benchmark_calls benchmark trials env st)
         ∧ Forall numeric (tail (benchmark_calls benchmark trials env st))).
Proof.
  rewrite run_benchmark_eq, call_eq. unfold benchmark_calls. simpl.
  destruct (spawn (trace st ++ [EvRemovePycs]) (benchmark_command benchmark)
              (heap st !!! env) false []) as [c|e] eqn:Hprime.
  - match goal with
    | |- context [trials_loop ?n ?c ?e ?v ?s] =>
        destruct (trials_loop_outcome n c e v s) as (k & Hk & Hheap & Htrace & Hok);
        destruct (trials_loop n c e v s) as [[vars|e'] st2] eqn:Hloop
    end; simpl in *.
    + destruct (Hok vars eq_refl) as [-> Hnum].
      exists (S (Z.to_nat trials)). simpl. rewrite Hprime.
      assert (trace st2 = trace st ++ EvRemovePycs :: EvCall
                (Invocation (benchmark_command benchmark) env (heap st !!! env)
                   false [] (Ok c))
                :: map EvCall (calls_from
                     ((trace st ++ [EvRemovePycs]) ++
                      [EvCall (Invocation (benchmark_command benchmark) env
                                 (heap st !!! env) false [] (Ok c))])
                     (benchmark_command benchmark) env (heap st !!! env)
                     (Z.to_nat trials))) as Htrace'.
      { rewrite Htrace. by rewrite <- !app_assoc. }
      assert (∀ rd : RawData Float, 1 ≤ trials ∨ mem_usage_ vars = None) as Hbound.
      { intros _. destruct (Z.to_nat trials) eqn:Hn; [|left; lia].
        right. simpl in Hloop. by injection Hloop as <- _. }
      destruct (mem_usage_ vars) as [m|] eqn:Hm; simpl.
      * destruct (stderr vars) as [err|]; simpl;
          (split; [lia|]; split; [done|]; split; [done|]).
        -- intros rd _. destruct (Hbound rd) as [?|?]; [|done].
           repeat split; [done|constructor; [by eexists|]|done].
           eapply Forall_impl; [exact Hnum|]. apply numeric_succeeded.
        -- intros rd [=].
      * split; [lia|]. split; [done|]. split; [done|]. intros rd [=].
    + exists (S k). simpl. rewrite Hprime.
      split; [lia|]. split; [done|]. split; [|intros rd [=]].
      rewrite Htrace. by rewrite <- !app_assoc.
  - exists 1%nat. simpl. rewrite Hprime.
    split; [lia|]. split; [done|]. split; [|intros rd [=]].
    by rewrite <- !app_assoc.
Qed.

(** Without trials the loop body never runs: once the priming child has
    exited normally, the read of [mem_usage] fails. *)
Lemma run_benchmark_unbound benchmark trials env st prime :
  trials ≤ 0 →
  head (benchmark_calls benchmark trials env st) = Some prime →
  succeeded prime →
  run_benchmark benchmark trials env st
  = (Raise (UnboundLocalError "mem_usage"),
     State (heap st) (trace st ++ [EvRemovePycs; EvCall prime])).
Proof.
  intros Htrials Hhead [c Hc]. unfold benchmark_calls in Hhead. simpl in Hhead.
  injection Hhead as <-. simpl in Hc.
  rewrite run_benchmark_eq, call_eq. simpl. rewrite Hc.
  replace (Z.to_nat trials) with 0%nat by lia. simpl.
  by rewrite <- !app_assoc.
Qed.

(** A measured child that prints a line that is not a number makes
    [run_benchmark] raise the [ValueError] of such a line. *)
Lemma run_benchmark_garbled benchmark trials env st :
  Forall succeeded (benchmark_calls benchmark trials env st) →
  Exists garbled (tail (benchmark_calls benchmark trials env st)) →
  ∃ i out err mem line st',
    i ∈ tail (benchmark_calls benchmark trials env st)
    ∧ inv_response i = Ok (out, err, mem)
    ∧ line ∈ Str.splitlines out ∧ float line = None
    ∧ run_benchmark benchmark trials env st = (Raise (ValueError line), st').
Proof.
  intros Hsucc Hex. unfold benchmark_calls in *. simpl in *.
  inversion Hsucc as [|prime measured [c Hprime] Hmeasured]; subst. simpl in Hprime.
  destruct (first_not_numeric _ (Exists_impl _ _ _ Hex
              (λ i Hi, proj2 (garbled_not_numeric i Hi))))
    as (good & i & rest & Hsplit & Hgood & Hi).
  assert (succeeded i) as Hsi.
  { eapply Forall_forall; [exact Hmeasured|]. rewrite Hsplit.
    apply elem_of_app. right. left. }
  rewrite Hprime in Hsplit.
  match type of Hsplit with
  | calls_from ?h ?c ?e ?d ?n = _ =>
      destruct (trials_loop_garbled n c e (Locals [] None None)
                  (State (heap st) h) good i rest Hsplit Hgood Hsi Hi)
        as (out & err & mem & line & Hresp & Hin & Hline & Hloop)
  end.
  exists i, out, err, mem, line. eexists.
  split; [|split; [done|split; [done|split; [done|]]]].
  - rewrite Hprime, Hsplit. apply elem_of_app. right. left.
  - rewrite run_benchmark_eq, call_eq. simpl. rewrite Hprime.
    rewrite Hloop. reflexivity.
Qed.

Lemma numeric_parsed i : numeric i → parsed i (samples i).
Proof.
  intros Hi. pose proof Hi as (out & err & mem & xs & Hresp & Hxs).
  exists out, err, mem. split; [done|].
  apply floats_Ok. by eapply numeric_samples.
Qed.

(** [run_benchmark] returns exactly when there is at least one trial, every
    child exits normally and every measured child prints numbers only. *)
Lemma run_benchmark_returns_iff benchmark trials env st :
  (∃ rd st', run_benchmark benchmark trials env st = (Ok rd, st'))
  ↔ 1 ≤ trials
    ∧ Forall succeeded (benchmark_calls benchmark trials env st)
    ∧ Forall numeric (tail (benchmark_calls benchmark trials env st)).
Proof.
  split.
  - intros (rd & st' & Hrun).
    destruct (run_benchmark_outcome benchmark trials env st) as (k & _ & _ & _ & Hok).
    rewrite Hrun in Hok. by destruct (Hok rd eq_refl) as (_ & ? & ? & ?).
  - intros (Htrials & Hsucc & Hnum).
    destruct (run_benchmark_complete benchmark trials env st Htrials Hsucc Hnum)
      as (i & out & err & mem & _ & _ & Hrun).
    eauto.
Qed.

(** ** The trial collector *)

(** C1. For every benchmark and every trial count N >= 1, [run_benchmark]
    makes exactly N+1 subprocess invocations for its side: first the priming
    one, whose output is dropped (the samples, the memory figure and the
    standard error of the result all come from the later calls), then
    exactly N measured ones, whose output is parsed into the samples.  The
    children are supposed to exit normally and the measured ones to print
    numbers only, which by [run_benchmark_returns_iff] is exactly when
    [run_benchmark] returns. *)
Theorem run_benchmark_primes_then_measures benchmark trials env st :
  1 ≤ trials →
  Forall succeeded (benchmark_calls benchmark trials env st) →
  Forall numeric (tail (benchmark_calls benchmark trials env st)) →
  ∃ prime measured final out rd st',
    run_benchmark benchmark trials env st = (Ok rd, st')
    ∧ trace st' = trace st ++ EvRemovePycs :: EvCall prime :: map EvCall measured
    ∧ length (prime :: measured) = Z.to_nat (trials + 1)
    ∧ length measured = Z.to_nat trials
    ∧ Forall (λ i, inv_command i = benchmark_command benchmark ∧ inv_env_ref i = env)
        (prime :: measured)
    ∧ Forall (λ i, parsed i (samples i)) measured
    ∧ runtimes rd = flat_map samples measured
    ∧ last measured = Some final
    ∧ inv_response final = Ok (out, inst_output rd, mem_usage rd).
Proof.
  intros Htrials Hsucc Hnum.
  destruct (run_benchmark_complete benchmark trials env st Htrials Hsucc Hnum)
    as (final & out & err & mem & Hlast & Hresp & Hrun).
  pose proof (calls_from_length (trace st ++ [EvRemovePycs]) (benchmark_command benchmark)
                env (heap st !!! env) (S (Z.to_nat trials))) as Hlen.
  pose proof (calls_from_shape (trace st ++ [EvRemovePycs]) (benchmark_command benchmark)
                env (heap st !!! env) (S (Z.to_nat trials))) as Hshape.
  fold (benchmark_calls benchmark trials env st) in Hlen, Hshape.
  destruct (benchmark_calls benchmark trials env st) as [|prime measured] eqn:Hcalls;
    [done|].
  exists prime, measured, final, out. do 2 eexists. split; [exact Hrun|].
  cbn [trace runtimes inst_output mem_usage tail length] in *.
  split; [done|]. split; [rewrite Hlen; lia|]. split; [lia|]. split; [|split; [|split]].
  - apply Forall_forall. intros j Hj.
    assert (shape j ∈ replicate (S (Z.to_nat trials))
              (benchmark_command benchmark, env, heap st !!! env)) as Hin.
    { rewrite <- Hshape. by apply (list_elem_of_fmap_2 shape (prime :: measured)). }
    apply elem_of_replicate in Hin as [Hin _]. unfold shape in Hin. by simplify_eq.
  - eapply Forall_impl; [exact Hnum|]. apply numeric_parsed.
  - done.
  - split; [|exact Hresp].
    destruct measured as [|m measured]; [simpl in Hlen; lia|].
    by rewrite last_cons_cons in Hlast.
Qed.

(** C2. For every sequence of measured-trial standard outputs,
    [run_benchmark] reads each output line as one floating-point sample and
    concatenates the samples in invocation order; and a measured output with
    a line that is not a number makes [run_benchmark] raise the [ValueError]
    of such a line: nothing is skipped or coerced. *)
Theorem run_benchmark_parses_every_line benchmark trials env st :
  Forall succeeded (benchmark_calls benchmark trials env st) →
  (1 ≤ trials →
   Forall numeric (tail (benchmark_calls benchmark trials env st)) →
   ∃ rd st',
     run_benchmark benchmark trials env st = (Ok rd, st')
     ∧ Forall (λ i, parsed i (samples i)) (tail (benchmark_calls benchmark trials env st))
     ∧ runtimes rd
       = concat (map samples (tail (benchmark_calls benchmark trials env st))))
  ∧ (Exists garbled (tail (benchmark_calls benchmark trials env st)) →
     ∃ i out err mem line st',
       i ∈ tail (benchmark_calls benchmark trials env st)
       ∧ inv_response i = Ok (out, err, mem)
       ∧ line ∈ Str.splitlines out ∧ float line = None
       ∧ run_benchmark benchmark trials env st = (Raise (ValueError line), st')).
Proof.
  intros Hsucc. split.
  - intros Htrials Hnum.
    destruct (run_benchmark_complete benchmark trials env st Htrials Hsucc Hnum)
      as (i & out & err & mem & _ & _ & Hrun).
    do 2 eexists. split; [exact Hrun|]. split.
    + eapply Forall_impl; [exact Hnum|]. apply numeric_parsed.
    + simpl. apply flat_map_concat_map.
  - intros Hex. by apply run_benchmark_garbled.
Qed.

(** C6. For every measurement with trial count N >= 1, the memory figure
    stored in the result is exactly the one reported by the N-th, final
    measured child, and the stored standard error is that child's too: both
    are read off the last invocation alone, whatever the earlier ones
    reported. *)
Theorem run_benchmark_keeps_last_trial benchmark trials env st :
  1 ≤ trials →
  Forall succeeded (benchmark_calls benchmark trials env st) →
  Forall numeric (tail (benchmark_calls benchmark trials env st)) →
  ∃ final out rd st',
    run_benchmark benchmark trials env st = (Ok rd, st')
    ∧ benchmark_calls benchmark trials env st !! Z.to_nat trials = Some final
    ∧ last (invocations (trace st')) = Some final
    ∧ inv_response final = Ok (out, inst_output rd, mem_usage rd).
Proof.
  intros Htrials Hsucc Hnum.
  destruct (run_benchmark_complete benchmark trials env st Htrials Hsucc Hnum)
    as (i & out & err & mem & Hlast & Hresp & Hrun).
  exists i, out. do 2 eexists. split; [exact Hrun|].
  split; [|split; [|exact Hresp]].
  - rewrite last_lookup in Hlast. unfold benchmark_calls in *.
    by rewrite calls_from_length in Hlast.
  - cbn [trace]. rewrite invocations_run, last_app. by rewrite Hlast.
Qed.

(** C10. [run_benchmark] needs at least one trial.  With none, the loop body
    never runs, [mem_usage] and [stderr] are still unbound when the loop is
    over, and the call fails on the read of [mem_usage] instead of returning;
    with one trial or more both names are bound and a [RawData] is
    returned. *)
Theorem run_benchmark_needs_a_trial benchmark trials env st :
  Forall succeeded (benchmark_calls benchmark trials env st) →
  Forall numeric (tail (benchmark_calls benchmark trials env st)) →
  (trials ≤ 0 →
   locals_after_loop benchmark trials env st = Ok (Locals [] None None)
   ∧ ∃ st', run_benchmark benchmark trials env st
            = (Raise (UnboundLocalError "mem_usage"), st'))
  ∧ (1 ≤ trials →
     (∃ vars, locals_after_loop benchmark trials env st = Ok vars
              ∧ is_Some (mem_usage_ vars) ∧ is_Some (stderr vars))
     ∧ ∃ rd st', run_benchmark benchmark trials env st = (Ok rd, st')).
Proof.
  intros Hsucc Hnum. split; intros Htrials.
  - split.
    + unfold locals_after_loop. by replace (Z.to_nat trials) with 0%nat by lia.
    + unfold benchmark_calls in Hsucc. simpl in Hsucc.
      apply Forall_cons in Hsucc as [Hprime _].
      eexists. eapply run_benchmark_unbound; [done|reflexivity|exact Hprime].
  - destruct (run_benchmark_complete benchmark trials env st Htrials Hsucc Hnum)
      as (i & out & err & mem & Hlast & Hresp & Hrun).
    split; [|eauto].
    unfold locals_after_loop. rewrite call_eq. simpl.
    unfold benchmark_calls in *. simpl in *.
    rewrite trials_loop_numeric; [|done]. simpl.
    eexists. split; [done|].
    match goal with
    | |- context [foldl absorb ?v ?l] =>
        destruct (absorb_last v l i out err mem) as [-> ->]; [|done|by split]
    end.
    set (measured := calls_from _ _ _ _ _) in *.
    destruct measured eqn:Hm; [|done].
    apply (f_equal length) in Hm. unfold measured in Hm.
    rewrite calls_from_length in Hm. simpl in Hm. lia.
Qed.

End Trials.

Lemma run_benchmark_primes_then_measures_witness :
  ∃ prime measured final out rd st',
    run_benchmark (P := Lab.counting) "/bench/A" 3 1%positive Lab.init = (Ok rd, st')
    ∧ trace st' = trace Lab.init ++ EvRemovePycs :: EvCall prime :: map EvCall measured
    ∧ length (prime :: measured) = Z.to_nat (3 + 1)
    ∧ length measured = Z.to_nat 3
    ∧ Forall (λ i, inv_command i = benchmark_command (P := Lab.counting) "/bench/A"
                   ∧ inv_env_ref i = 1%positive) (prime :: measured)
    ∧ Forall (λ i, parsed (P := Lab.counting) i (samples (P := Lab.counting) i)) measured
    ∧ runtimes rd = flat_map (samples (P := Lab.counting)) measured
    ∧ last measured = Some final
    ∧ inv_response final = Ok (out, inst_output rd, mem_usage rd).
Proof.
  apply (run_benchmark_primes_then_measures (P := Lab.counting)).
  - lia.
  - repeat constructor; eexists; reflexivity.
  - repeat constructor; do 4 eexists; split; reflexivity.
Defined.

Lemma run_benchmark_parses_every_line_witness :
  (∃ st', run_benchmark (P := Lab.counting) "/bench/A" 3 1%positive Lab.init
          = (Ok (mkRawData [1%Q; 2%Q; 3%Q] (Some 3) "d"), st'))
  ∧ (∃ st', run_benchmark (P := Lab.garbled) "/bench/A" 3 1%positive Lab.init
            = (Raise (ValueError "abc"), st')).
Proof.
  split.
  - destruct (run_benchmark_parses_every_line (P := Lab.counting)
                "/bench/A" 3 1%positive Lab.init) as [Hok _].
    { repeat constructor; eexists; reflexivity. }
    destruct Hok as (rd & st' & Hrun & _ & Hsamples).
    { lia. }
    { repeat constructor; do 4 eexists; split; reflexivity. }
    exists st'. rewrite Hrun. f_equal.
    vm_compute in Hrun. by injection Hrun as <- _.
  - destruct (run_benchmark_parses_every_line (P := Lab.garbled)
                "/bench/A" 3 1%positive Lab.init) as [_ Hbad].
    { repeat constructor; eexists; reflexivity. }
    destruct Hbad as (i & out & err & mem & line & st' & _ & _ & _ & _ & Hrun).
    { apply Exists_cons_hd. exists ("1.0" +:+ String Str.LF ("abc" +:+ String Str.LF EmptyString)),
               EmptyString, None, "abc".
      split; [reflexivity|]. split; [|reflexivity].
      vm_compute. apply list_elem_of_further, list_elem_of_here. }
    exists st'. rewrite Hrun. f_equal.
    vm_compute in Hrun. by injection Hrun as <- _.
Defined.

Lemma run_benchmark_keeps_last_trial_witness :
  ∃ final out rd st',
    run_benchmark (P := Lab.counting) "/bench/A" 3 1%positive Lab.init = (Ok rd, st')
    ∧ benchmark_calls (P := Lab.counting) "/bench/A" 3 1%positive Lab.init !! Z.to_nat 3
      = Some final
    ∧ last (invocations (trace st')) = Some final
    ∧ inv_response final = Ok (out, inst_output rd, mem_usage rd).
Proof.
  apply (run_benchmark_keeps_last_trial (P := Lab.counting)).
  - lia.
  - repeat constructor; eexists; reflexivity.
  - repeat constructor; do 4 eexists; split; reflexivity.
Defined.

Lemma run_benchmark_needs_a_trial_witness :
  (∃ st', run_benchmark (P := Lab.counting) "/bench/A" 0 1%positive Lab.init
          = (Raise (UnboundLocalError "mem_usage"), st'))
  ∧ (∃ rd st', run_benchmark (P := Lab.counting) "/bench/A" 1 1%positive Lab.init
               = (Ok rd, st')).
Proof.
  split.
  - destruct (run_benchmark_needs_a_trial (P := Lab.counting)
                "/bench/A" 0 1%positive Lab.init) as [Hnone _].
    { repeat constructor; eexists; reflexivity. }
    { constructor. }
    apply Hnone. lia.
  - destruct (run_benchmark_needs_a_trial (P := Lab.counting)
                "/bench/A" 1 1%positive Lab.init) as [_ Hsome].
    { repeat constructor; eexists; reflexivity. }
    { repeat constructor; do 4 eexists; split; reflexivity. }
    apply Hsome. lia.
Defined.

(** ** Discovery *)

Section Discovery.
Context `{P : Platform}.

Lemma discover_loop_filter apps :
  discover_loop apps = filter (λ app, complete app = true) apps.
Proof.
  induction apps as [|app apps IH]; simpl; [done|].
  fold (complete app). destruct (complete app) eqn:Happ.
  - rewrite filter_cons_True; [|done]. by rewrite IH.
  - rewrite filter_cons_False; [done|]. by rewrite Happ.
Qed.

(** C4. For every root directory, [discover_benchmarks] yields exactly those
    of its immediate subdirectories that hold both [benchmark.py] and
    [settings.py], in the order of the listing and as often as the listing
    has them; a subdirectory that lacks either is passed over, and a listing
    without any complete subdirectory yields nothing without an error. *)
Theorem discover_benchmarks_complete_subdirectories benchmark_dir apps :
  listdir_DIRS benchmark_dir = Ok apps →
  ∃ found,
    discover_benchmarks benchmark_dir = Ok found
    ∧ found = filter (λ app, complete app = true) apps
    ∧ found `sublist_of` apps
    ∧ (∀ app, app ∈ found ↔
         app ∈ apps ∧ exists_ (child app "benchmark.py") = true
                    ∧ exists_ (child app "settings.py") = true)
    ∧ (Forall (λ app, complete app = false) apps → found = []).
Proof.
  intros Hls. exists (discover_loop apps). unfold discover_benchmarks. rewrite Hls.
  rewrite discover_loop_filter.
  split; [done|]. split; [done|]. split; [apply sublist_filter|]. split.
  - intros app. rewrite list_elem_of_filter. unfold complete.
    rewrite andb_true_iff. tauto.
  - intros Hnone. clear Hls. induction Hnone as [|app apps' Happ _ IH]; [done|].
    rewrite filter_cons_False; [exact IH|by rewrite Happ].
Qed.

End Discovery.

Lemma discover_benchmarks_complete_subdirectories_witness :
  discover_benchmarks (P := Lab.steady) Lab.root = Ok ["/bench/A"; "/bench/C"].
Proof.
  destruct (discover_benchmarks_complete_subdirectories (P := Lab.steady) Lab.root
              ["/bench/A"; "/bench/B"; "/bench/C"] eq_refl)
    as (found & Hrun & Hfound & _).
  rewrite Hrun, Hfound. reflexivity.
Defined.

(** ** The report formatter *)

Lemma append_assoc (s1 s2 s3 : string) : (s1 +:+ s2) +:+ s3 = s1 +:+ s2 +:+ s3.
Proof.
  induction s1 as [|c s1 IH]; [done|].
  change (String c ((s1 +:+ s2) +:+ s3) = String c (s1 +:+ s2 +:+ s3)). by f_equal.
Qed.

Lemma append_cons (c : ascii) (s1 s2 : string) :
  String c s1 +:+ s2 = String c (s1 +:+ s2).
Proof. reflexivity. Qed.

Lemma append_empty (s : string) : EmptyString +:+ s = s.
Proof. reflexivity. Qed.

Lemma prefix_append (sub s : string) :
  String.prefix sub s = true ↔ ∃ b, s = sub +:+ b.
Proof.
  revert s. induction sub as [|c sub IH]; intros s; simpl.
  - split; [intros _; by exists s|by destruct s].
  - destruct s as [|c' s]; [split; [done|by intros [b ?]]|]. simpl.
    destruct (Ascii.ascii_dec c c') as [->|Hne].
    + rewrite IH. split; intros [b Hb]; exists b.
      * rewrite append_cons. congruence.
      * rewrite append_cons in Hb. congruence.
    + split; [done|]. intros [b Hb]. rewrite append_cons in Hb. congruence.
Qed.

(** [Str.contains] is the substring test of Python's [in]. *)
Lemma contains_spec (sub s : string) :
  Str.contains sub s = true ↔ ∃ a b, s = a +:+ sub +:+ b.
Proof.
  induction s as [|c s IH].
  - change (Str.contains sub EmptyString)
      with (String.prefix sub EmptyString || false).
    rewrite orb_false_r, prefix_append. split.
    + intros [b Hb]. by exists EmptyString, b.
    + intros (a & b & Hab). destruct a; [by exists b|done].
  - change (Str.contains sub (String c s))
      with (String.prefix sub (String c s) || Str.contains sub s).
    rewrite orb_true_iff, prefix_append, IH. split.
    + intros [[b Hb]|(a & b & Hab)].
      * by exists EmptyString, b.
      * exists (String c a), b. rewrite append_cons. by rewrite Hab.
    + intros (a & b & Hab). destruct a as [|c' a].
      * left. by exists b.
      * right. exists a, b. rewrite append_cons in Hab. congruence.
Qed.

Section Formatter.
Context `{P : Platform}.

Lemma painted_by_keyword_intro first second paint_first paint_second text :
  painted_by_keyword first second paint_first paint_second text
    (if Str.contains first text then paint_first text
     else if Str.contains second text then paint_second text
     else text).
Proof.
  unfold painted_by_keyword, one_keyword.
  destruct (Str.contains first text), (Str.contains second text);
    (split; [intros [?|?]; try done; repeat split; done|done]).
Qed.

(** C7.  For every comparison result the formatter colours each delta line
    by keyword.  Of a text that carries one keyword of its pair at most: a
    min or avg delta that has "faster" is coloured good and one that has
    "slower" is coloured bad; a stddev delta that has "larger" is coloured
    bad and one that has "smaller" is coloured good; a significance message
    that has "Not significant" is coloured insignificant and one that has
    "Significant" is coloured significant; a text with neither keyword of
    its pair is put out unchanged.  The keyword tested first ("faster",
    "Not significant", "larger") gives its colour to every text that has
    it, so also to a text that has both keywords of the pair.  The text of a
    result that is not a [BenchmarkResult] is put out as it is. *)
Theorem colorize_benchmark_result_by_keyword (result : comparison Float) :
  match result with
  | IsBenchmarkResult r =>
      ∃ dmin davg tmsg dstd,
        colorize_benchmark_result result = report r dmin davg tmsg dstd
        ∧ painted_by_keyword "faster" "slower" colorize.good colorize.bad
            (delta_min r) dmin
        ∧ painted_by_keyword "faster" "slower" colorize.good colorize.bad
            (delta_avg r) davg
        ∧ painted_by_keyword "Not significant" "Significant"
            colorize.insignificant colorize.significant (t_msg r) tmsg
        ∧ painted_by_keyword "larger" "smaller" colorize.bad colorize.good
            (delta_std r) dstd
  | OtherResult str => colorize_benchmark_result result = str
  end.
Proof.
  destruct result as [r|str]; [|done].
  do 4 eexists.
  split; [|split; [|split; [|split]]]; [|apply painted_by_keyword_intro..].
  unfold colorize_benchmark_result, report. cbv zeta.
  rewrite !append_assoc. reflexivity.
Qed.

End Formatter.

(** A min delta with both keywords of its pair has the colour of the first
    one; the other texts of [Lab.mixed] carry one keyword each. *)
Example colorize_benchmark_result_mixed :
  colorize_benchmark_result (P := Lab.steady) (IsBenchmarkResult Lab.mixed)
  = report (P := Lab.steady) Lab.mixed
      (colorize.good "2.00x slower (was faster)") (colorize.bad "2.00x slower")
      (colorize.significant "Significant (t=3.0, a=0.95)") (colorize.bad "1.50x larger").
Proof. reflexivity. Qed.

(** The texts of [Lab.plain] carry one keyword each at most, and are
    coloured as their keywords say. *)
Lemma colorize_benchmark_result_by_keyword_witness :
  colorize_benchmark_result (P := Lab.steady) (IsBenchmarkResult Lab.plain)
  = report (P := Lab.steady) Lab.plain
      (colorize.good "2.00x faster") "no change"
      (colorize.insignificant "Not significant") (colorize.good "1.50x smaller").
Proof.
  destruct (colorize_benchmark_result_by_keyword (P := Lab.steady)
              (IsBenchmarkResult Lab.plain))
    as (dmin & davg & tmsg & dstd & -> & [Hmin _] & [Havg _] & [Hmsg _] & [Hstd _]).
  destruct (Hmin ltac:(right; reflexivity)) as (Hfaster & _ & _).
  destruct (Havg ltac:(right; reflexivity)) as (_ & _ & Hneither).
  destruct (Hmsg ltac:(right; reflexivity)) as (Hnot & _ & _).
  destruct (Hstd ltac:(left; reflexivity)) as (_ & Hsmaller & _).
  rewrite (Hfaster eq_refl), (Hneither eq_refl eq_refl), (Hnot eq_refl),
    (Hsmaller eq_refl).
  reflexivity.
Defined.

(** ** The run of [main] *)

Section Main.
Context `{P : Platform}.

Lemma get_django_version_eq djangodir st :
  get_django_version djangodir st =
  (match spawn (trace st) version_command
           {[ "PYTHONPATH" := absolute (parent djangodir) ]} false [] with
   | Ok (out, _, _) => Ok (Str.strip out)
   | Raise e => Raise e
   end,
   State (<[ fresh (dom (heap st)) := {[ "PYTHONPATH" := absolute (parent djangodir) ]} ]>
            (heap st))
     (trace st ++
      [EvCall (Invocation version_command (fresh (dom (heap st)))
                 {[ "PYTHONPATH" := absolute (parent djangodir) ]} false []
                 (spawn (trace st) version_command
                    {[ "PYTHONPATH" := absolute (parent djangodir) ]} false []))])).
Proof.
  unfold get_django_version. step_new_dict.
  rewrite bind_eq, call_eq. cbn [heap trace inv_response].
  rewrite lookup_total_insert_eq.
  by destruct (spawn _ _ _ _ _) as [[[out err] mem]|e].
Qed.

Lemma main_body_skip benchmarks trials cl el lc le b st :
  selected benchmarks b = false →
  main_body benchmarks trials cl el lc le b st = (Ok tt, st).
Proof. intros Hsel. unfold main_body. by rewrite Hsel. Qed.

Lemma main_body_eq benchmarks trials cl el lc le b st :
  selected benchmarks b = true →
  main_body benchmarks trials cl el lc le b st =
  match run_benchmark b trials lc
          (State (alter (<[ "DJANGO_SETTINGS_MODULE" := name b +:+ ".settings" ]>) le
                    (alter (<[ "DJANGO_SETTINGS_MODULE" := name b +:+ ".settings" ]>) lc
                       (heap st)))
             (trace st ++ [EvPrint ("Running '" +:+ name b +:+ "' benchmark ...")])) with
  | (Ok control_data, st2) =>
      match run_benchmark b trials le st2 with
      | (Ok experiment_data, st3) =>
          match CompareBenchmarkData control_data experiment_data
                  (Options false false (name b) true cl el) with
          | Ok result =>
              (Ok tt, State (heap st3)
                        (trace st3 ++ [EvPrint (colorize_benchmark_result result);
                                       EvPrint EmptyString]))
          | Raise e => (Raise e, st3)
          end
      | (Raise e, st3) => (Raise e, st3)
      end
  | (Raise e, st2) => (Raise e, st2)
  end.
Proof.
  intros Hsel. unfold main_body. rewrite Hsel.
  step_print. step_setitem. step_setitem. rewrite bind_eq.
  destruct (run_benchmark b trials lc _) as [[cd|e] st2]; [|done].
  rewrite bind_eq.
  destruct (run_benchmark b trials le _) as [[ed|e] st3]; [|done].
  rewrite bind_eq. unfold lift at 1.
  destruct (CompareBenchmarkData _ _ _) as [r|e]; [|done].
  rewrite bind_eq. unfold print, emit. cbv beta iota. cbn [heap trace].
  by rewrite <- app_assoc.
Qed.

Lemma prefix_replicate {A} (x : A) (k n : nat) :
  (k ≤ n)%nat → replicate k x `prefix_of` replicate n x.
Proof.
  intros Hk. exists (replicate (n - k) x). rewrite <- replicate_add. f_equal. lia.
Qed.

(** The invocations of [run_benchmark] as seen by the caller. *)
Lemma run_benchmark_shapes benchmark trials env st :
  ∃ new k,
    (1 ≤ k ≤ S (Z.to_nat trials))%nat
    ∧ heap (run_benchmark benchmark trials env st).2 = heap st
    ∧ invocations (trace (run_benchmark benchmark trials env st).2)
      = invocations (trace st) ++ new
    ∧ map shape new = replicate k (benchmark_command benchmark, env, heap st !!! env)
    ∧ (∀ rd, (run_benchmark benchmark trials env st).1 = Ok rd →
         k = S (Z.to_nat trials)).
Proof.
  destruct (run_benchmark_outcome benchmark trials env st)
    as (k & Hk & Hheap & Htrace & Hok).
  eexists _, k. split; [done|]. split; [done|]. split; [|split].
  - rewrite Htrace. apply invocations_run.
  - apply calls_from_shape.
  - intros rd Hrd. by destruct (Hok rd Hrd) as [? _].
Qed.

Lemma envs_ready_alter benchmark_dir control experiment lc le h s :
  envs_ready benchmark_dir control experiment lc le h →
  envs_ready benchmark_dir control experiment lc le
    (alter (<[ "DJANGO_SETTINGS_MODULE" := s ]>) le
       (alter (<[ "DJANGO_SETTINGS_MODULE" := s ]>) lc h))
  ∧ alter (<[ "DJANGO_SETTINGS_MODULE" := s ]>) le
      (alter (<[ "DJANGO_SETTINGS_MODULE" := s ]>) lc h) !!! lc
    = <[ "DJANGO_SETTINGS_MODULE" := s ]> {[ "PYTHONPATH" := PYTHONPATH benchmark_dir control ]}
  ∧ alter (<[ "DJANGO_SETTINGS_MODULE" := s ]>) le
      (alter (<[ "DJANGO_SETTINGS_MODULE" := s ]>) lc h) !!! le
    = <[ "DJANGO_SETTINGS_MODULE" := s ]> {[ "PYTHONPATH" := PYTHONPATH benchmark_dir experiment ]}.
Proof.
  intros (Hne & (dc & Hdc & Hc) & (de & Hde & He)).
  assert (alter (<[ "DJANGO_SETTINGS_MODULE" := s ]>) le
            (alter (<[ "DJANGO_SETTINGS_MODULE" := s ]>) lc h) !! lc
          = Some (<[ "DJANGO_SETTINGS_MODULE" := s ]> dc)) as Hlc.
  { rewrite lookup_alter_ne; [|done]. by rewrite lookup_alter_eq, Hdc. }
  assert (alter (<[ "DJANGO_SETTINGS_MODULE" := s ]>) le
            (alter (<[ "DJANGO_SETTINGS_MODULE" := s ]>) lc h) !! le
          = Some (<[ "DJANGO_SETTINGS_MODULE" := s ]> de)) as Hle.
  { rewrite lookup_alter_eq. rewrite lookup_alter_ne; [|done]. by rewrite Hde. }
  split; [split; [done|split]|split].
  - eexists. split; [exact Hlc|]. intros s'. by rewrite insert_insert_eq.
  - eexists. split; [exact Hle|]. intros s'. by rewrite insert_insert_eq.
  - rewrite (lookup_total_correct _ _ _ Hlc). apply Hc.
  - rewrite (lookup_total_correct _ _ _ Hle). apply He.
Qed.

Lemma invocations_print tr line : invocations (tr ++ [EvPrint line]) = invocations tr.
Proof. rewrite invocations_app. apply app_nil_r. Qed.

(** One pass of the loop of [main]: the environments stay in place, no object
    is created, and the invocations made are the first ones of the block of
    the benchmark, all of them when the pass completes. *)
Lemma main_body_outcome benchmark_dir control experiment benchmarks trials
    cl el lc le b st :
  envs_ready benchmark_dir control experiment lc le (heap st) →
  ∃ new,
    envs_ready benchmark_dir control experiment lc le
      (heap (main_body benchmarks trials cl el lc le b st).2)
    ∧ dom (heap (main_body benchmarks trials cl el lc le b st).2) = dom (heap st)
    ∧ invocations (trace (main_body benchmarks trials cl el lc le b st).2)
      = invocations (trace st) ++ new
    ∧ map shape new `prefix_of`
        (if selected benchmarks b
         then benchmark_block benchmark_dir control experiment trials lc le b else [])
    ∧ ((main_body benchmarks trials cl el lc le b st).1 = Ok tt →
       map shape new
       = if selected benchmarks b
         then benchmark_block benchmark_dir control experiment trials lc le b else []).
Proof.
  intros Hready. destruct (selected benchmarks b) eqn:Hsel.
  - rewrite main_body_eq by done.
    destruct (envs_ready_alter _ _ _ _ _ _ (name b +:+ ".settings") Hready)
      as (Hready1 & Hlc & Hle).
    set (h1 := alter _ le _) in *.
    assert (dom h1 = dom (heap st)) as Hdom.
    { unfold h1. by rewrite !dom_alter_L. }
    set (st1 := State h1 _).
    destruct (run_benchmark_shapes b trials lc st1)
      as (new1 & k1 & Hk1 & Hheap1 & Hinv1 & Hshape1 & Hok1).
    destruct (run_benchmark b trials lc st1) as [[cd|e] st2]; simpl in *.
    + rewrite (Hok1 cd eq_refl) in Hshape1.
      destruct (run_benchmark_shapes b trials le st2)
        as (new2 & k2 & Hk2 & Hheap2 & Hinv2 & Hshape2 & Hok2).
      rewrite Hheap1 in Hshape2, Hheap2. rewrite Hle in Hshape2. rewrite Hlc in Hshape1.
      assert (map shape (new1 ++ new2) `prefix_of`
                benchmark_block benchmark_dir control experiment trials lc le b) as Hpre.
      { rewrite map_app, Hshape1, Hshape2. unfold benchmark_block, side_block.
        apply prefix_app, prefix_replicate. lia. }
      destruct (run_benchmark b trials le st2) as [[ed|e] st3]; simpl in *.
      * rewrite (Hok2 ed eq_refl) in Hshape2.
        assert (map shape (new1 ++ new2)
                = benchmark_block benchmark_dir control experiment trials lc le b) as Heq.
        { by rewrite map_app, Hshape1, Hshape2. }
        exists (new1 ++ new2).
        destruct (CompareBenchmarkData cd ed _) as [r|e]; simpl.
        -- rewrite Hheap2. split; [done|]. split; [done|]. split; [|done].
           rewrite invocations_app. simpl. rewrite app_nil_r.
           rewrite Hinv2, Hinv1. unfold st1. simpl.
           by rewrite invocations_print, app_assoc.
        -- rewrite Hheap2. split; [done|]. split; [done|]. split; [|done].
           rewrite Hinv2, Hinv1. unfold st1. simpl.
           by rewrite invocations_print, app_assoc.
      * exists (new1 ++ new2).
        rewrite Hheap2. split; [done|]. split; [done|]. split; [|done].
        rewrite Hinv2, Hinv1. unfold st1. simpl.
        by rewrite invocations_print, app_assoc.
    + exists new1. rewrite Hheap1. split; [done|]. split; [done|]. split; [|split; [|done]].
      * rewrite Hinv1. unfold st1. simpl. by rewrite invocations_print.
      * rewrite Hshape1, Hlc. unfold benchmark_block, side_block.
        apply prefix_app_r, prefix_replicate. lia.
  - rewrite main_body_skip by done. exists []. simpl.
    split; [done|]. split; [done|]. split; [by rewrite app_nil_r|done].
Qed.

(** The loop of [main] over the discovered benchmarks. *)
Lemma main_loop_outcome benchmark_dir control experiment benchmarks trials
    cl el lc le apps st :
  envs_ready benchmark_dir control experiment lc le (heap st) →
  ∃ new,
    envs_ready benchmark_dir control experiment lc le
      (heap (for_ apps (main_body benchmarks trials cl el lc le) st).2)
    ∧ dom (heap (for_ apps (main_body benchmarks trials cl el lc le) st).2)
      = dom (heap st)
    ∧ invocations (trace (for_ apps (main_body benchmarks trials cl el lc le) st).2)
      = invocations (trace st) ++ new
    ∧ map shape new `prefix_of`
        flat_map (benchmark_block benchmark_dir control experiment trials lc le)
          (filter (λ b, selected benchmarks b = true) apps)
    ∧ ((for_ apps (main_body benchmarks trials cl el lc le) st).1 = Ok tt →
       map shape new
       = flat_map (benchmark_block benchmark_dir control experiment trials lc le)
           (filter (λ b, selected benchmarks b = true) apps)).
Proof.
  revert st. induction apps as [|b apps IH]; intros st Hready.
  - exists []. simpl. split; [done|]. split; [done|]. split; [by rewrite app_nil_r|done].
  - simpl for_. rewrite bind_eq.
    destruct (main_body_outcome benchmark_dir control experiment benchmarks trials
                cl el lc le b st Hready)
      as (new1 & Hready1 & Hdom1 & Hinv1 & Hpre1 & Hok1).
    assert (flat_map (benchmark_block benchmark_dir control experiment trials lc le)
              (filter (λ b, selected benchmarks b = true) (b :: apps))
            = (if selected benchmarks b
               then benchmark_block benchmark_dir control experiment trials lc le b
               else [])
              ++ flat_map (benchmark_block benchmark_dir control experiment trials lc le)
                   (filter (λ b, selected benchmarks b = true) apps)) as ->.
    { destruct (selected benchmarks b) eqn:Hsel.
      - by rewrite filter_cons_True.
      - rewrite filter_cons_False; [done|]. by rewrite Hsel. }
    destruct (main_body benchmarks trials cl el lc le b st) as [[[]|e] st1];
      simpl in *.
    + destruct (IH st1 Hready1) as (new2 & Hready2 & Hdom2 & Hinv2 & Hpre2 & Hok2).
      exists (new1 ++ new2). split; [done|]. split; [congruence|].
      split; [by rewrite Hinv2, Hinv1, app_assoc|].
      rewrite map_app, (Hok1 eq_refl). split.
      * by apply prefix_app.
      * intros Hok. by rewrite (Hok2 Hok).
    + exists new1. split; [done|]. split; [done|]. split; [done|].
      split; [by apply prefix_app_r|done].
Qed.

Lemma main_eq control experiment benchmarks trials benchmark_dir st :
  main control experiment benchmarks trials benchmark_dir st =
  match get_django_version control
          (State (heap st)
             (trace st ++
              [EvPrint (if bool_decide (benchmarks ≠ [])
                        then "Running benchmarks: " +:+ Str.join " " benchmarks
                        else "Running all benchmarks")])) with
  | (Ok control_label, st2) =>
      match get_django_version experiment st2 with
      | (Ok experiment_label, st3) =>
          let control_env := fresh (dom (heap st3)) in
          let h := <[control_env := {[ "PYTHONPATH" := PYTHONPATH benchmark_dir control ]}]>
                     (heap st3) in
          let experiment_env := fresh (dom h) in
          let st4 :=
            State
              (<[experiment_env := {[ "PYTHONPATH" := PYTHONPATH benchmark_dir experiment ]}]> h)
              (trace st3 ++
               [EvPrint ("Control: Django " +:+ control_label
                         +:+ " (in " +:+ control +:+ ")");
                EvPrint ("Experiment: Django " +:+ experiment_label
                         +:+ " (in " +:+ experiment +:+ ")");
                EvPrint EmptyString]) in
          match discover_benchmarks benchmark_dir with
          | Ok apps =>
              for_ apps
                (main_body benchmarks trials control_label experiment_label
                   control_env experiment_env) st4
          | Raise e => (Raise e, st4)
          end
      | (Raise e, st3) => (Raise e, st3)
      end
  | (Raise e, st2) => (Raise e, st2)
  end.
Proof.
  unfold main. rewrite bind_eq.
  assert ((if bool_decide (benchmarks ≠ [])
           then print ("Running benchmarks: " +:+ Str.join " " benchmarks)
           else print "Running all benchmarks") st
          = (Ok tt, State (heap st)
                      (trace st ++
                       [EvPrint (if bool_decide (benchmarks ≠ [])
                                 then "Running benchmarks: " +:+ Str.join " " benchmarks
                                 else "Running all benchmarks")]))) as ->.
  { by destruct (bool_decide (benchmarks ≠ [])). }
  rewrite bind_eq.
  destruct (get_django_version control _) as [[control_label|e] st2]; [|done].
  rewrite bind_eq.
  destruct (get_django_version experiment _) as [[experiment_label|e] st3]; [|done].
  step_print. step_print. step_print. step_new_dict. step_new_dict.
  rewrite bind_eq. unfold lift at 1.
  rewrite <- !app_assoc. simpl app.
  by destruct (discover_benchmarks benchmark_dir).
Qed.

(** Four objects created one after the other are new and pairwise distinct. *)
Lemma four_fresh (X X1 X2 X3 X4 : gset loc) (v1 v2 lc le : loc) :
  v1 ∉ X → X1 = {[v1]} ∪ X →
  v2 ∉ X1 → X2 = {[v2]} ∪ X1 →
  lc ∉ X2 → X3 = {[lc]} ∪ X2 →
  le ∉ X3 → X4 = {[le]} ∪ X3 →
  NoDup [v1; v2; lc; le]
  ∧ Forall (λ l, l ∉ X) [v1; v2; lc; le]
  ∧ lc ≠ le
  ∧ X1 ⊆ {[v1; v2; lc; le]} ∪ X
  ∧ X2 ⊆ {[v1; v2; lc; le]} ∪ X
  ∧ X4 ⊆ {[v1; v2; lc; le]} ∪ X.
Proof.
  intros H1 -> H2 -> H3 -> H4 ->.
  apply not_elem_of_union in H2 as [H21%not_elem_of_singleton H2].
  apply not_elem_of_union in H3 as [H32%not_elem_of_singleton H3].
  apply not_elem_of_union in H3 as [H31%not_elem_of_singleton H3].
  apply not_elem_of_union in H4 as [H4c%not_elem_of_singleton H4].
  apply not_elem_of_union in H4 as [H42%not_elem_of_singleton H4].
  apply not_elem_of_union in H4 as [H41%not_elem_of_singleton H4].
  split.
  { repeat (apply NoDup_cons; split);
      rewrite ?not_elem_of_cons; try apply NoDup_nil_2;
      repeat split; try apply not_elem_of_nil; done. }
  split; [by repeat constructor|]. split; [done|].
  repeat split; intros x; rewrite !elem_of_union, !elem_of_singleton; tauto.
Qed.

(** The run of [main] as its children see it: [main] creates four
    dictionaries, one per version query and one environment per side, and
    its invocations are the first ones of its plan, all of them when it
    completes. *)
Lemma main_outcome control experiment benchmarks trials benchmark_dir st :
  ∃ v_control v_experiment control_env experiment_env new,
    NoDup [v_control; v_experiment; control_env; experiment_env]
    ∧ Forall (λ l, l ∉ dom (heap st))
        [v_control; v_experiment; control_env; experiment_env]
    ∧ dom (heap (main control experiment benchmarks trials benchmark_dir st).2)
      ⊆ {[v_control; v_experiment; control_env; experiment_env]} ∪ dom (heap st)
    ∧ invocations (trace (main control experiment benchmarks trials benchmark_dir st).2)
      = invocations (trace st) ++ new
    ∧ map shape new `prefix_of`
        plan control experiment benchmarks trials benchmark_dir
          v_control v_experiment control_env experiment_env
    ∧ ((main control experiment benchmarks trials benchmark_dir st).1 = Ok tt →
       map shape new
       = plan control experiment benchmarks trials benchmark_dir
           v_control v_experiment control_env experiment_env).
Proof.
  set (v1 := fresh (dom (heap st))).
  set (d1 := {[ "PYTHONPATH" := absolute (parent control) ]} : dict).
  set (h1 := <[v1 := d1]> (heap st)).
  set (v2 := fresh (dom h1)).
  set (d2 := {[ "PYTHONPATH" := absolute (parent experiment) ]} : dict).
  set (h2 := <[v2 := d2]> h1).
  set (lc := fresh (dom h2)).
  set (dc := {[ "PYTHONPATH" := PYTHONPATH benchmark_dir control ]} : dict).
  set (h3 := <[lc := dc]> h2).
  set (le := fresh (dom h3)).
  set (de := {[ "PYTHONPATH" := PYTHONPATH benchmark_dir experiment ]} : dict).
  set (h4 := <[le := de]> h3).
  pose proof (is_fresh (dom (heap st))) as Hv1. fold v1 in Hv1.
  pose proof (is_fresh (dom h1)) as Hv2. fold v2 in Hv2.
  pose proof (is_fresh (dom h2)) as Hlc. fold lc in Hlc.
  pose proof (is_fresh (dom h3)) as Hle. fold le in Hle.
  assert (dom h1 = {[v1]} ∪ dom (heap st)) as Hd1 by apply dom_insert_L.
  assert (dom h2 = {[v2]} ∪ dom h1) as Hd2 by apply dom_insert_L.
  assert (dom h3 = {[lc]} ∪ dom h2) as Hd3 by apply dom_insert_L.
  assert (dom h4 = {[le]} ∪ dom h3) as Hd4 by apply dom_insert_L.
  exists v1, v2, lc, le.
  destruct (four_fresh _ _ _ _ _ _ _ _ _ Hv1 Hd1 Hv2 Hd2 Hlc Hd3 Hle Hd4)
    as (Hnodup & Hfresh & Hne & Hs1 & Hs2 & Hs4).
  rewrite main_eq.
  set (line1 := if bool_decide (benchmarks ≠ [])
                then "Running benchmarks: " +:+ Str.join " " benchmarks
                else "Running all benchmarks").
  rewrite get_django_version_eq. cbn [heap trace].
  fold v1 d1 h1. unfold plan. fold d1 d2.
  set (r1 := spawn (trace st ++ [EvPrint line1]) version_command d1 false []).
  set (i1 := Invocation version_command v1 d1 false [] r1).
  destruct r1 as [[[out1 err1] mem1]|e1] eqn:Hr1; cycle 1.
  { exists [i1]. cbn [fst snd heap trace].
    split; [done|]. split; [done|]. split; [exact Hs1|].
    split; [|split; [|intros [=]]].
    - by rewrite !invocations_app, app_nil_r.
    - apply prefix_cons, prefix_nil. }
  rewrite get_django_version_eq. cbn [heap trace].
  fold v2 d2 h2.
  set (r2 := spawn ((trace st ++ [EvPrint line1]) ++ [EvCall i1]) version_command d2 false []).
  set (i2 := Invocation version_command v2 d2 false [] r2).
  destruct r2 as [[[out2 err2] mem2]|e2] eqn:Hr2; cycle 1.
  { exists [i1; i2]. cbn [fst snd heap trace].
    split; [done|]. split; [done|]. split; [exact Hs2|].
    split; [|split; [|intros [=]]].
    - by rewrite !invocations_app, app_nil_r, <- app_assoc.
    - do 2 apply prefix_cons. apply prefix_nil. }
  cbv zeta. fold dc lc h3. fold de le h4. unfold chosen, discovered.
  set (tr := (((trace st ++ [EvPrint line1]) ++ [EvCall i1]) ++ [EvCall i2]) ++ _).
  assert (invocations tr = invocations (trace st) ++ [i1; i2]) as Htr.
  { unfold tr. rewrite !invocations_app. simpl. rewrite !app_nil_r.
    by rewrite <- app_assoc. }
  destruct (discover_benchmarks benchmark_dir) as [apps|e]; cycle 1.
  { exists [i1; i2]. cbn [fst snd heap trace].
    split; [done|]. split; [done|]. split; [exact Hs4|].
    split; [exact Htr|]. split; [|intros [=]].
    do 2 apply prefix_cons. apply prefix_nil. }
  assert (envs_ready benchmark_dir control experiment lc le h4) as Hready.
  { split; [exact Hne|]. split.
    - exists dc. split; [|done]. unfold h4. rewrite lookup_insert_ne by done.
      unfold h3. by rewrite lookup_insert_eq.
    - exists de. split; [|done]. unfold h4. by rewrite lookup_insert_eq. }
  destruct (main_loop_outcome benchmark_dir control experiment benchmarks trials
              (Str.strip out1) (Str.strip out2) lc le apps (State h4 tr) Hready)
    as (new & _ & Hdom & Hinv & Hpre & Hok).
  exists (i1 :: i2 :: new). split; [done|]. split; [done|].
  split; [by rewrite Hdom|]. split; [|split].
  - rewrite Hinv. simpl. rewrite Htr. by rewrite <- app_assoc.
  - simpl. by do 2 apply prefix_cons.
  - intros Hrun. simpl. do 2 f_equal. by apply Hok.
Qed.

(** *** Telling the invocations of a plan apart *)

Lemma append_length (s1 s2 : string) :
  String.length (s1 +:+ s2) = (String.length s1 + String.length s2)%nat.
Proof.
  induction s1 as [|c s1 IH]; [done|].
  rewrite append_cons. simpl. by rewrite IH.
Qed.

Lemma append_inj_l (s1 s2 suffix : string) :
  s1 +:+ suffix = s2 +:+ suffix → s1 = s2.
Proof.
  revert s2. induction s1 as [|c s1 IH]; intros s2 Heq.
  - destruct s2 as [|c' s2]; [done|].
    apply (f_equal String.length) in Heq.
    rewrite append_empty, append_cons in Heq. simpl in Heq.
    rewrite append_length in Heq. lia.
  - destruct s2 as [|c' s2].
    + apply (f_equal String.length) in Heq.
      rewrite append_empty, append_cons in Heq. simpl in Heq.
      rewrite append_length in Heq. lia.
    + rewrite !append_cons in Heq. injection Heq as -> Heq. f_equal. by apply IH.
Qed.

(** The version query is not the entry point of any benchmark. *)
Lemma version_command_not_benchmark b : version_command ≠ benchmark_command b.
Proof.
  unfold version_command, benchmark_command. intros [= Heq].
  repeat (destruct b as [|? b];
          [discriminate Heq|rewrite append_cons in Heq; injection Heq as _ Heq]).
  destruct b; discriminate Heq.
Qed.

Lemma selected_spec benchmarks b :
  selected benchmarks b = true ↔ benchmarks = [] ∨ name b ∈ benchmarks.
Proof.
  unfold selected. rewrite orb_true_iff, negb_true_iff.
  rewrite bool_decide_eq_false, bool_decide_eq_true.
  split; (intros [H|H]; [left|by right]).
  - by destruct benchmarks; [|destruct H].
  - intros Hne. by apply Hne.
Qed.

Lemma elem_of_chosen benchmarks benchmark_dir b :
  b ∈ chosen benchmarks benchmark_dir
  ↔ b ∈ discovered benchmark_dir ∧ (benchmarks = [] ∨ name b ∈ benchmarks).
Proof.
  unfold chosen. rewrite list_elem_of_filter, selected_spec. tauto.
Qed.

(** An entry of the plan that runs the entry point of [b] belongs to the
    block of [b]: [b] is chosen, and the entry is on the control side with
    the control environment or on the experiment side with the other. *)
Lemma plan_benchmark_entry control experiment benchmarks trials benchmark_dir
    v_control v_experiment control_env experiment_env b env content :
  (benchmark_command b, env, content)
    ∈ plan control experiment benchmarks trials benchmark_dir
        v_control v_experiment control_env experiment_env →
  b ∈ chosen benchmarks benchmark_dir
  ∧ ((env = control_env ∧ content = benchmark_env benchmark_dir control b)
     ∨ (env = experiment_env ∧ content = benchmark_env benchmark_dir experiment b)).
Proof.
  unfold plan. rewrite elem_of_app. intros [Hversion|Hblock].
  - exfalso. apply (version_command_not_benchmark b).
    apply elem_of_cons in Hversion as [Hv|Hversion];
      [by apply (f_equal (λ e, e.1.1)) in Hv|].
    apply elem_of_cons in Hversion as [Hv|Hversion];
      [by apply (f_equal (λ e, e.1.1)) in Hv|].
    by apply not_elem_of_nil in Hversion.
  - apply list_elem_of_In, in_flat_map in Hblock as (b' & Hb' & Hin).
    apply list_elem_of_In in Hb', Hin. unfold benchmark_block, side_block in Hin.
    apply elem_of_app in Hin as [Hin|Hin];
      apply elem_of_replicate in Hin as [[= Hcmd -> ->] _];
      apply append_inj_l in Hcmd as ->; auto.
Qed.

Lemma plan_chosen_entries control experiment benchmarks trials benchmark_dir
    v_control v_experiment control_env experiment_env b :
  b ∈ chosen benchmarks benchmark_dir →
  (benchmark_command b, control_env, benchmark_env benchmark_dir control b)
    ∈ plan control experiment benchmarks trials benchmark_dir
        v_control v_experiment control_env experiment_env.
Proof.
  intros Hb. unfold plan. apply elem_of_app. right.
  apply list_elem_of_In, in_flat_map. exists b. split; [by apply list_elem_of_In|].
  apply list_elem_of_In. unfold benchmark_block, side_block.
  apply elem_of_app. left. apply elem_of_replicate. split; [done|lia].
Qed.

(** The invocations of a run that are entries of a plan. *)
Lemma prefix_entry (new : list invocation) (entries : list (list string * loc * dict)) i :
  map shape new `prefix_of` entries → i ∈ new → shape i ∈ entries.
Proof.
  intros [rest ->] Hi. apply elem_of_app. left.
  by apply (list_elem_of_fmap_2 shape).
Qed.

(** *** Runs that complete *)

Lemma cooperative_calls h command env content n :
  cooperative → Forall numeric (calls_from h command env content n).
Proof.
  intros [Hspawn _]. revert h. induction n as [|n IH]; intros h; simpl.
  - constructor.
  - constructor; [|apply IH].
    destruct (Hspawn h command content) as (out & err & mem & xs & Hresp & Hxs).
    by exists out, err, mem, xs.
Qed.

Lemma cooperative_run_benchmark benchmark trials env st :
  cooperative → 1 ≤ trials →
  ∃ rd st', run_benchmark benchmark trials env st = (Ok rd, st').
Proof.
  intros Hcoop Htrials. apply run_benchmark_returns_iff. split; [done|].
  pose proof (cooperative_calls (trace st ++ [EvRemovePycs]) (benchmark_command benchmark)
                env (heap st !!! env) (S (Z.to_nat trials)) Hcoop) as Hnum.
  fold (benchmark_calls benchmark trials env st) in Hnum. split.
  - eapply Forall_impl; [exact Hnum|]. apply numeric_succeeded.
  - destruct (benchmark_calls benchmark trials env st); [done|]. by inversion Hnum.
Qed.

Lemma cooperative_main_body benchmarks trials cl el lc le b st :
  cooperative → 1 ≤ trials →
  ∃ st', main_body benchmarks trials cl el lc le b st = (Ok tt, st').
Proof.
  intros Hcoop Htrials. destruct (selected benchmarks b) eqn:Hsel.
  - rewrite main_body_eq by done.
    match goal with
    | |- context [run_benchmark b trials lc ?s] =>
        destruct (cooperative_run_benchmark b trials lc s Hcoop Htrials)
          as (cd & st2 & ->)
    end.
    destruct (cooperative_run_benchmark b trials le st2 Hcoop Htrials)
      as (ed & st3 & ->).
    destruct Hcoop as [_ Hcompare].
    destruct (Hcompare cd ed (Options false false (name b) true cl el)) as [r ->].
    by eexists.
  - rewrite main_body_skip by done. by eexists.
Qed.

Lemma cooperative_loop benchmarks trials cl el lc le apps st :
  cooperative → 1 ≤ trials →
  ∃ st', for_ apps (main_body benchmarks trials cl el lc le) st = (Ok tt, st').
Proof.
  intros Hcoop Htrials. revert st. induction apps as [|b apps IH]; intros st.
  - by eexists.
  - simpl for_. rewrite bind_eq.
    destruct (cooperative_main_body benchmarks trials cl el lc le b st Hcoop Htrials)
      as [st1 ->].
    apply IH.
Qed.

(** With cooperative children, at least one trial and a benchmark directory
    that can be listed, [main] runs to its end. *)
Lemma main_returns control experiment benchmarks trials benchmark_dir st apps :
  cooperative → 1 ≤ trials → listdir_DIRS benchmark_dir = Ok apps →
  (main control experiment benchmarks trials benchmark_dir st).1 = Ok tt.
Proof.
  intros Hcoop Htrials Hls. rewrite main_eq, get_django_version_eq.
  pose proof Hcoop as [Hspawn _]. cbn [heap trace].
  match goal with
  | |- context [spawn ?h version_command ?d false []] =>
      destruct (Hspawn h version_command d) as (out1 & ? & ? & ? & Hr1 & _);
        simpl in Hr1; rewrite Hr1
  end.
  rewrite get_django_version_eq. cbn [heap trace].
  match goal with
  | |- context [spawn ?h version_command ?d false []] =>
      destruct (Hspawn h version_command d) as (out2 & ? & ? & ? & Hr2 & _);
        simpl in Hr2; rewrite Hr2
  end.
  cbv zeta. unfold discover_benchmarks. rewrite Hls.
  match goal with
  | |- (for_ ?l (main_body _ _ ?cl ?el ?lc ?le) ?s).1 = _ =>
      destruct (cooperative_loop benchmarks trials cl el lc le l s Hcoop Htrials)
        as [st' ->]
  end.
  done.
Qed.

(** *** The claims about [main] *)

(** C9.  For every list of requested names and every discovered benchmark:
    a benchmark that is run is a discovered one that passes the filter (the
    list is empty or has its name), and in a run that completes a discovered
    benchmark is run exactly when it passes the filter. *)
Theorem main_runs_requested control experiment benchmarks trials benchmark_dir st :
  ∃ new,
    invocations (trace (main control experiment benchmarks trials benchmark_dir st).2)
    = invocations (trace st) ++ new
    ∧ (∀ b, is_run b new →
         b ∈ discovered benchmark_dir ∧ (benchmarks = [] ∨ name b ∈ benchmarks))
    ∧ ((main control experiment benchmarks trials benchmark_dir st).1 = Ok tt →
       ∀ b, b ∈ discovered benchmark_dir →
         (is_run b new ↔ benchmarks = [] ∨ name b ∈ benchmarks)).
Proof.
  destruct (main_outcome control experiment benchmarks trials benchmark_dir st)
    as (v1 & v2 & lc & le & new & _ & _ & _ & Hinv & Hpre & Hok).
  exists new. split; [done|].
  assert (∀ b, is_run b new →
            b ∈ discovered benchmark_dir ∧ (benchmarks = [] ∨ name b ∈ benchmarks))
    as Hrun.
  { intros b (i & Hi & Hcmd). apply elem_of_chosen.
    pose proof (prefix_entry _ _ _ Hpre Hi) as Hentry.
    unfold shape in Hentry. rewrite Hcmd in Hentry.
    by apply plan_benchmark_entry in Hentry as [? _]. }
  split; [done|]. intros Hmain b Hb. split; [by intros [_ ?]%Hrun|].
  intros Hsel.
  assert (b ∈ chosen benchmarks benchmark_dir) as Hchosen by by apply elem_of_chosen.
  pose proof (plan_chosen_entries control experiment benchmarks trials benchmark_dir
                v1 v2 lc le b Hchosen) as Hentry.
  rewrite <- (Hok Hmain) in Hentry.
  apply list_elem_of_fmap in Hentry as (i & Hshape & Hi).
  exists i. split; [done|]. unfold shape in Hshape. by simplify_eq.
Qed.

(** C5.  For every child invocation of a benchmark, the environment passed
    to the child holds exactly two variables: [PYTHONPATH], the colon-joined
    list of the benchmark root directory, the parent directory of the
    control (respectively experiment) framework tree and the tool's own
    directory, in this order; and [DJANGO_SETTINGS_MODULE], the name of the
    benchmark being run followed by [.settings].  The control side is the
    one that is passed the control environment. *)
Theorem main_child_environment control experiment benchmarks trials benchmark_dir st :
  ∃ control_env experiment_env new,
    control_env ≠ experiment_env
    ∧ invocations (trace (main control experiment benchmarks trials benchmark_dir st).2)
      = invocations (trace st) ++ new
    ∧ ∀ i b, i ∈ new → inv_command i = benchmark_command b →
        dom (inv_env i) = {[ "PYTHONPATH"; "DJANGO_SETTINGS_MODULE" ]}
        ∧ inv_env i !! "DJANGO_SETTINGS_MODULE" = Some (name b +:+ ".settings")
        ∧ ((inv_env_ref i = control_env
            ∧ inv_env i !! "PYTHONPATH"
              = Some (absolute benchmark_dir +:+ ":" +:+ absolute (parent control)
                      +:+ ":" +:+ parent file__))
           ∨ (inv_env_ref i = experiment_env
              ∧ inv_env i !! "PYTHONPATH"
                = Some (absolute benchmark_dir +:+ ":" +:+ absolute (parent experiment)
                        +:+ ":" +:+ parent file__))).
Proof.
  destruct (main_outcome control experiment benchmarks trials benchmark_dir st)
    as (v1 & v2 & lc & le & new & Hnodup & _ & _ & Hinv & Hpre & _).
  exists lc, le, new. split; [|split; [done|]].
  { apply NoDup_cons in Hnodup as [_ Hnodup]. apply NoDup_cons in Hnodup as [_ Hnodup].
    apply NoDup_cons in Hnodup as [Hne _]. intros ->. apply Hne. left. }
  intros i b Hi Hcmd.
  pose proof (prefix_entry _ _ _ Hpre Hi) as Hentry.
  unfold shape in Hentry. rewrite Hcmd in Hentry.
  apply plan_benchmark_entry in Hentry as [_ [[Href Henv]|[Href Henv]]];
    rewrite Henv; unfold benchmark_env;
    (split; [by rewrite dom_insert_L, dom_singleton_L, (comm_L (∪))|]);
    (split; [by rewrite lookup_insert_eq|]); [left|right];
    (split; [done|]); by rewrite lookup_insert_ne, lookup_singleton_eq.
Qed.

(** C3, amended.  In every run each of the two environment mappings is
    created once, before the loop over the benchmarks: a run creates four
    dictionaries whatever the number of benchmarks, one per version query
    and one per side.  The two environments are shared by all the
    benchmarks and updated in place: every child invocation of a benchmark
    is passed the control or the experiment object, which at that time holds
    the module search path of its side and the settings module of that
    benchmark. *)
Theorem main_shares_two_environments control experiment benchmarks trials
    benchmark_dir st :
  ∃ v_control v_experiment control_env experiment_env new,
    NoDup [v_control; v_experiment; control_env; experiment_env]
    ∧ Forall (λ l, l ∉ dom (heap st))
        [v_control; v_experiment; control_env; experiment_env]
    ∧ dom (heap (main control experiment benchmarks trials benchmark_dir st).2)
      ⊆ {[v_control; v_experiment; control_env; experiment_env]} ∪ dom (heap st)
    ∧ invocations (trace (main control experiment benchmarks trials benchmark_dir st).2)
      = invocations (trace st) ++ new
    ∧ ∀ i b, i ∈ new → inv_command i = benchmark_command b →
        (inv_env_ref i = control_env
         ∧ inv_env i = <[ "DJANGO_SETTINGS_MODULE" := name b +:+ ".settings" ]>
                         {[ "PYTHONPATH" := PYTHONPATH benchmark_dir control ]})
        ∨ (inv_env_ref i = experiment_env
           ∧ inv_env i = <[ "DJANGO_SETTINGS_MODULE" := name b +:+ ".settings" ]>
                           {[ "PYTHONPATH" := PYTHONPATH benchmark_dir experiment ]}).
Proof.
  destruct (main_outcome control experiment benchmarks trials benchmark_dir st)
    as (v1 & v2 & lc & le & new & Hnodup & Hfresh & Hdom & Hinv & Hpre & _).
  exists v1, v2, lc, le, new. do 4 (split; [done|]).
  intros i b Hi Hcmd.
  pose proof (prefix_entry _ _ _ Hpre Hi) as Hentry.
  unfold shape in Hentry. rewrite Hcmd in Hentry.
  by apply plan_benchmark_entry in Hentry as [_ ?].
Qed.

End Main.

(** C3 as stated fails.  With the benchmarks [A] and [C] and one trial, the
    third invocation of the run is the priming call of [A] on the control
    side and the seventh the priming call of [C] on the control side: both
    are passed the same dictionary object, and its content is not the same
    at the two calls. *)
Lemma main_environments_fresh_counterexample :
  ¬ environments_fresh (P := Lab.steady)
      (invocations
         (trace (main (P := Lab.steady) "/c/django" "/e/django" [] 1 Lab.root Lab.init).2))
  ∧ ¬ environments_unchanged
        (invocations
           (trace (main (P := Lab.steady) "/c/django" "/e/django" [] 1 Lab.root Lab.init).2)).
Proof.
  set (new := invocations _).
  destruct (new !! 2%nat) as [i|] eqn:Hi; [|by vm_compute in Hi].
  destruct (new !! 6%nat) as [j|] eqn:Hj; [|by vm_compute in Hj].
  pose proof (list_elem_of_lookup_2 _ _ _ Hi) as Hin_i.
  pose proof (list_elem_of_lookup_2 _ _ _ Hj) as Hin_j.
  vm_compute in Hi, Hj. injection Hi as Hi. injection Hj as Hj.
  split.
  - intros Hfresh.
    apply (Hfresh i j "/bench/A" "/bench/C" Hin_i Hin_j);
      subst i j; [reflexivity|reflexivity|discriminate|reflexivity].
  - intros Hsame.
    pose proof (Hsame i j Hin_i Hin_j) as Henv.
    subst i j. specialize (Henv eq_refl).
    apply (f_equal (λ d : dict, d !! "DJANGO_SETTINGS_MODULE")) in Henv.
    vm_compute in Henv. discriminate Henv.
Qed.

(** A complete run: [A] alone is requested among [A], [B] and [C], with two
    trials. *)
Example main_runs_A_only :
  (main (P := Lab.steady3) "/c/django" "/e/django" ["A"] 2 Lab.root Lab.init).1 = Ok tt
  ∧ map (λ i, (inv_command i, inv_env_ref i))
      (invocations
         (trace (main (P := Lab.steady3) "/c/django" "/e/django" ["A"] 2
                   Lab.root Lab.init).2))
    = [ (["python"; "-cimport django; print django.get_version()"], 1%positive);
        (["python"; "-cimport django; print django.get_version()"], 2%positive);
        (["python"; "/bench/A/benchmark.py"], 3%positive);
        (["python"; "/bench/A/benchmark.py"], 3%positive);
        (["python"; "/bench/A/benchmark.py"], 3%positive);
        (["python"; "/bench/A/benchmark.py"], 4%positive);
        (["python"; "/bench/A/benchmark.py"], 4%positive);
        (["python"; "/bench/A/benchmark.py"], 4%positive) ]
  ∧ printed
      (trace (main (P := Lab.steady3) "/c/django" "/e/django" ["A"] 2
                Lab.root Lab.init).2)
    = [ "Running benchmarks: A"; "Control: Django 1.5 (in /c/django)";
        "Experiment: Django 1.5 (in /e/django)"; EmptyString;
        "Running 'A' benchmark ..."; "A"; EmptyString ].
Proof. vm_compute. done. Qed.

(** The environment of the priming call of [A] on the control side. *)
Example main_environment_of_A :
  invocations
    (trace (main (P := Lab.steady3) "/c/django" "/e/django" ["A"] 2
              Lab.root Lab.init).2) !! 2%nat
  = Some (Invocation ["python"; "/bench/A/benchmark.py"] 3%positive
            {[ "PYTHONPATH" := "/bench:/c:/tool";
               "DJANGO_SETTINGS_MODULE" := "A.settings" ]}
            false [] (Lab.out "1.5")).
Proof. vm_compute. done. Qed.

Example steady_is_cooperative : cooperative (P := Lab.steady).
Proof.
  split.
  - intros h command content. by exists ("1.5" +:+ String Str.LF EmptyString), EmptyString, None, [3 # 2]%Q.
  - intros c e o. by eexists.
Qed.

(** ** More about the colours and the report *)

Lemma append_inj_r (s a b : string) : s +:+ a = s +:+ b → a = b.
Proof.
  induction s as [|c s IH]; [done|].
  rewrite !append_cons. intros [= Heq]. by apply IH.
Qed.

Lemma colorize_length color text :
  String.length (colorize.colorize color text)
  = (String.length color + String.length text + 4)%nat.
Proof. unfold colorize.colorize. rewrite !append_length. simpl. lia. Qed.

Lemma append_inj_length (s1 s2 a b : string) :
  String.length s1 = String.length s2 → s1 +:+ a = s2 +:+ b → s1 = s2 ∧ a = b.
Proof.
  revert s2. induction s1 as [|c s1 IH]; intros [|c' s2] Hlen Heq; try done.
  rewrite !append_cons in Heq. injection Heq as -> Heq.
  destruct (IH s2) as [-> ->]; [by injection Hlen|done|done].
Qed.

(** With arbitrary strings as colour codes the boundary between code and
    text is lost. *)
Example colorize_boundary :
  colorize.colorize "a" "b" = colorize.colorize "ab" EmptyString.
Proof. reflexivity. Qed.

(** X1. Colouring with the colour codes of the class loses nothing: a text
    coloured with one of the four codes is the coloured form of no other
    text and of no other of the four codes, so both can be read back from
    it.  With arbitrary strings as colour codes this fails, the boundary
    between code and text being lost; then the text is still determined when
    the code is known, and the code when the text is known.  A text and its
    four coloured forms are five different strings. *)
Theorem colorize_reads_back (color color' text text' : string) :
  (color ∈ palette → color' ∈ palette →
   colorize.colorize color text = colorize.colorize color' text' →
   color = color' ∧ text = text')
  ∧ (colorize.colorize color text = colorize.colorize color text' → text = text')
  ∧ (colorize.colorize color text = colorize.colorize color' text → color = color')
  ∧ NoDup [ text; colorize.good text; colorize.significant text;
            colorize.insignificant text; colorize.bad text ].
Proof.
  split.
  { intros Hc Hc' Heq.
    assert (∀ c, c ∈ palette → String.length c = 5%nat) as Hfive.
    { intros c Hin. unfold palette in Hin.
      repeat (apply elem_of_cons in Hin as [->|Hin]; [done|]).
      by apply elem_of_nil in Hin. }
    unfold colorize.colorize in Heq.
    apply append_inj_length in Heq as [-> Heq]; [|by rewrite !Hfive].
    split; [done|]. by apply append_inj_l in Heq. }
  assert (∀ c c' t, colorize.colorize c t = colorize.colorize c' t → c = c') as Hcolor.
  { unfold colorize.colorize. intros c c' t Heq. by apply append_inj_l in Heq. }
  assert (∀ c t, t ≠ colorize.colorize c t) as Hplain.
  { intros c t Heq. apply (f_equal String.length) in Heq.
    rewrite colorize_length in Heq. lia. }
  split; [|split; [apply Hcolor|]].
  - unfold colorize.colorize. intros Heq.
    apply append_inj_r in Heq. by apply append_inj_l in Heq.
  - repeat (apply NoDup_cons; split); rewrite ?not_elem_of_cons;
      try apply NoDup_nil_2; repeat split; try apply not_elem_of_nil;
      try apply Hplain;
      by intros [=]%Hcolor.
Qed.

Lemma contains_head (sub s rest : string) :
  Str.contains sub s = true → Str.contains sub (s +:+ rest) = true.
Proof.
  rewrite !contains_spec. intros (a & b & ->). exists a, (b +:+ rest).
  by rewrite !append_assoc.
Qed.

Lemma contains_tail (sub front s : string) :
  Str.contains sub s = true → Str.contains sub (front +:+ s) = true.
Proof.
  rewrite !contains_spec. intros (a & b & ->). exists (front +:+ a), b.
  by rewrite !append_assoc.
Qed.

Lemma contains_self (s : string) : Str.contains s s = true.
Proof.
  apply contains_spec. exists EmptyString, EmptyString.
  rewrite append_empty. clear. induction s as [|c s IH]; [done|].
  rewrite append_cons. by f_equal.
Qed.

Lemma contains_colorize color text :
  Str.contains text (colorize.colorize color text) = true.
Proof. apply contains_tail, contains_head, contains_self. Qed.

Section Report.
Context `{P : Platform}.

Lemma keyword_paint_contains first second color color' text :
  Str.contains text
    (keyword_paint first second (colorize.colorize color) (colorize.colorize color') text)
  = true.
Proof.
  unfold keyword_paint.
  destruct (Str.contains first text); [apply contains_colorize|].
  destruct (Str.contains second text); [apply contains_colorize|apply contains_self].
Qed.

Lemma colorize_benchmark_result_eq (r : BenchmarkResult Float) :
  colorize_benchmark_result (IsBenchmarkResult r)
  = report r
      (keyword_paint "faster" "slower" colorize.good colorize.bad (delta_min r))
      (keyword_paint "faster" "slower" colorize.good colorize.bad (delta_avg r))
      (keyword_paint "Not significant" "Significant"
         colorize.insignificant colorize.significant (t_msg r))
      (keyword_paint "larger" "smaller" colorize.bad colorize.good (delta_std r)).
Proof.
  unfold colorize_benchmark_result, report, keyword_paint. cbv zeta.
  rewrite !append_assoc. reflexivity.
Qed.

(** X2. The report of a [BenchmarkResult] shows everything the result holds:
    each of the six figures as formatted, each of the four texts, coloured
    or not, and the timeline are parts of the text that
    [colorize_benchmark_result] returns. *)
Theorem colorize_benchmark_result_shows_all (r : BenchmarkResult Float) :
  Forall (λ piece, Str.contains piece (colorize_benchmark_result (IsBenchmarkResult r)) = true)
    [ format_f (min_base r); format_f (min_changed r); delta_min r;
      format_f (avg_base r); format_f (avg_changed r); delta_avg r;
      t_msg r;
      format_5f (std_base r); format_5f (std_changed r); delta_std r;
      timeline r ].
Proof.
  rewrite colorize_benchmark_result_eq. unfold report.
  repeat constructor;
    repeat first
      [ apply contains_self
      | apply contains_head; first [apply contains_self | apply keyword_paint_contains]
      | apply contains_tail ].
Qed.

End Report.

(** ** More about the version query *)

Lemma lstrip_head (s : string) : head_space (Str.lstrip s) = false.
Proof.
  induction s as [|c s IH]; [done|]. simpl.
  destruct (Str.is_space c) eqn:Hc; [exact IH|]. simpl. exact Hc.
Qed.

Lemma rstrip_head (s : string) : head_space s = false → head_space (Str.rstrip s) = false.
Proof.
  destruct s as [|c s]; [done|]. simpl. intros Hc.
  destruct (Str.rstrip s); [|done]. by rewrite Hc.
Qed.

Lemma rstrip_last (s : string) : last_space (Str.rstrip s) = false.
Proof.
  induction s as [|c s IH]; [done|]. simpl.
  destruct (Str.rstrip s) as [|c' r] eqn:Hr.
  - destruct (Str.is_space c) eqn:Hc; [done|]. simpl. exact Hc.
  - exact IH.
Qed.

(** [strip] leaves no whitespace at either end. *)
Lemma strip_trimmed (s : string) :
  head_space (Str.strip s) = false ∧ last_space (Str.strip s) = false.
Proof.
  unfold Str.strip. split; [apply rstrip_head, lstrip_head|apply rstrip_last].
Qed.

Section Version.
Context `{P : Platform}.

(** X3. [get_django_version] asks once.  It creates one dictionary, holding
    [PYTHONPATH] alone, and leaves the dictionaries that exist as they are;
    it makes one call of the version command with that dictionary as
    environment, and prints nothing.  The label
    it returns is the output of the child with the whitespace at both ends
    taken away, whatever the child wrote to its standard error; the
    exception of a child that died comes out unchanged. *)
Theorem get_django_version_asks_once (djangodir : string) (st : state) :
  ∃ env i,
    (env ∉ dom (heap st))
    ∧ heap (get_django_version djangodir st).2 = <[env := version_env djangodir]> (heap st)
    ∧ (∀ l d, heap st !! l = Some d →
              heap (get_django_version djangodir st).2 !! l = Some d)
    ∧ trace (get_django_version djangodir st).2 = trace st ++ [EvCall i]
    ∧ shape i = (version_command, env, version_env djangodir)
    ∧ (get_django_version djangodir st).1
      = match inv_response i with
        | Ok (out, _, _) => Ok (Str.strip out)
        | Raise e => Raise e
        end
    ∧ (∀ label, (get_django_version djangodir st).1 = Ok label →
                (head_space label = false ∧ last_space label = false)).
Proof.
  rewrite get_django_version_eq. fold (version_env djangodir).
  eexists (fresh (dom (heap st))), _. cbn [fst snd heap trace].
  split; [apply is_fresh|]. split; [done|]. split.
  { intros l d Hl. rewrite lookup_insert_ne; [done|].
    intros <-. apply (is_fresh (dom (heap st))). apply elem_of_dom. by eexists. }
  split; [done|]. split; [done|]. split; [done|].
  intros label.
  destruct (spawn _ _ _ _ _) as [[[out err] mem]|e]; [|done].
  intros [= <-]. apply strip_trimmed.
Qed.

End Version.

(** ** More about the trial collector *)

Lemma printed_app tr1 tr2 : printed (tr1 ++ tr2) = printed tr1 ++ printed tr2.
Proof. apply omap_app. Qed.

Lemma printed_run tr (ivs : list invocation) :
  printed (tr ++ EvRemovePycs :: map EvCall ivs) = printed tr.
Proof.
  rewrite printed_app.
  assert (printed (EvRemovePycs :: map EvCall ivs) = []) as ->; [|apply app_nil_r].
  change (printed (map EvCall ivs) = []).
  induction ivs as [|i ivs IH]; [done|exact IH].
Qed.

Section Collector.
Context `{P : Platform}.

Lemma calls_from_plain h command env content n :
  Forall (λ i, inv_track_memory i = false ∧ inv_inherit_env i = [])
    (calls_from h command env content n).
Proof.
  revert h. induction n as [|n IH]; intros h; simpl; constructor; [done|apply IH].
Qed.

Lemma run_benchmark_printed benchmark trials env st :
  printed (trace (run_benchmark benchmark trials env st).2) = printed (trace st).
Proof.
  destruct (run_benchmark_outcome benchmark trials env st) as (k & _ & _ & -> & _).
  apply printed_run.
Qed.

Lemma run_benchmark_heap benchmark trials env st :
  heap (run_benchmark benchmark trials env st).2 = heap st.
Proof. by destruct (run_benchmark_outcome benchmark trials env st) as (k & _ & ? & _). Qed.

(** X4. Whatever the children do, and whether it returns or raises,
    [run_benchmark] changes no dictionary and prints nothing; it removes the
    compiled files once, before its first call, and then only calls: at
    least once and at most once more than there are trials, always with the
    benchmark's command and the environment it was given as that stood at
    the start, without memory tracking and inheriting nothing. *)
Theorem run_benchmark_only_calls benchmark trials env st :
  ∃ ivs,
    heap (run_benchmark benchmark trials env st).2 = heap st
    ∧ trace (run_benchmark benchmark trials env st).2
      = trace st ++ EvRemovePycs :: map EvCall ivs
    ∧ printed (trace (run_benchmark benchmark trials env st).2) = printed (trace st)
    ∧ (1 ≤ length ivs ≤ S (Z.to_nat trials))%nat
    ∧ Forall (λ i, shape i = (benchmark_command benchmark, env, heap st !!! env)
                   ∧ inv_track_memory i = false ∧ inv_inherit_env i = []) ivs.
Proof.
  destruct (run_benchmark_outcome benchmark trials env st)
    as (k & Hk & Hheap & Htrace & _).
  eexists. split; [exact Hheap|]. split; [exact Htrace|].
  split; [apply run_benchmark_printed|].
  split; [by rewrite calls_from_length|].
  apply Forall_forall. intros i Hi. split.
  - pose proof (calls_from_shape (trace st ++ [EvRemovePycs]) (benchmark_command benchmark)
                  env (heap st !!! env) k) as Hshape.
    assert (shape i ∈ replicate k (benchmark_command benchmark, env, heap st !!! env))
      as Hin.
    { rewrite <- Hshape. by apply (list_elem_of_fmap_2 shape). }
    by apply elem_of_replicate in Hin as [? _].
  - exact (proj1 (Forall_forall _ _) (calls_from_plain _ _ _ _ k) i Hi).
Qed.

(** A child that dies stops the loop with its own exception, if the
    children before it all printed numbers only. *)
Lemma trials_loop_dies n command env vars st good i rest e :
  calls_from (trace st) command env (heap st !!! env) n = good ++ i :: rest →
  Forall numeric good → inv_response i = Raise e →
  trials_loop n command env vars st
  = (Raise e, State (heap st) (trace st ++ map EvCall (good ++ [i]))).
Proof.
  revert vars st good. induction n as [|n IH]; intros vars st good Hcalls Hgood Hi.
  - simpl in Hcalls. by destruct good.
  - simpl in Hcalls. simpl. rewrite bind_eq, call_eq. simpl.
    destruct good as [|g good]; simpl in Hcalls; injection Hcalls as Hhd Htl.
    + rewrite <- Hhd in Hi. simpl in Hi. rewrite Hi in Hhd |- *. by rewrite <- Hhd.
    + inversion Hgood as [|? ? Hg Hgood']; subst g.
      destruct Hg as (out & err & mem & xs & Hresp & Hxs). simpl in Hresp.
      rewrite Hresp in Htl |- *. rewrite bind_eq. unfold lift. rewrite Hxs.
      match goal with
      | |- context [trials_loop n command env ?v ?s] =>
          rewrite (IH v s good) by done
      end.
      simpl. by rewrite <- app_assoc.
Qed.

(** X5. The exception of a child that dies is the exception of
    [run_benchmark].
    When the calls before it went well (all exited normally, the measured
    ones printing numbers only), [run_benchmark] raises what the child
    raised, right after that call: no later call is made, and the samples
    read so far are lost. *)
Theorem run_benchmark_child_dies benchmark trials env st good i rest e :
  benchmark_calls benchmark trials env st = good ++ i :: rest →
  Forall succeeded good → Forall numeric (tail good) →
  inv_response i = Raise e →
  run_benchmark benchmark trials env st
  = (Raise e, State (heap st) (trace st ++ EvRemovePycs :: map EvCall (good ++ [i]))).
Proof.
  intros Hcalls Hsucc Hnum Hi. unfold benchmark_calls in Hcalls. simpl in Hcalls.
  rewrite run_benchmark_eq, call_eq. simpl.
  destruct good as [|prime good]; simpl in Hcalls; injection Hcalls as Hhd Htl.
  - rewrite <- Hhd in Hi. simpl in Hi. rewrite Hi in Hhd |- *.
    rewrite <- Hhd. by rewrite <- app_assoc.
  - inversion Hsucc as [|? ? [c Hprime] _]; subst prime. simpl in Hprime.
    rewrite Hprime in Htl |- *. simpl in Hnum.
    match goal with
    | |- context [trials_loop ?n ?c ?l ?v ?s] =>
        rewrite (trials_loop_dies n c l v s good i rest e) by done
    end.
    simpl. by rewrite <- !app_assoc.
Qed.

Lemma numeric_sample_count i :
  numeric i → length (samples i) = length (Str.splitlines (stdout_of i)).
Proof.
  intros Hi. destruct (numeric_parsed i Hi) as (out & err & mem & Hresp & Hxs).
  unfold stdout_of. rewrite Hresp. symmetry. by eapply Forall2_length.
Qed.

(** X6. There are as many samples as the measured children printed lines, not as
    many as there are trials: when [run_benchmark] returns, the number of its
    samples is the number of output lines of the measured calls taken
    together.  In particular measured children that print nothing give a
    measurement without any sample, and no error. *)
Theorem run_benchmark_sample_per_line benchmark trials env st rd st' :
  run_benchmark benchmark trials env st = (Ok rd, st') →
  length (runtimes rd)
  = sum_list (map (λ i, length (Str.splitlines (stdout_of i)))
                (tail (benchmark_calls benchmark trials env st)))
  ∧ (Forall (λ i, stdout_of i = EmptyString) (tail (benchmark_calls benchmark trials env st)) →
     runtimes rd = []).
Proof.
  intros Hrun.
  destruct (proj1 (run_benchmark_returns_iff benchmark trials env st))
    as (Htrials & Hsucc & Hnum); [eauto|].
  destruct (run_benchmark_complete benchmark trials env st Htrials Hsucc Hnum)
    as (i & out & err & mem & _ & _ & Hrun').
  rewrite Hrun in Hrun'.
  assert (runtimes rd = flat_map samples (tail (benchmark_calls benchmark trials env st)))
    as Hrd by (by injection Hrun' as -> _).
  clear Hrun Hrun' Hsucc. revert Hrd Hnum.
  generalize (tail (benchmark_calls benchmark trials env st)). intros measured -> Hnum.
  assert (length (flat_map samples measured)
          = sum_list (map (λ i, length (Str.splitlines (stdout_of i))) measured)) as Hlen.
  { induction Hnum as [|j ivs Hj _ IH]; [done|].
    simpl. rewrite length_app, IH. by rewrite numeric_sample_count. }
  split; [exact Hlen|].
  intros Hsilent. apply length_zero_iff_nil. rewrite Hlen.
  clear -Hsilent. induction Hsilent as [|j ivs Hj _ IH]; [done|].
  simpl. by rewrite Hj, IH.
Qed.

End Collector.

Lemma run_benchmark_child_dies_witness :
  ∃ tr, run_benchmark (P := Lab.dying) "/bench/A" 3 1%positive Lab.init
        = (Raise (RuntimeError "Benchmark died: boom"), State ∅ tr)
        ∧ length (invocations tr) = 3%nat.
Proof.
  eexists. split.
  - eapply (run_benchmark_child_dies (P := Lab.dying) "/bench/A" 3 1%positive Lab.init
              [_; _] _ _).
    + reflexivity.
    + repeat constructor; eexists; reflexivity.
    + repeat constructor; do 4 eexists; split; reflexivity.
    + reflexivity.
  - reflexivity.
Defined.

Lemma run_benchmark_sample_per_line_witness :
  ∃ st', run_benchmark (P := Lab.silent) "/bench/A" 3 1%positive Lab.init
         = (Ok (mkRawData [] None EmptyString), st').
Proof.
  destruct (run_benchmark (P := Lab.silent) "/bench/A" 3 1%positive Lab.init)
    as [[rd|e] st'] eqn:Hrun; [|by vm_compute in Hrun].
  destruct (run_benchmark_sample_per_line (P := Lab.silent) _ _ _ _ _ _ Hrun)
    as [_ Hnone].
  exists st'. f_equal. destruct rd as [xs mem err]. simpl in Hnone.
  rewrite Hnone; [|repeat constructor].
  vm_compute in Hrun. by injection Hrun as _ -> ->.
Defined.

(** ** More about the run of [main] *)

Section Runs.
Context `{P : Platform}.

(** [main] up to its loop. *)
Lemma main_unfold control experiment benchmarks trials benchmark_dir st :
  main control experiment benchmarks trials benchmark_dir st =
  match inv_response (asked_control benchmarks control st) with
  | Raise e =>
      (Raise e, State (heap_control control st)
                  (trace st ++ [EvPrint (banner benchmarks);
                                EvCall (asked_control benchmarks control st)]))
  | Ok _ =>
      match inv_response (asked_experiment benchmarks control experiment st) with
      | Raise e =>
          (Raise e, State (heap_experiment control experiment st)
                      (trace st ++ [EvPrint (banner benchmarks);
                                    EvCall (asked_control benchmarks control st);
                                    EvCall (asked_experiment benchmarks control
                                              experiment st)]))
      | Ok _ =>
          match discover_benchmarks benchmark_dir with
          | Raise e => (Raise e, ready benchmarks control experiment benchmark_dir st)
          | Ok apps =>
              for_ apps
                (main_body benchmarks trials
                   (control_label_of benchmarks control st)
                   (experiment_label_of benchmarks control experiment st)
                   (control_env_of control experiment st)
                   (experiment_env_of benchmark_dir control experiment st))
                (ready benchmarks control experiment benchmark_dir st)
          end
      end
  end.
Proof.
  rewrite main_eq, get_django_version_eq. cbn [heap trace].
  unfold ready, control_label_of, experiment_label_of, stdout_of.
  unfold experiment_env_of, control_env_of, heap_experiment.
  unfold asked_experiment, asked_control, heap_control, version_env, banner.
  cbn [inv_response].
  destruct (spawn _ version_command _ false []) as [[[out1 err1] mem1]|e1].
  - rewrite get_django_version_eq. cbn [heap trace].
    destruct (spawn _ version_command _ false []) as [[[out2 err2] mem2]|e2].
    + cbv zeta. rewrite <- !app_assoc. reflexivity.
    + by rewrite <- !app_assoc.
  - by rewrite <- !app_assoc.
Qed.

(** The objects [main] creates are new and four. *)
Lemma main_objects control experiment benchmark_dir st :
  let v1 := fresh (dom (heap st)) in
  let v2 := fresh (dom (heap_control control st)) in
  let lc := control_env_of control experiment st in
  let le := experiment_env_of benchmark_dir control experiment st in
  NoDup [v1; v2; lc; le] ∧ Forall (λ l, l ∉ dom (heap st)) [v1; v2; lc; le].
Proof.
  intros v1 v2 lc le.
  destruct (four_fresh (dom (heap st)) (dom (heap_control control st))
              (dom (heap_experiment control experiment st))
              (dom (<[lc := {[ "PYTHONPATH" := PYTHONPATH benchmark_dir control ]}]>
                      (heap_experiment control experiment st)))
              (dom (<[le := {[ "PYTHONPATH" := PYTHONPATH benchmark_dir experiment ]}]>
                      (<[lc := {[ "PYTHONPATH" := PYTHONPATH benchmark_dir control ]}]>
                         (heap_experiment control experiment st))))
              v1 v2 lc le) as (? & ? & _); try apply is_fresh; try apply dom_insert_L.
  done.
Qed.

Lemma ready_old control experiment benchmarks benchmark_dir st l d :
  heap st !! l = Some d →
  heap (ready benchmarks control experiment benchmark_dir st) !! l = Some d
  ∧ l ≠ control_env_of control experiment st
  ∧ l ≠ experiment_env_of benchmark_dir control experiment st.
Proof.
  intros Hl.
  destruct (main_objects control experiment benchmark_dir st) as [_ Hfresh].
  assert (l ∈ dom (heap st)) as Hin by (apply elem_of_dom; by eexists).
  apply Forall_cons in Hfresh as [H1 Hfresh]. apply Forall_cons in Hfresh as [H2 Hfresh].
  apply Forall_cons in Hfresh as [H3 Hfresh]. apply Forall_cons in Hfresh as [H4 _].
  assert (l ≠ control_env_of control experiment st) as Hc by (by intros ->).
  assert (l ≠ experiment_env_of benchmark_dir control experiment st) as He
    by (by intros ->).
  split; [|done]. unfold ready, heap_experiment, heap_control. cbn [heap].
  rewrite !lookup_insert_ne; [done|by intros <-..].
Qed.

Lemma ready_envs control experiment benchmarks benchmark_dir st :
  control_env_of control experiment st
  ≠ experiment_env_of benchmark_dir control experiment st
  ∧ heap (ready benchmarks control experiment benchmark_dir st)
      !! control_env_of control experiment st
    = Some {[ "PYTHONPATH" := PYTHONPATH benchmark_dir control ]}
  ∧ heap (ready benchmarks control experiment benchmark_dir st)
      !! experiment_env_of benchmark_dir control experiment st
    = Some {[ "PYTHONPATH" := PYTHONPATH benchmark_dir experiment ]}.
Proof.
  destruct (main_objects control experiment benchmark_dir st) as [Hnodup _].
  apply NoDup_cons in Hnodup as [_ Hnodup]. apply NoDup_cons in Hnodup as [_ Hnodup].
  apply NoDup_cons in Hnodup as [Hne _].
  assert (control_env_of control experiment st
          ≠ experiment_env_of benchmark_dir control experiment st) as Hne'.
  { intros Heq. apply Hne. rewrite <- Heq. left. }
  split; [done|]. unfold ready. cbn [heap]. split.
  - rewrite lookup_insert_ne by done. by rewrite lookup_insert_eq.
  - by rewrite lookup_insert_eq.
Qed.

(** *** The settings module, set in both environments *)

Lemma stamp_other lc le s h l : l ≠ lc → l ≠ le → stamp lc le s h !! l = h !! l.
Proof.
  intros Hc He. unfold stamp. rewrite lookup_alter_ne by done.
  by rewrite lookup_alter_ne.
Qed.

Lemma stamp_again lc le s s' h : stamp lc le s' (stamp lc le s h) = stamp lc le s' h.
Proof.
  apply map_eq. intros l. unfold stamp.
  destruct (decide (l = le)) as [Hle|Hle]; destruct (decide (l = lc)) as [Hlc|Hlc];
    subst;
    repeat (rewrite lookup_alter_eq || rewrite lookup_alter_ne by done);
    try done;
    match goal with |- context [h !! ?k] => destruct (h !! k) as [d|] end;
    simpl; rewrite ?insert_insert_eq; done.
Qed.

(** *** One pass and the loop *)

Lemma main_body_heap benchmarks trials cl el lc le b st :
  heap (main_body benchmarks trials cl el lc le b st).2
  = if selected benchmarks b
    then stamp lc le (name b +:+ ".settings") (heap st) else heap st.
Proof.
  destruct (selected benchmarks b) eqn:Hsel; [|by rewrite main_body_skip].
  rewrite main_body_eq by done. fold (stamp lc le (name b +:+ ".settings") (heap st)).
  match goal with
  | |- context [run_benchmark b trials lc ?s] =>
      pose proof (run_benchmark_heap b trials lc s) as H1;
      destruct (run_benchmark b trials lc s) as [[cd|e] st2]; [|exact H1]
  end.
  pose proof (run_benchmark_heap b trials le st2) as H2.
  destruct (run_benchmark b trials le st2) as [[ed|e] st3]; simpl in *; [|congruence].
  destruct (CompareBenchmarkData cd ed _); simpl; congruence.
Qed.

Lemma main_loop_frame benchmarks trials cl el lc le apps st l :
  l ≠ lc → l ≠ le →
  heap (for_ apps (main_body benchmarks trials cl el lc le) st).2 !! l = heap st !! l.
Proof.
  intros Hc He. revert st. induction apps as [|b apps IH]; intros st; [done|].
  simpl for_. rewrite bind_eq.
  pose proof (main_body_heap benchmarks trials cl el lc le b st) as Hheap.
  assert (heap (main_body benchmarks trials cl el lc le b st).2 !! l = heap st !! l)
    as Hl.
  { rewrite Hheap. destruct (selected benchmarks b); [by apply stamp_other|done]. }
  destruct (main_body benchmarks trials cl el lc le b st) as [[[]|e] st1];
    simpl in *; [|done].
  by rewrite IH.
Qed.

(** After a loop that completes, both environments carry the settings
    module of the last benchmark that was run. *)
Lemma main_loop_last benchmarks trials cl el lc le apps st :
  (for_ apps (main_body benchmarks trials cl el lc le) st).1 = Ok tt →
  heap (for_ apps (main_body benchmarks trials cl el lc le) st).2
  = match last (filter (λ b, selected benchmarks b = true) apps) with
    | Some b => stamp lc le (name b +:+ ".settings") (heap st)
    | None => heap st
    end.
Proof.
  revert st. induction apps as [|b apps IH]; intros st; [done|].
  simpl for_. rewrite bind_eq.
  pose proof (main_body_heap benchmarks trials cl el lc le b st) as Hheap.
  destruct (main_body benchmarks trials cl el lc le b st) as [[[]|e] st1];
    simpl in *; [|done].
  intros Hok. rewrite (IH st1 Hok), Hheap.
  destruct (selected benchmarks b) eqn:Hsel.
  - rewrite filter_cons_True by done. rewrite last_cons.
    destruct (last _) as [b'|]; [apply stamp_again|done].
  - rewrite filter_cons_False; [done|]. by rewrite Hsel.
Qed.

(** A loop in which no benchmark passes the filter does nothing. *)
Lemma main_loop_idle benchmarks trials cl el lc le apps st :
  filter (λ b, selected benchmarks b = true) apps = [] →
  for_ apps (main_body benchmarks trials cl el lc le) st = (Ok tt, st).
Proof.
  revert st. induction apps as [|b apps IH]; intros st Hnone; [done|].
  destruct (selected benchmarks b) eqn:Hsel.
  - by rewrite filter_cons_True in Hnone.
  - rewrite filter_cons_False in Hnone; [|by rewrite Hsel].
    simpl for_. rewrite bind_eq, main_body_skip by done. by apply IH.
Qed.

Lemma stamp_control lc le s h d :
  lc ≠ le → h !! lc = Some d →
  stamp lc le s h !! lc = Some (<[ "DJANGO_SETTINGS_MODULE" := s ]> d).
Proof.
  intros Hne Hd. unfold stamp. rewrite lookup_alter_ne by done.
  by rewrite lookup_alter_eq, Hd.
Qed.

Lemma stamp_experiment lc le s h d :
  h !! le = Some d →
  stamp lc le s h !! le = Some (<[ "DJANGO_SETTINGS_MODULE" := s ]> d).
Proof.
  intros Hd. unfold stamp. rewrite lookup_alter_eq.
  destruct (decide (le = lc)) as [->|Hne].
  - rewrite lookup_alter_eq, Hd. simpl. by rewrite insert_insert_eq.
  - by rewrite lookup_alter_ne, Hd.
Qed.

(** The loop stops at the first benchmark whose pass raises. *)
Lemma main_loop_first benchmarks trials cl el lc le apps st b rest e :
  filter (λ b, selected benchmarks b = true) apps = b :: rest →
  (main_body benchmarks trials cl el lc le b st).1 = Raise e →
  for_ apps (main_body benchmarks trials cl el lc le) st
  = (Raise e, (main_body benchmarks trials cl el lc le b st).2).
Proof.
  revert st. induction apps as [|a apps IH]; intros st Hfilter Hbody; [done|].
  simpl for_. rewrite bind_eq.
  destruct (selected benchmarks a) eqn:Hsel.
  - rewrite filter_cons_True in Hfilter by done.
    injection Hfilter as -> _.
    by destruct (main_body benchmarks trials cl el lc le b st) as [[[]|e'] st1];
      simpl in *; simplify_eq.
  - rewrite filter_cons_False in Hfilter; [|by rewrite Hsel].
    rewrite main_body_skip by done. by apply IH.
Qed.

(** Without a trial, a pass stops after the priming call of its control
    side. *)
Lemma main_body_unbound benchmarks trials cl el lc le b st :
  selected benchmarks b = true → trials ≤ 0 →
  (∀ h command content, ∃ c, spawn h command content false [] = Ok c) →
  ∃ prime,
    main_body benchmarks trials cl el lc le b st
    = (Raise (UnboundLocalError "mem_usage"),
       State (stamp lc le (name b +:+ ".settings") (heap st))
         (trace st ++ [EvPrint ("Running '" +:+ name b +:+ "' benchmark ...");
                       EvRemovePycs; EvCall prime]))
    ∧ shape prime
      = (benchmark_command b, lc,
         stamp lc le (name b +:+ ".settings") (heap st) !!! lc).
Proof.
  intros Hsel Htrials Hexit. rewrite main_body_eq by done.
  fold (stamp lc le (name b +:+ ".settings") (heap st)).
  set (st1 := State _ _).
  destruct (benchmark_calls b trials lc st1) as [|prime others] eqn:Hcalls.
  { apply (f_equal length) in Hcalls. unfold benchmark_calls in Hcalls.
    by rewrite calls_from_length in Hcalls. }
  assert (succeeded prime ∧ shape prime = (benchmark_command b, lc, heap st1 !!! lc))
    as [Hprime Hshape].
  { unfold benchmark_calls in Hcalls. simpl in Hcalls.
    injection Hcalls as <- _. split; [apply Hexit|done]. }
  exists prime.
  rewrite (run_benchmark_unbound b trials lc st1 prime Htrials); [|by rewrite Hcalls|done].
  split; [|done]. unfold st1. cbn [heap trace]. by rewrite <- app_assoc.
Qed.

(** *** The passes of the loop *)

(** What one side of a benchmark calls, and the measurement it returns. *)
Lemma run_benchmark_side benchmark trials env st :
  ∃ calls,
    heap (run_benchmark benchmark trials env st).2 = heap st
    ∧ invocations (trace (run_benchmark benchmark trials env st).2)
      = invocations (trace st) ++ calls
    ∧ printed (trace (run_benchmark benchmark trials env st).2) = printed (trace st)
    ∧ Forall (λ i, shape i = (benchmark_command benchmark, env, heap st !!! env)) calls
    ∧ (1 ≤ length calls ≤ S (Z.to_nat trials))%nat
    ∧ (∀ rd, (run_benchmark benchmark trials env st).1 = Ok rd →
         built trials calls ∧ rd = measurement calls).
Proof.
  destruct (run_benchmark_outcome benchmark trials env st)
    as (k & Hk & Hheap & Htrace & Hok).
  exists (calls_from (trace st ++ [EvRemovePycs]) (benchmark_command benchmark) env
            (heap st !!! env) k).
  split; [done|]. split; [rewrite Htrace; apply invocations_run|].
  split; [rewrite Htrace; apply printed_run|].
  split.
  { apply Forall_forall. intros i Hi.
    assert (shape i ∈ replicate k (benchmark_command benchmark, env, heap st !!! env))
      as Hin.
    { rewrite <- (calls_from_shape (trace st ++ [EvRemovePycs])).
      by apply (list_elem_of_fmap_2 shape). }
    by apply elem_of_replicate in Hin as [? _]. }
  split; [rewrite calls_from_length; lia|].
  intros rd Hrd. destruct (Hok rd Hrd) as (-> & Htrials & Hsucc & Hnum).
  fold (benchmark_calls benchmark trials env st).
  split.
  { split; [done|]. split; [apply calls_from_length|done]. }
  destruct (run_benchmark_complete _ _ _ _ Htrials Hsucc Hnum)
    as (i & out & err & mem & Hlast & Hresp & Hrun).
  rewrite Hrun in Hrd. injection Hrd as <-. unfold measurement.
  by rewrite Hlast, Hresp.
Qed.

(** [run_benchmark] returns exactly when its series of calls is one from
    which a measurement is built, and then it returns that measurement. *)
Lemma run_benchmark_built benchmark trials env st :
  built trials (benchmark_calls benchmark trials env st)
  ↔ (run_benchmark benchmark trials env st).1
    = Ok (measurement (benchmark_calls benchmark trials env st)).
Proof.
  split.
  - intros (Htrials & _ & Hsucc & Hnum).
    destruct (run_benchmark_complete _ _ _ _ Htrials Hsucc Hnum)
      as (i & out & err & mem & Hlast & Hresp & ->).
    unfold measurement. by rewrite Hlast, Hresp.
  - intros Hrun.
    destruct (run_benchmark_outcome benchmark trials env st) as (k & _ & _ & _ & Hok).
    destruct (Hok _ Hrun) as (_ & Htrials & Hsucc & Hnum).
    split; [done|]. split; [apply calls_from_length|done].
Qed.

(** One pass of the loop that runs its benchmark. *)
Lemma main_body_pass benchmark_dir control experiment benchmarks trials
    cl el lc le b st :
  envs_ready benchmark_dir control experiment lc le (heap st) →
  selected benchmarks b = true →
  ∃ cs es,
    envs_ready benchmark_dir control experiment lc le
      (heap (main_body benchmarks trials cl el lc le b st).2)
    ∧ invocations (trace (main_body benchmarks trials cl el lc le b st).2)
      = invocations (trace st) ++ pass_calls (Pass b cs es)
    ∧ pass_sides benchmark_dir control experiment lc le (Pass b cs es)
    ∧ pass_in_turn trials (Pass b cs es)
    ∧ ((main_body benchmarks trials cl el lc le b st).1 = Ok tt →
       pass_done trials cl el (Pass b cs es)
       ∧ printed (trace (main_body benchmarks trials cl el lc le b st).2)
         = printed (trace st) ++ pass_lines cl el (Pass b cs es)).
Proof.
  intros Hready Hsel. rewrite main_body_eq by done.
  destruct (envs_ready_alter _ _ _ _ _ _ (name b +:+ ".settings") Hready)
    as (Hready1 & Hlc & Hle).
  set (h1 := alter _ le _) in *.
  set (st1 := State h1 _).
  destruct (run_benchmark_side b trials lc st1)
    as (cs & Hheap1 & Hinv1 & Hpr1 & Hsh1 & Hlen1 & Hok1).
  change (heap st1) with h1 in Hheap1, Hsh1.
  change (invocations (trace st1)) with
    (invocations (trace st ++ [EvPrint ("Running '" +:+ name b +:+ "' benchmark ...")]))
    in Hinv1.
  change (printed (trace st1)) with
    (printed (trace st ++ [EvPrint ("Running '" +:+ name b +:+ "' benchmark ...")]))
    in Hpr1.
  rewrite invocations_print in Hinv1. rewrite printed_app in Hpr1.
  rewrite Hlc in Hsh1.
  destruct (run_benchmark b trials lc st1) as [[cd|e] st2]; cbn [fst snd] in *.
  - destruct (Hok1 cd eq_refl) as [Hbuilt1 ->].
    destruct (run_benchmark_side b trials le st2)
      as (es & Hheap2 & Hinv2 & Hpr2 & Hsh2 & Hlen2 & Hok2).
    rewrite Hheap1 in Hsh2, Hheap2. rewrite Hle in Hsh2.
    rewrite Hinv1 in Hinv2. rewrite Hpr1 in Hpr2.
    assert (pass_sides benchmark_dir control experiment lc le (Pass b cs es))
      as Hsides by (by split).
    assert (pass_in_turn trials (Pass b cs es)) as Hturn.
    { split; [done|]. split; [simpl; lia|done]. }
    exists cs, es.
    destruct (run_benchmark b trials le st2) as [[ed|e] st3]; cbn [fst snd] in *.
    + destruct (Hok2 ed eq_refl) as [Hbuilt2 ->].
      destruct (CompareBenchmarkData (measurement cs) (measurement es) _)
        as [r|e] eqn:Hcmp; cbn [fst snd heap trace].
      * rewrite Hheap2. split; [done|]. split.
        { rewrite invocations_app, Hinv2. simpl. rewrite app_nil_r.
          unfold pass_calls. simpl. by rewrite app_assoc. }
        split; [done|]. split; [done|]. intros _. split.
        { split; [by split|]. by exists r. }
        rewrite printed_app, Hpr2.
        unfold pass_lines, pass_report, pass_result. cbn [pass_benchmark pass_control pass_experiment].
        rewrite Hcmp. rewrite <- app_assoc. reflexivity.
      * rewrite Hheap2. split; [done|]. split.
        { rewrite Hinv2. unfold pass_calls. simpl. by rewrite app_assoc. }
        done.
    + rewrite Hheap2. split; [done|]. split.
      { rewrite Hinv2. unfold pass_calls. simpl. by rewrite app_assoc. }
      done.
  - exists cs, []. rewrite Hheap1. split; [done|]. split.
    { rewrite Hinv1. unfold pass_calls. simpl. by rewrite app_nil_r. }
    split; [split; [done|constructor]|]. split; [|done].
    split; [done|]. split; [simpl; lia|done].
Qed.

(** The loop as a series of passes, one for each benchmark it has begun.
    Every pass takes its control side first, every pass but the last is
    done, and in a loop that completes the last one is done too. *)
Lemma main_loop_passes benchmark_dir control experiment benchmarks trials
    cl el lc le apps st :
  envs_ready benchmark_dir control experiment lc le (heap st) →
  ∃ passes,
    invocations (trace (for_ apps (main_body benchmarks trials cl el lc le) st).2)
    = invocations (trace st) ++ flat_map pass_calls passes
    ∧ map pass_benchmark passes
      `prefix_of` filter (λ b, selected benchmarks b = true) apps
    ∧ Forall (pass_sides benchmark_dir control experiment lc le) passes
    ∧ Forall (pass_in_turn trials) passes
    ∧ (∀ earlier p, passes = earlier ++ [p] → Forall (pass_done trials cl el) earlier)
    ∧ ((for_ apps (main_body benchmarks trials cl el lc le) st).1 = Ok tt →
       map pass_benchmark passes = filter (λ b, selected benchmarks b = true) apps
       ∧ Forall (pass_done trials cl el) passes
       ∧ printed (trace (for_ apps (main_body benchmarks trials cl el lc le) st).2)
         = printed (trace st) ++ flat_map (pass_lines cl el) passes).
Proof.
  revert st. induction apps as [|b apps IH]; intros st Hready.
  - exists []. simpl. rewrite !app_nil_r.
    split; [done|]. split; [done|]. split; [constructor|]. split; [constructor|].
    split; [|done]. intros earlier p Heq. by destruct earlier.
  - simpl for_. rewrite bind_eq. destruct (selected benchmarks b) eqn:Hsel.
    + rewrite filter_cons_True by done.
      destruct (main_body_pass benchmark_dir control experiment benchmarks trials
                  cl el lc le b st Hready Hsel)
        as (cs & es & Hready1 & Hinv1 & Hsides1 & Hturn1 & Hok1).
      destruct (main_body benchmarks trials cl el lc le b st) as [[[]|e] st1];
        cbn [fst snd] in *.
      * destruct (Hok1 eq_refl) as [Hdone1 Hpr1].
        destruct (IH st1 Hready1)
          as (passes & Hinv & Hpre & Hsides & Hturn & Hearlier & Hok).
        exists (Pass b cs es :: passes).
        split; [rewrite Hinv, Hinv1; simpl; by rewrite <- app_assoc|].
        split; [simpl; by apply prefix_cons|].
        split; [by constructor|]. split; [by constructor|]. split.
        { intros earlier p Heq. destruct earlier as [|q earlier]; [constructor|].
          simpl in Heq. injection Heq as <- Heq.
          constructor; [done|]. by apply (Hearlier earlier p). }
        intros Hrun. destruct (Hok Hrun) as (Hb & Hd & Hp).
        split; [simpl; by rewrite Hb|]. split; [by constructor|].
        rewrite Hp, Hpr1. simpl. by rewrite <- app_assoc.
      * exists [Pass b cs es]. simpl. rewrite !app_nil_r.
        split; [done|]. split; [apply prefix_cons, prefix_nil|].
        split; [by constructor|]. split; [by constructor|]. split; [|done].
        intros earlier p Heq. destruct earlier as [|q earlier]; [constructor|].
        simpl in Heq. injection Heq as _ Heq. by destruct earlier.
    + rewrite filter_cons_False by (by rewrite Hsel).
      rewrite main_body_skip by done. by apply IH.
Qed.

Lemma ready_is_ready control experiment benchmarks benchmark_dir st :
  envs_ready benchmark_dir control experiment
    (control_env_of control experiment st)
    (experiment_env_of benchmark_dir control experiment st)
    (heap (ready benchmarks control experiment benchmark_dir st)).
Proof.
  destruct (ready_envs control experiment benchmarks benchmark_dir st)
    as (Hne & Hc & He).
  split; [done|]. split; by eexists.
Qed.

(** The run of [main] as its version queries followed by the passes of its
    loop. *)
Lemma main_passes control experiment benchmarks trials benchmark_dir st :
  ∃ queries passes,
    invocations (trace (main control experiment benchmarks trials benchmark_dir st).2)
    = invocations (trace st) ++ queries ++ flat_map pass_calls passes
    ∧ queries `prefix_of` [asked_control benchmarks control st;
                           asked_experiment benchmarks control experiment st]
    ∧ map shape (queries ++ flat_map pass_calls passes)
      `prefix_of` plan control experiment benchmarks trials benchmark_dir
                    (fresh (dom (heap st))) (fresh (dom (heap_control control st)))
                    (control_env_of control experiment st)
                    (experiment_env_of benchmark_dir control experiment st)
    ∧ map pass_benchmark passes `prefix_of` chosen benchmarks benchmark_dir
    ∧ Forall (pass_sides benchmark_dir control experiment
                (control_env_of control experiment st)
                (experiment_env_of benchmark_dir control experiment st)) passes
    ∧ Forall (pass_in_turn trials) passes
    ∧ (∀ earlier p, passes = earlier ++ [p] →
         Forall (pass_done trials (control_label_of benchmarks control st)
                   (experiment_label_of benchmarks control experiment st)) earlier)
    ∧ ((main control experiment benchmarks trials benchmark_dir st).1 = Ok tt →
       queries = [asked_control benchmarks control st;
                  asked_experiment benchmarks control experiment st]
       ∧ map shape (queries ++ flat_map pass_calls passes)
         = plan control experiment benchmarks trials benchmark_dir
             (fresh (dom (heap st))) (fresh (dom (heap_control control st)))
             (control_env_of control experiment st)
             (experiment_env_of benchmark_dir control experiment st)
       ∧ map pass_benchmark passes = chosen benchmarks benchmark_dir
       ∧ Forall (pass_done trials (control_label_of benchmarks control st)
                   (experiment_label_of benchmarks control experiment st)) passes
       ∧ printed (trace (main control experiment benchmarks trials benchmark_dir st).2)
         = printed (trace st)
           ++ header control experiment benchmarks
                (control_label_of benchmarks control st)
                (experiment_label_of benchmarks control experiment st)
           ++ flat_map (pass_lines (control_label_of benchmarks control st)
                          (experiment_label_of benchmarks control experiment st))
                passes).
Proof.
  assert (∀ earlier (p : pass), [] = earlier ++ [p] →
            Forall (pass_done trials (control_label_of benchmarks control st)
                      (experiment_label_of benchmarks control experiment st)) earlier)
    as Hnone by (intros earlier p Heq; by destruct earlier).
  rewrite main_unfold. unfold plan.
  destruct (inv_response (asked_control benchmarks control st)) as [c1|e].
  2:{ exists [asked_control benchmarks control st], []. cbn [fst snd trace].
      split; [by rewrite invocations_app|].
      split; [apply prefix_cons, prefix_nil|].
      split; [apply prefix_cons, prefix_nil|].
      split; [apply prefix_nil|]. split; [constructor|]. split; [constructor|].
      split; [exact Hnone|done]. }
  destruct (inv_response (asked_experiment benchmarks control experiment st))
    as [c2|e].
  2:{ exists [asked_control benchmarks control st;
              asked_experiment benchmarks control experiment st], [].
      cbn [fst snd trace].
      split; [by rewrite invocations_app|]. split; [done|].
      split; [do 2 apply prefix_cons; apply prefix_nil|].
      split; [apply prefix_nil|]. split; [constructor|]. split; [constructor|].
      split; [exact Hnone|done]. }
  assert (invocations (trace (ready benchmarks control experiment benchmark_dir st))
          = invocations (trace st)
            ++ [asked_control benchmarks control st;
                asked_experiment benchmarks control experiment st]) as Hqueries.
  { unfold ready. cbn [trace]. by rewrite invocations_app. }
  assert (printed (trace (ready benchmarks control experiment benchmark_dir st))
          = printed (trace st)
            ++ header control experiment benchmarks
                 (control_label_of benchmarks control st)
                 (experiment_label_of benchmarks control experiment st)) as Hheader.
  { unfold ready. cbn [trace]. by rewrite printed_app. }
  unfold chosen, discovered.
  destruct (discover_benchmarks benchmark_dir) as [apps|e].
  2:{ exists [asked_control benchmarks control st;
              asked_experiment benchmarks control experiment st], [].
      cbn [fst snd].
      split; [by rewrite Hqueries|]. split; [done|].
      split; [do 2 apply prefix_cons; apply prefix_nil|].
      split; [apply prefix_nil|]. split; [constructor|]. split; [constructor|].
      split; [exact Hnone|done]. }
  pose proof (ready_is_ready control experiment benchmarks benchmark_dir st) as Hready.
  destruct (main_loop_passes benchmark_dir control experiment benchmarks trials
              (control_label_of benchmarks control st)
              (experiment_label_of benchmarks control experiment st) _ _ apps _ Hready)
    as (passes & Hinv & Hpre & Hsides & Hturn & Hearlier & Hok).
  destruct (main_loop_outcome benchmark_dir control experiment benchmarks trials
              (control_label_of benchmarks control st)
              (experiment_label_of benchmarks control experiment st) _ _ apps _ Hready)
    as (new & _ & _ & Hnew & Hshapes & Hfull).
  rewrite Hinv in Hnew. apply app_inv_head in Hnew. subst new.
  exists [asked_control benchmarks control st;
          asked_experiment benchmarks control experiment st], passes.
  split; [rewrite Hinv, Hqueries; by rewrite <- app_assoc|].
  split; [done|].
  split; [simpl; by do 2 apply prefix_cons|].
  split; [done|]. split; [done|]. split; [done|]. split; [done|].
  intros Hrun. destruct (Hok Hrun) as (Hb & Hd & Hp).
  split; [done|]. split; [simpl; do 2 f_equal; by apply Hfull|].
  split; [done|]. split; [done|].
  rewrite Hp, Hheader. by rewrite <- app_assoc.
Qed.

(** C8.  Every run is strictly sequential.  Its invocations are the version
    queries and then the calls of its passes, one pass for each benchmark
    that was begun, in discovery order.  In every pass the calls of the
    control side come first, and if the experiment side is called at all
    the control side is over by then and its measurement built: there is a
    trial, the priming call and one call for every trial were made on the
    control side, every one of these children exited normally and the
    measured ones printed numbers only.  A benchmark is begun only when both
    sides of the one before are over and their measurements built, each
    from one more call than there are trials, the same number on both
    sides.  A run that stops on an exception has made the first invocations
    of this sequence, a run that completes all of them; and with children
    that all exit normally and print numbers, a comparison that gives a
    result, a trial and a directory that can be listed, the run completes. *)
Theorem main_runs_sides_in_turn control experiment benchmarks trials benchmark_dir st :
  ∃ v_control v_experiment control_env experiment_env new queries passes,
    let sequence :=
      [ (version_command, v_control, {[ "PYTHONPATH" := absolute (parent control) ]});
        (version_command, v_experiment,
         {[ "PYTHONPATH" := absolute (parent experiment) ]}) ]
      ++ flat_map
           (λ b, replicate (S (Z.to_nat trials))
                   (benchmark_command b, control_env,
                    benchmark_env benchmark_dir control b)
                 ++ replicate (S (Z.to_nat trials))
                      (benchmark_command b, experiment_env,
                       benchmark_env benchmark_dir experiment b))
           (filter (λ b, selected benchmarks b = true) (discovered benchmark_dir)) in
    control_env ≠ experiment_env
    ∧ invocations (trace (main control experiment benchmarks trials benchmark_dir st).2)
      = invocations (trace st) ++ new
    ∧ map shape new `prefix_of` sequence
    ∧ ((main control experiment benchmarks trials benchmark_dir st).1 = Ok tt →
       map shape new = sequence)
    ∧ new = queries ++ flat_map pass_calls passes
    ∧ Forall (λ q, inv_command q = version_command) queries
    ∧ map pass_benchmark passes `prefix_of` chosen benchmarks benchmark_dir
    ∧ Forall (pass_sides benchmark_dir control experiment control_env experiment_env)
        passes
    ∧ Forall (pass_in_turn trials) passes
    ∧ (∀ earlier p, passes = earlier ++ [p] → Forall (pass_full trials) earlier)
    ∧ ((main control experiment benchmarks trials benchmark_dir st).1 = Ok tt →
       map pass_benchmark passes = chosen benchmarks benchmark_dir
       ∧ Forall (pass_full trials) passes)
    ∧ (cooperative → 1 ≤ trials →
       (∃ apps, listdir_DIRS benchmark_dir = Ok apps) →
       (main control experiment benchmarks trials benchmark_dir st).1 = Ok tt).
Proof.
  destruct (main_passes control experiment benchmarks trials benchmark_dir st)
    as (queries & passes & Hinv & Hqueries & Hshapes & Hpre & Hsides & Hturn
        & Hearlier & Hok).
  exists (fresh (dom (heap st))), (fresh (dom (heap_control control st))),
    (control_env_of control experiment st),
    (experiment_env_of benchmark_dir control experiment st),
    (queries ++ flat_map pass_calls passes), queries, passes.
  destruct (ready_envs control experiment benchmarks benchmark_dir st) as (Hne & _).
  assert (∀ l, Forall (pass_done trials (control_label_of benchmarks control st)
                         (experiment_label_of benchmarks control experiment st)) l →
               Forall (pass_full trials) l) as Hweaken.
  { intros l Hl. eapply Forall_impl; [exact Hl|]. by intros p [? _]. }
  split; [done|]. split; [done|]. split; [exact Hshapes|].
  split; [intros Hrun; by destruct (Hok Hrun) as (_ & ? & _)|].
  split; [done|]. split.
  { destruct Hqueries as [rest Hrest].
    assert (Forall (λ q, inv_command q = version_command) (queries ++ rest)) as Hall
      by (rewrite <- Hrest; by repeat constructor).
    by apply Forall_app in Hall as [? _]. }
  split; [done|]. split; [done|]. split; [done|]. split.
  { intros earlier p Heq. by apply Hweaken, (Hearlier earlier p). }
  split.
  { intros Hrun. destruct (Hok Hrun) as (_ & _ & ? & ? & _). split; [done|].
    by apply Hweaken. }
  intros Hcoop Htrials [apps Hls]. by eapply main_returns.
Qed.


(** X8. When both version queries succeed and the directory can be listed
    but holds no benchmark that passes the filter (the directory has no
    complete benchmark, or none of the requested names is there), [main]
    returns normally, having started the two version queries only and
    printed the four opening lines only. *)
Theorem main_nothing_to_run control experiment benchmarks trials benchmark_dir st apps :
  succeeded (asked_control benchmarks control st) →
  succeeded (asked_experiment benchmarks control experiment st) →
  listdir_DIRS benchmark_dir = Ok apps →
  chosen benchmarks benchmark_dir = [] →
  (main control experiment benchmarks trials benchmark_dir st).1 = Ok tt
  ∧ invocations (trace (main control experiment benchmarks trials benchmark_dir st).2)
    = invocations (trace st)
      ++ [asked_control benchmarks control st;
          asked_experiment benchmarks control experiment st]
  ∧ printed (trace (main control experiment benchmarks trials benchmark_dir st).2)
    = printed (trace st)
      ++ header control experiment benchmarks
           (control_label_of benchmarks control st)
           (experiment_label_of benchmarks control experiment st).
Proof.
  intros [c1 H1] [c2 H2] Hls Hnone. rewrite main_unfold, H1, H2.
  unfold chosen, discovered in Hnone. unfold discover_benchmarks in *. rewrite Hls in *.
  rewrite main_loop_idle by done.
  unfold ready. cbn [fst snd trace]. by rewrite invocations_app, printed_app.
Qed.

(** X9. With a number of trials below one, children that all exit normally
    and at least one benchmark to run, [main] raises [UnboundLocalError] for
    [mem_usage] in the first benchmark: after the two version queries it has
    started one child, the priming call of the control side of that
    benchmark, and after the opening lines it has printed the line naming
    the benchmark and no report. *)
Theorem main_without_trials control experiment benchmarks trials benchmark_dir st
    b rest :
  trials ≤ 0 →
  (∀ h command content, ∃ c, spawn h command content false [] = Ok c) →
  chosen benchmarks benchmark_dir = b :: rest →
  ∃ prime,
    (main control experiment benchmarks trials benchmark_dir st).1
    = Raise (UnboundLocalError "mem_usage")
    ∧ invocations (trace (main control experiment benchmarks trials benchmark_dir st).2)
      = invocations (trace st)
        ++ [asked_control benchmarks control st;
            asked_experiment benchmarks control experiment st; prime]
    ∧ shape prime
      = (benchmark_command b, control_env_of control experiment st,
         benchmark_env benchmark_dir control b)
    ∧ printed (trace (main control experiment benchmarks trials benchmark_dir st).2)
      = printed (trace st)
        ++ header control experiment benchmarks
             (control_label_of benchmarks control st)
             (experiment_label_of benchmarks control experiment st)
        ++ ["Running '" +:+ name b +:+ "' benchmark ..."].
Proof.
  intros Htrials Hexit Hchosen. rewrite main_unfold.
  assert (succeeded (asked_control benchmarks control st)) as [c1 H1] by apply Hexit.
  assert (succeeded (asked_experiment benchmarks control experiment st)) as [c2 H2]
    by apply Hexit.
  rewrite H1, H2. unfold chosen, discovered in Hchosen.
  destruct (discover_benchmarks benchmark_dir) as [apps|e]; [|done].
  assert (selected benchmarks b = true) as Hsel.
  { assert (b ∈ filter (λ b, selected benchmarks b = true) apps) as Hin
      by (rewrite Hchosen; left).
    by apply list_elem_of_filter in Hin as [? _]. }
  destruct (main_body_unbound benchmarks trials
              (control_label_of benchmarks control st)
              (experiment_label_of benchmarks control experiment st)
              (control_env_of control experiment st)
              (experiment_env_of benchmark_dir control experiment st) b
              (ready benchmarks control experiment benchmark_dir st)
              Hsel Htrials Hexit) as (prime & Hbody & Hshape).
  exists prime.
  rewrite (main_loop_first _ _ _ _ _ _ _ _ b rest (UnboundLocalError "mem_usage") Hchosen);
    [|by rewrite Hbody].
  rewrite Hbody. cbn [fst snd trace].
  destruct (ready_envs control experiment benchmarks benchmark_dir st)
    as (Hne & Hc & _).
  split; [done|]. split; [|split].
  - unfold ready. cbn [trace]. rewrite !invocations_app. simpl.
    rewrite <- app_assoc. reflexivity.
  - rewrite Hshape. f_equal.
    apply lookup_total_correct. by apply stamp_control.
  - unfold ready. cbn [trace]. rewrite !printed_app. simpl.
    rewrite <- !app_assoc. reflexivity.
Qed.

(** X10. When a version query dies, the control one or, after it succeeded,
    the experiment one, [main] raises the exception of that child: it has
    printed the banner and nothing else, it has started no child but the
    version queries up to the one that died, and no benchmark is run. *)
Theorem main_version_query_dies control experiment benchmarks trials benchmark_dir st e :
  inv_response (asked_control benchmarks control st) = Raise e
  ∨ (succeeded (asked_control benchmarks control st)
     ∧ inv_response (asked_experiment benchmarks control experiment st) = Raise e) →
  ∃ new,
    (main control experiment benchmarks trials benchmark_dir st).1 = Raise e
    ∧ invocations (trace (main control experiment benchmarks trials benchmark_dir st).2)
      = invocations (trace st) ++ new
    ∧ (new = [asked_control benchmarks control st]
       ∨ new = [asked_control benchmarks control st;
                asked_experiment benchmarks control experiment st])
    ∧ (∃ last_one, last new = Some last_one ∧ inv_response last_one = Raise e)
    ∧ (∀ benchmark, ¬ is_run benchmark new)
    ∧ printed (trace (main control experiment benchmarks trials benchmark_dir st).2)
      = printed (trace st) ++ [banner benchmarks].
Proof.
  assert (∀ benchmark, ¬ is_run benchmark
            [asked_control benchmarks control st;
             asked_experiment benchmarks control experiment st]) as Hnone.
  { intros benchmark (i & Hi & Hcommand).
    apply elem_of_cons in Hi as [->|Hi];
      [|apply elem_of_cons in Hi as [->|Hi]; [|by apply elem_of_nil in Hi]];
      by apply (version_command_not_benchmark benchmark). }
  intros [H1|[[c1 H1] H2]]; rewrite main_unfold, H1; [|rewrite H2].
  - exists [asked_control benchmarks control st]. cbn [fst snd trace].
    split; [done|]. split; [by rewrite invocations_app|]. split; [by left|].
    split; [by eexists|]. split; [|by rewrite printed_app].
    intros benchmark (i & Hi & Hcommand). apply (Hnone benchmark).
    exists i. split; [|done]. apply elem_of_cons in Hi as [->|Hi]; [left|].
    by apply elem_of_nil in Hi.
  - exists [asked_control benchmarks control st;
            asked_experiment benchmarks control experiment st].
    cbn [fst snd trace].
    split; [done|]. split; [by rewrite invocations_app|]. split; [by right|].
    split; [by eexists|]. split; [done|]. by rewrite printed_app.
Qed.

(** X11. When the benchmark directory cannot be listed,
    [discover_benchmarks] raises the error of the listing, and so does
    [main] if both version queries succeeded: the two version queries are
    all it has started, and the four opening lines all it has printed. *)
Theorem main_listing_fails control experiment benchmarks trials benchmark_dir st e :
  succeeded (asked_control benchmarks control st) →
  succeeded (asked_experiment benchmarks control experiment st) →
  listdir_DIRS benchmark_dir = Raise e →
  discover_benchmarks benchmark_dir = Raise e
  ∧ (main control experiment benchmarks trials benchmark_dir st).1 = Raise e
  ∧ invocations (trace (main control experiment benchmarks trials benchmark_dir st).2)
    = invocations (trace st)
      ++ [asked_control benchmarks control st;
          asked_experiment benchmarks control experiment st]
  ∧ printed (trace (main control experiment benchmarks trials benchmark_dir st).2)
    = printed (trace st)
      ++ header control experiment benchmarks
           (control_label_of benchmarks control st)
           (experiment_label_of benchmarks control experiment st).
Proof.
  intros [c1 H1] [c2 H2] Hls.
  assert (discover_benchmarks benchmark_dir = Raise e) as Hd
    by (unfold discover_benchmarks; by rewrite Hls).
  split; [done|]. rewrite main_unfold, H1, H2, Hd.
  unfold ready. cbn [fst snd trace]. by rewrite invocations_app, printed_app.
Qed.

(** X12. Whatever the outcome, [main] leaves every dictionary that existed
    before it as it was, and creates at most four: one for each version
    query and one environment for each side. *)
Theorem main_keeps_other_objects control experiment benchmarks trials benchmark_dir st :
  heap st ⊆ heap (main control experiment benchmarks trials benchmark_dir st).2
  ∧ dom (heap (main control experiment benchmarks trials benchmark_dir st).2)
    ⊆ {[ fresh (dom (heap st)); fresh (dom (heap_control control st));
         control_env_of control experiment st;
         experiment_env_of benchmark_dir control experiment st ]}
      ∪ dom (heap st).
Proof.
  destruct (main_objects control experiment benchmark_dir st) as [_ Hfresh].
  apply Forall_cons in Hfresh as [F1 Hfresh]. apply Forall_cons in Hfresh as [F2 Hfresh].
  apply Forall_cons in Hfresh as [F3 Hfresh]. apply Forall_cons in Hfresh as [F4 _].
  assert (heap st ⊆ heap_control control st) as S1.
  { apply insert_subseteq. by apply not_elem_of_dom. }
  assert (heap st ⊆ heap_experiment control experiment st) as S2.
  { etrans; [exact S1|]. apply insert_subseteq. apply not_elem_of_dom, is_fresh. }
  assert (dom (heap_control control st)
          ⊆ {[ fresh (dom (heap st)); fresh (dom (heap_control control st));
               control_env_of control experiment st;
               experiment_env_of benchmark_dir control experiment st ]}
            ∪ dom (heap st)) as D1.
  { unfold heap_control at 1. rewrite dom_insert_L. intros x.
    rewrite !elem_of_union, !elem_of_singleton. tauto. }
  assert (dom (heap_experiment control experiment st)
          ⊆ {[ fresh (dom (heap st)); fresh (dom (heap_control control st));
               control_env_of control experiment st;
               experiment_env_of benchmark_dir control experiment st ]}
            ∪ dom (heap st)) as D2.
  { unfold heap_experiment at 1. rewrite dom_insert_L. intros x Hx.
    apply elem_of_union in Hx as [Hx|Hx]; [|by apply D1].
    revert Hx. rewrite !elem_of_union, !elem_of_singleton. tauto. }
  assert (dom (heap (ready benchmarks control experiment benchmark_dir st))
          ⊆ {[ fresh (dom (heap st)); fresh (dom (heap_control control st));
               control_env_of control experiment st;
               experiment_env_of benchmark_dir control experiment st ]}
            ∪ dom (heap st)) as D3.
  { unfold ready. cbn [heap]. rewrite !dom_insert_L. intros x Hx.
    apply elem_of_union in Hx as [Hx|Hx];
      [|apply elem_of_union in Hx as [Hx|Hx]; [|by apply D2]];
      revert Hx; rewrite !elem_of_union, !elem_of_singleton; tauto. }
  rewrite main_unfold.
  destruct (inv_response (asked_control benchmarks control st)) as [c1|e]; [|done].
  destruct (inv_response (asked_experiment benchmarks control experiment st))
    as [c2|e]; [|done].
  assert (heap st ⊆ heap (ready benchmarks control experiment benchmark_dir st)) as S3.
  { apply map_subseteq_spec. intros l d Hl.
    by destruct (ready_old control experiment benchmarks benchmark_dir st l d Hl). }
  destruct (discover_benchmarks benchmark_dir) as [found|e]; [|done].
  split.
  - apply map_subseteq_spec. intros l d Hl.
    destruct (ready_old control experiment benchmarks benchmark_dir st l d Hl)
      as (Hready & Hc & He).
    by rewrite main_loop_frame.
  - intros l Hl. apply D3. apply elem_of_dom. apply elem_of_dom in Hl.
    destruct (decide (l = control_env_of control experiment st)) as [->|Hc].
    { destruct (ready_envs control experiment benchmarks benchmark_dir st)
        as (_ & -> & _). by eexists. }
    destruct (decide (l = experiment_env_of benchmark_dir control experiment st))
      as [->|He].
    { destruct (ready_envs control experiment benchmarks benchmark_dir st)
        as (_ & _ & ->). by eexists. }
    by rewrite main_loop_frame in Hl.
Qed.

(** X13. [main] starts at most two children and, for every benchmark it is
    to run, twice one more than the number of trials; a run that returns has
    started exactly that many. *)
Theorem main_invocation_count control experiment benchmarks trials benchmark_dir st :
  ∃ new,
    invocations (trace (main control experiment benchmarks trials benchmark_dir st).2)
    = invocations (trace st) ++ new
    ∧ (length new
       ≤ 2 + 2 * S (Z.to_nat trials) * length (chosen benchmarks benchmark_dir))%nat
    ∧ ((main control experiment benchmarks trials benchmark_dir st).1 = Ok tt →
       length new
       = (2 + 2 * S (Z.to_nat trials) * length (chosen benchmarks benchmark_dir))%nat).
Proof.
  destruct (main_outcome control experiment benchmarks trials benchmark_dir st)
    as (v1 & v2 & lc & le & new & _ & _ & _ & Hnew & Hprefix & Hfull).
  assert (length (plan control experiment benchmarks trials benchmark_dir v1 v2 lc le)
          = (2 + 2 * S (Z.to_nat trials) * length (chosen benchmarks benchmark_dir))%nat)
    as Hlen.
  { unfold plan. rewrite length_app. simpl length at 1. f_equal.
    induction (chosen benchmarks benchmark_dir) as [|b bs IH]; [simpl; lia|].
    cbn [flat_map]. rewrite length_app, IH.
    unfold benchmark_block, side_block. rewrite length_app, !length_replicate.
    cbn [length]. lia. }
  exists new. split; [done|]. split.
  - apply prefix_length in Hprefix. rewrite length_map in Hprefix. lia.
  - intros Hok. apply Hfull in Hok. apply (f_equal length) in Hok.
    rewrite length_map in Hok. lia.
Qed.

(** X14. After a run of [main] that returns, each of the two environment
    dictionaries holds the module search path of its side and the settings
    module of the last benchmark that was run, or the search path alone when
    no benchmark was. *)
Theorem main_final_environments control experiment benchmarks trials benchmark_dir st :
  (main control experiment benchmarks trials benchmark_dir st).1 = Ok tt →
  heap (main control experiment benchmarks trials benchmark_dir st).2
    !! control_env_of control experiment st
  = Some (match last (chosen benchmarks benchmark_dir) with
          | Some b => benchmark_env benchmark_dir control b
          | None => {[ "PYTHONPATH" := PYTHONPATH benchmark_dir control ]}
          end)
  ∧ heap (main control experiment benchmarks trials benchmark_dir st).2
      !! experiment_env_of benchmark_dir control experiment st
    = Some (match last (chosen benchmarks benchmark_dir) with
            | Some b => benchmark_env benchmark_dir experiment b
            | None => {[ "PYTHONPATH" := PYTHONPATH benchmark_dir experiment ]}
            end).
Proof.
  rewrite main_unfold.
  destruct (inv_response (asked_control benchmarks control st)) as [c1|e]; [|done].
  destruct (inv_response (asked_experiment benchmarks control experiment st))
    as [c2|e]; [|done].
  unfold chosen, discovered.
  destruct (discover_benchmarks benchmark_dir) as [apps|e]; [|done].
  intros Hok. rewrite (main_loop_last _ _ _ _ _ _ _ _ Hok).
  destruct (ready_envs control experiment benchmarks benchmark_dir st)
    as (Hne & Hc & He).
  destruct (last _) as [b|]; [|done].
  split; [by apply stamp_control|by apply stamp_experiment].
Qed.

End Runs.


Lemma main_runs_sides_in_turn_witness :
  (main (P := Lab.steady3) "/c/django" "/e/django" ["A"; "C"] 1 Lab.root Lab.init).1
  = Ok tt
  ∧ map (λ i, (inv_command i, inv_env_ref i))
      (invocations
         (trace (main (P := Lab.steady3) "/c/django" "/e/django" ["A"; "C"] 1
                   Lab.root Lab.init).2))
    = [ (["python"; "-cimport django; print django.get_version()"], 1%positive);
        (["python"; "-cimport django; print django.get_version()"], 2%positive);
        (["python"; "/bench/A/benchmark.py"], 3%positive);
        (["python"; "/bench/A/benchmark.py"], 3%positive);
        (["python"; "/bench/A/benchmark.py"], 4%positive);
        (["python"; "/bench/A/benchmark.py"], 4%positive);
        (["python"; "/bench/C/benchmark.py"], 3%positive);
        (["python"; "/bench/C/benchmark.py"], 3%positive);
        (["python"; "/bench/C/benchmark.py"], 4%positive);
        (["python"; "/bench/C/benchmark.py"], 4%positive) ].
Proof.
  destruct (main_runs_sides_in_turn (P := Lab.steady3) "/c/django" "/e/django"
              ["A"; "C"] 1 Lab.root Lab.init)
    as (v1 & v2 & lc & le & new & queries & passes & _ & _ & _ & _ & _ & _
        & _ & _ & _ & _ & _ & Hreturns).
  clear v1 v2 lc le new queries passes.
  split; [|vm_compute; reflexivity].
  apply Hreturns; clear Hreturns.
  - split.
    + intros h command content.
      exists ("1.5" +:+ String Str.LF EmptyString), EmptyString, None, [3 # 2]%Q.
      split; reflexivity.
    + intros c e o. eexists. reflexivity.
  - discriminate.
  - exists ["/bench/A"; "/bench/B"; "/bench/C"]. reflexivity.
Defined.

Lemma main_nothing_to_run_witness :
  (main (P := Lab.steady) "/c/django" "/e/django" ["nope"] 2 Lab.root Lab.init).1 = Ok tt
  ∧ length (invocations
              (trace (main (P := Lab.steady) "/c/django" "/e/django" ["nope"] 2
                        Lab.root Lab.init).2)) = 2%nat
  ∧ printed (trace (main (P := Lab.steady) "/c/django" "/e/django" ["nope"] 2
                      Lab.root Lab.init).2)
    = [ "Running benchmarks: nope"; "Control: Django 1.5 (in /c/django)";
        "Experiment: Django 1.5 (in /e/django)"; EmptyString ].
Proof.
  destruct (main_nothing_to_run (P := Lab.steady) "/c/django" "/e/django" ["nope"] 2
              Lab.root Lab.init ["/bench/A"; "/bench/B"; "/bench/C"])
    as (Hok & Hcalls & Hprinted).
  - eexists. vm_compute. reflexivity.
  - eexists. vm_compute. reflexivity.
  - reflexivity.
  - vm_compute. reflexivity.
  - split; [exact Hok|]. rewrite Hcalls, Hprinted. split; vm_compute; reflexivity.
Defined.

Lemma main_without_trials_witness :
  (main (P := Lab.steady) "/c/django" "/e/django" ["A"] 0 Lab.root Lab.init).1
  = Raise (UnboundLocalError "mem_usage")
  ∧ length (invocations
              (trace (main (P := Lab.steady) "/c/django" "/e/django" ["A"] 0
                        Lab.root Lab.init).2)) = 3%nat.
Proof.
  destruct (main_without_trials (P := Lab.steady) "/c/django" "/e/django" ["A"] 0
              Lab.root Lab.init "/bench/A" [])
    as (prime & Hraise & Hcalls & _).
  - lia.
  - intros h command content. eexists. reflexivity.
  - vm_compute. reflexivity.
  - split; [exact Hraise|]. by rewrite Hcalls.
Defined.

Lemma main_version_query_dies_witness :
  (main (P := Lab.stillborn) "/c/django" "/e/django" [] 2 Lab.root Lab.init).1
  = Raise (RuntimeError "Benchmark died: no django")
  ∧ printed (trace (main (P := Lab.stillborn) "/c/django" "/e/django" [] 2
                      Lab.root Lab.init).2)
    = [ "Running all benchmarks" ].
Proof.
  destruct (main_version_query_dies (P := Lab.stillborn) "/c/django" "/e/django" [] 2
              Lab.root Lab.init (RuntimeError "Benchmark died: no django"))
    as (new & Hraise & _ & _ & _ & _ & Hprinted).
  - left. vm_compute. reflexivity.
  - split; [exact Hraise|]. rewrite Hprinted. reflexivity.
Defined.

Lemma main_listing_fails_witness :
  (main (P := Lab.steady) "/c/django" "/e/django" [] 2 "/nowhere" Lab.init).1
  = Raise (OSError "/nowhere").
Proof.
  destruct (main_listing_fails (P := Lab.steady) "/c/django" "/e/django" [] 2
              "/nowhere" Lab.init (OSError "/nowhere"))
    as (_ & Hraise & _).
  - eexists. vm_compute. reflexivity.
  - eexists. vm_compute. reflexivity.
  - reflexivity.
  - exact Hraise.
Defined.

Lemma main_final_environments_witness :
  heap (main (P := Lab.steady3) "/c/django" "/e/django" [] 1 Lab.root Lab.init).2
    !! 3%positive
  = Some (benchmark_env (P := Lab.steady3) Lab.root "/c/django" "/bench/C")
  ∧ heap (main (P := Lab.steady3) "/c/django" "/e/django" [] 1 Lab.root Lab.init).2
      !! 4%positive
    = Some (benchmark_env (P := Lab.steady3) Lab.root "/e/django" "/bench/C").
Proof.
  exact (main_final_environments (P := Lab.steady3) "/c/django" "/e/django" [] 1
           Lab.root Lab.init ltac:(vm_compute; reflexivity)).
Defined.
